(** * Salary-survey ETL: the transformation stage

    A shallow embedding of [scripts/transform.py] (class
    [SalarySurveyTransformer]) and the properties of its pipeline.

    Modelling choices, all taken from the code and from pandas:
    - text is ASCII: Python's [str] methods and the [re] classes [\w], [\s],
      [\b] are given on the ASCII range, where they need no Unicode table;
    - a cell is a Python [str] or a missing value: the [NaN] that
      [pd.read_csv] puts in a text column, which [astype(str)] prints as
      [nan]; the [None] and [pd.NA] that the steps write are the same cell,
      as no step prints them. Every column holds such cells (dtype
      [object]), so the [.str] accessor is available on each column;
    - pandas is the one the code needs, 2.1 or later ([DataFrame.map]):
      [replace(..., None)] writes [None], it does not fill forward;
    - a [DataFrame] is a mutable object: the transformer works on references
      into a store of frames, [df[c] = ...] and [rename(inplace=True)] write
      through the reference, while [drop_duplicates], [drop], [replace],
      [map] and [df[[...]]] build a new object;
    - [try: ... except Exception] is an exception monad over that store, and
      the logger [self.logger] is the list of records it has received;
    - [pd.to_datetime(..., errors="coerce", utc=True)] followed by
      [.dt.strftime] is a parameter of the development: it maps a missing
      cell to a missing cell and a text cell to whatever the parser decides
      from the column and the text. *)

From Stdlib Require Import String Ascii List Bool Arith Lia DecimalString.
Import ListNotations.
Open Scope string_scope.
Open Scope list_scope.

Set Implicit Arguments.

(** ** Python text on the ASCII range *)

Module Py.

Definition code (c : ascii) : nat := nat_of_ascii c.

Definition between (lo hi : nat) (c : ascii) : bool :=
  Nat.leb lo (code c) && Nat.leb (code c) hi.

Definition is_upper (c : ascii) : bool := between 65 90 c.
Definition is_lower (c : ascii) : bool := between 97 122 c.
Definition is_digit (c : ascii) : bool := between 48 57 c.
Definition is_alpha (c : ascii) : bool := is_upper c || is_lower c.

(** [\w]: letters, digits and the underscore. *)
Definition is_word (c : ascii) : bool :=
  is_alpha c || is_digit c || Nat.eqb (code c) 95.

(** [\s] and [str.isspace]: TAB, LF, VT, FF, CR, the separators 28..31 and
    the space. *)
Definition is_space (c : ascii) : bool := between 9 13 c || between 28 32 c.

Definition lower_char (c : ascii) : ascii :=
  if is_upper c then ascii_of_nat (code c + 32) else c.

Definition upper_char (c : ascii) : ascii :=
  if is_lower c then ascii_of_nat (code c - 32) else c.

Fixpoint map_chars (f : ascii -> ascii) (s : string) : string :=
  match s with
  | EmptyString => EmptyString
  | String c r => String (f c) (map_chars f r)
  end.

Fixpoint keep_chars (p : ascii -> bool) (s : string) : string :=
  match s with
  | EmptyString => EmptyString
  | String c r => if p c then String c (keep_chars p r) else keep_chars p r
  end.

Fixpoint all_chars (p : ascii -> bool) (s : string) : bool :=
  match s with
  | EmptyString => true
  | String c r => p c && all_chars p r
  end.

(** [s.lower()] and [s.upper()]. *)
Definition lower : string -> string := map_chars lower_char.
Definition upper : string -> string := map_chars upper_char.

(** [s.strip()]. *)
Fixpoint lstrip (s : string) : string :=
  match s with
  | EmptyString => EmptyString
  | String c r => if is_space c then lstrip r else s
  end.

Fixpoint rstrip (s : string) : string :=
  match s with
  | EmptyString => EmptyString
  | String c r =>
      match rstrip r with
      | EmptyString => if is_space c then EmptyString else String c EmptyString
      | r' => String c r'
      end
  end.

Definition strip (s : string) : string := rstrip (lstrip s).

(** [s.title()]: a letter that follows a letter is lowered, any other letter
    is raised. *)
Fixpoint title_from (previous_is_cased : bool) (s : string) : string :=
  match s with
  | EmptyString => EmptyString
  | String c r =>
      String (if previous_is_cased then lower_char c else upper_char c)
             (title_from (is_alpha c) r)
  end.

Definition title : string -> string := title_from false.

(** [s.split(sep)[0]]. *)
Fixpoint split_first (sep : ascii) (s : string) : string :=
  match s with
  | EmptyString => EmptyString
  | String c r => if Ascii.eqb c sep then EmptyString
                  else String c (split_first sep r)
  end.

(** [s[0:n]]. *)
Definition slice0 (n : nat) (s : string) : string := substring 0 n s.

(** [needle in s]. *)
Fixpoint contains (needle s : string) : bool :=
  prefix needle s ||
  match s with
  | EmptyString => false
  | String _ r => contains needle r
  end.

(** [x in entries] for a list of strings. *)
Definition mem (x : string) (entries : list string) : bool :=
  existsb (String.eqb x) entries.

(** [str(n)] for a non-negative integer. *)
Definition str_of_nat (n : nat) : string :=
  NilEmpty.string_of_uint (Nat.to_uint n).

End Py.

(** ** The regular expressions of the transformer *)

Module Re.

Import Py.

(** [re.search(r'^\s*$', s)]: the text is blank. *)
Definition blank (s : string) : bool := all_chars is_space s.

(** [re.sub(r'\s+', ' ', s)]: every run of white space becomes one space. *)
Fixpoint squeeze_from (in_run : bool) (s : string) : string :=
  match s with
  | EmptyString => EmptyString
  | String c r =>
      if is_space c
      then (if in_run then squeeze_from true r
            else String " "%char (squeeze_from true r))
      else String c (squeeze_from false r)
  end.

Definition squeeze : string -> string := squeeze_from false.

(** [re.sub(r'[^\w\s]', '', s)]. *)
Definition drop_punctuation : string -> string :=
  keep_chars (fun c => is_word c || is_space c).

(** [re.sub(r'[^0-9.]', '', s)]. *)
Definition keep_numeric : string -> string :=
  keep_chars (fun c => is_digit c || Ascii.eqb c "."%char).

(** [re.sub(r'[^a-z\s]', '', s)]. *)
Definition keep_lower_letters : string -> string :=
  keep_chars (fun c => is_lower c || is_space c).

(** [re.sub(r'[^A-Z/]', ' ', s)]. *)
Definition blank_non_code : string -> string :=
  map_chars (fun c => if is_upper c || Ascii.eqb c "/"%char then c
                      else " "%char).

(** [re.sub(r'\(.*?\)', '', s)]: from an opening parenthesis to the nearest
    closing one, when no line feed stands between them ([.] does not match
    a line feed). *)
Fixpoint closes (s : string) : bool :=
  match s with
  | EmptyString => false
  | String c r =>
      if Ascii.eqb c ")"%char then true
      else if Ascii.eqb c "010"%char then false
      else closes r
  end.

Fixpoint drop_parens_from (inside : bool) (s : string) : string :=
  match s with
  | EmptyString => EmptyString
  | String c r =>
      if inside
      then (if Ascii.eqb c ")"%char then drop_parens_from false r
            else drop_parens_from true r)
      else if Ascii.eqb c "("%char && closes r then drop_parens_from true r
      else String c (drop_parens_from false r)
  end.

Definition drop_parens : string -> string := drop_parens_from false.

(** [\b] between the character before a position and the one at it. *)
Definition word_at (c : option ascii) : bool :=
  match c with Some x => is_word x | None => false end.

Definition boundary (before after : option ascii) : bool :=
  negb (Bool.eqb (word_at before) (word_at after)).

Definition first_char (s : string) : option ascii :=
  match s with EmptyString => None | String c _ => Some c end.

Fixpoint last_char (s : string) : option ascii :=
  match s with
  | EmptyString => None
  | String c EmptyString => Some c
  | String _ r => last_char r
  end.

Fixpoint skipn_chars (n : nat) (s : string) : string :=
  match n, s with
  | S k, String _ r => skipn_chars k r
  | _, _ => s
  end.

(** One alternative of a group followed by [\b], tried at the head of [s]. *)
Definition alternative_here (s : string) (alt : string) : bool :=
  prefix alt s &&
  boundary (last_char alt) (first_char (skipn_chars (String.length alt) s)).

(** [\b(alt1|alt2|...)\b] tried at the head of [s], the character before it
    being [before]: the first alternative, in order, that matches. *)
Definition match_here (alts : list string) (before : option ascii)
           (s : string) : option string :=
  if boundary before (first_char s)
  then find (alternative_here s) alts
  else None.

(** [re.findall(r'\b(alt1|...)\b', s)]: the matches from left to right,
    without overlap; [skip] counts the characters of the running match that
    are still to be passed. *)
Fixpoint findall_from (alts : list string) (before : option ascii)
         (skip : nat) (s : string) : list string :=
  match s with
  | EmptyString => []
  | String c r =>
      match skip with
      | S k => findall_from alts (Some c) k r
      | O =>
          match match_here alts before s with
          | Some m => m :: findall_from alts (Some c) (String.length m - 1) r
          | None => findall_from alts (Some c) 0 r
          end
      end
  end.

Definition findall (alts : list string) (s : string) : list string :=
  findall_from alts None 0 s.

End Re.

(** ** Cells, series and frames *)

(** A cell of a text column: a [str], or the missing value. *)
Inductive cell : Type :=
| Str (s : string)
| Null.

Definition Series : Type := list cell.

(** A frame: the length of its index and its columns in label order.  Labels
    may repeat, as pandas allows. *)
Record DataFrame : Type := mkFrame {
  nrows : nat;
  data : list (string * Series)
}.

(** [pd.DataFrame()]. *)
Definition DataFrame_empty : DataFrame := mkFrame 0 [].

Module Frame.

Definition labels (d : DataFrame) : list string := map fst (data d).

(** [df.empty]: one of the two axes has length 0. *)
Definition empty (d : DataFrame) : bool :=
  Nat.eqb (nrows d) 0 || Nat.eqb (length (data d)) 0.

(** Every column is as long as the index. *)
Definition well_formed (d : DataFrame) : Prop :=
  Forall (fun p => length (snd p) = nrows d) (data d).

Definition isna (x : cell) : bool :=
  match x with Null => true | Str _ => false end.

Definition cell_eqb (x y : cell) : bool :=
  match x, y with
  | Str a, Str b => String.eqb a b
  | Null, Null => true
  | _, _ => false
  end.

Fixpoint row_eqb (r1 r2 : list cell) : bool :=
  match r1, r2 with
  | [], [] => true
  | x :: t1, y :: t2 => cell_eqb x y && row_eqb t1 t2
  | _, _ => false
  end.

(** The columns that carry label [c]: what [df[c]] selects. *)
Definition select (d : DataFrame) (c : string) : list Series :=
  map snd (filter (fun p => String.eqb (fst p) c) (data d)).

Definition row (d : DataFrame) (i : nat) : list cell :=
  map (fun p => nth i (snd p) Null) (data d).

Definition rows (d : DataFrame) : list (list cell) :=
  map (row d) (seq 0 (nrows d)).

(** Boolean indexing, [df[mask]]. *)
Fixpoint pick (A : Type) (mask : list bool) (s : list A) : list A :=
  match mask, s with
  | b :: m, x :: t => if b then x :: pick m t else pick m t
  | _, _ => []
  end.

Definition take (mask : list bool) (d : DataFrame) : DataFrame :=
  mkFrame (length (filter (fun b => b) mask))
          (map (fun p => (fst p, pick mask (snd p))) (data d)).

Definition occurrences (r : list cell) (rs : list (list cell)) : nat :=
  length (filter (row_eqb r) rs).

(** [df.duplicated(keep=False)]: the rows that occur at least twice. *)
Definition duplicated_all (d : DataFrame) : list bool :=
  map (fun r => Nat.leb 2 (occurrences r (rows d))) (rows d).

(** The rows that [df.drop_duplicates()] keeps: the first of each. *)
Fixpoint firsts (seen rs : list (list cell)) : list bool :=
  match rs with
  | [] => []
  | r :: t => negb (existsb (row_eqb r) seen) :: firsts (r :: seen) t
  end.

Definition drop_duplicates (d : DataFrame) : DataFrame :=
  take (firsts [] (rows d)) d.

(** [df.isnull().all(axis=1)]. *)
Definition all_null (d : DataFrame) : list bool :=
  map (forallb isna) (rows d).

(** [df.dropna(how="all")]. *)
Definition dropna_all (d : DataFrame) : DataFrame :=
  take (map negb (all_null d)) d.

(** Every column labelled [c] rewritten by [g]. *)
Definition update (c : string) (g : Series -> Series) (d : DataFrame)
  : DataFrame :=
  mkFrame (nrows d)
          (map (fun p => if String.eqb (fst p) c then (fst p, g (snd p))
                         else p) (data d)).

(** The columns labelled [c] take the values [v], in order. *)
Fixpoint put (c : string) (v : list Series) (cols : list (string * Series))
  : list (string * Series) :=
  match cols with
  | [] => []
  | p :: r =>
      if String.eqb (fst p) c
      then match v with
           | x :: v' => (fst p, x) :: put c v' r
           | [] => p :: put c [] r
           end
      else p :: put c v r
  end.

(** A frame-wide cell map: [df.replace(...)], [df.map(...)]. *)
Definition map_cells (f : cell -> cell) (d : DataFrame) : DataFrame :=
  mkFrame (nrows d) (map (fun p => (fst p, map f (snd p))) (data d)).

(** [df.rename(columns=m)]: a label outside the mapping is kept. *)
Fixpoint lookup (A : Type) (k : string) (m : list (string * A)) : option A :=
  match m with
  | [] => None
  | (k', v) :: r => if String.eqb k k' then Some v else lookup k r
  end.

Definition rename_label (m : list (string * string)) (l : string) : string :=
  match lookup l m with Some l' => l' | None => l end.

Definition rename (m : list (string * string)) (d : DataFrame) : DataFrame :=
  mkFrame (nrows d) (map (fun p => (rename_label m (fst p), snd p)) (data d)).

(** The columns of [df[[c1, ..., cn]]], when every label is present. *)
Fixpoint gather (cs : list string) (d : DataFrame)
  : option (list (string * Series)) :=
  match cs with
  | [] => Some []
  | c :: r =>
      match select d c, gather r d with
      | (_ :: _) as found, Some rest => Some (map (pair c) found ++ rest)
      | _, _ => None
      end
  end.

(** The first label of [cs] that the frame lacks. *)
Definition missing (cs : list string) (d : DataFrame) : option string :=
  find (fun c => Nat.eqb (length (select d c)) 0) cs.

End Frame.

(** ** Exceptions, state and the logger *)

Inductive exn : Type :=
| KeyError (key : string)
| AttributeError (attribute : string)
| ValueError
| NotImplementedError
| ReferenceError.

Inductive result (A : Type) : Type :=
| Ok (a : A)
| Raise (e : exn).

Arguments Ok {A} a.
Arguments Raise {A} e.

(** A computation over a mutable state that returns or raises; what it
    wrote before raising stays written. *)
Definition SE (S A : Type) : Type := S -> result A * S.

Definition ret {S A : Type} (a : A) : SE S A := fun s => (Ok a, s).

Definition bind {S A B : Type} (m : SE S A) (k : A -> SE S B) : SE S B :=
  fun s =>
    match m s with
    | (Ok a, s') => k a s'
    | (Raise e, s') => (Raise e, s')
    end.

Definition raise {S A : Type} (e : exn) : SE S A := fun s => (Raise e, s).

Definition gets {S A : Type} (f : S -> A) : SE S A := fun s => (Ok (f s), s).

Definition modify {S : Type} (f : S -> S) : SE S unit :=
  fun s => (Ok tt, f s).

(** [try: m except Exception as e: h e]. *)
Definition try_except {S A : Type} (m : SE S A) (h : exn -> SE S A)
  : SE S A :=
  fun s =>
    match m s with
    | (Ok a, s') => (Ok a, s')
    | (Raise e, s') => h e s'
    end.

Declare Scope se_scope.
Delimit Scope se_scope with se.
Notation "x <- m ;; k" := (bind m (fun x => k))
  (at level 61, m at next level, right associativity) : se_scope.
Notation "m ;; k" := (bind m (fun _ => k))
  (at level 61, right associativity) : se_scope.
Notation "m >>= k" := (bind m k)
  (at level 50, left associativity) : se_scope.
Open Scope se_scope.

Inductive level : Type := INFO | WARNING | ERROR | CRITICAL.

(** A record handed to the logger: its level, its text, and the exception a
    message interpolates as [{e}]. *)
Record log_record : Type := Log {
  severity : level;
  message : string;
  exception : option exn
}.

(** ** The store of frames *)

Definition loc : Type := nat.

Record world : Type := mkWorld {
  heap : list DataFrame;
  logged : list log_record
}.

Definition M : Type -> Type := SE world.

Definition deref (w : world) (l : loc) : option DataFrame :=
  nth_error (heap w) l.

Fixpoint store_at (l : loc) (d : DataFrame) (h : list DataFrame)
  : list DataFrame :=
  match h, l with
  | [], _ => []
  | _ :: t, O => d :: t
  | x :: t, S k => x :: store_at k d t
  end.

(** Statements run on the object behind [df]; a reference outside the store
    has no Python counterpart and raises. *)
Definition on {A : Type} (df : loc) (m : SE DataFrame A) : M A :=
  fun w =>
    match deref w df with
    | None => (Raise ReferenceError, w)
    | Some d =>
        let (r, d') := m d in
        (r, mkWorld (store_at df d' (heap w)) (logged w))
    end.

(** A new object. *)
Definition new (d : DataFrame) : M loc :=
  fun w => (Ok (length (heap w)), mkWorld (heap w ++ [d]) (logged w)).

Definition logger (lv : level) (text : string) (e : option exn) : M unit :=
  fun w => (Ok tt, mkWorld (heap w) (logged w ++ [Log lv text e])).

(** ** pandas on series and frames *)

Module Pd.

Import Py Re Frame.

(** [df[c]]: the series, or the sub-frame when the label repeats. *)
Definition getitem (c : string) : SE DataFrame (list Series) :=
  fun d =>
    match select d c with
    | [] => (Raise (KeyError c), d)
    | found => (Ok found, d)
    end.

(** An attribute that only a series has ([.str], [.dt], [.dtype]). *)
Definition series (attribute : string) (found : list Series)
  : SE DataFrame Series :=
  match found with
  | [s] => ret s
  | _ => raise (AttributeError attribute)
  end.

Definition str : list Series -> SE DataFrame Series := series "str".

(** [df[c] = value]: a new label is appended; a series is broadcast over a
    repeated label; a sub-frame needs as many columns as the label has. *)
Definition setitem (c : string) (value : list Series) : SE DataFrame unit :=
  fun d =>
    let k := length (select d c) in
    match value with
    | [x] =>
        if Nat.eqb k 0
        then (Ok tt, mkFrame (nrows d) (data d ++ [(c, x)]))
        else (Ok tt, mkFrame (nrows d) (put c (repeat x k) (data d)))
    | _ =>
        if Nat.eqb (length value) k && negb (Nat.eqb k 0)
        then (Ok tt, mkFrame (nrows d) (put c value (data d)))
        else (Raise ValueError, d)
    end.

(** [df.drop(columns=[c])]. *)
Definition drop_column (c : string) : SE DataFrame DataFrame :=
  fun d =>
    match select d c with
    | [] => (Raise (KeyError c), d)
    | _ => (Ok (mkFrame (nrows d)
                  (filter (fun p => negb (String.eqb (fst p) c)) (data d))), d)
    end.

(** [df[[c1, ..., cn]]]. *)
Definition getitems (cs : list string) : SE DataFrame DataFrame :=
  fun d =>
    match gather cs d with
    | Some cols => (Ok (mkFrame (nrows d) cols), d)
    | None =>
        (Raise (KeyError (match missing cs d with
                          | Some c => c
                          | None => EmptyString
                          end)), d)
    end.

(** An elementwise method on a selection. *)
Definition each (f : cell -> cell) (found : list Series) : list Series :=
  map (map f) found.

(** [.str.method()]: on the text cells, a missing cell stays missing. *)
Definition str_method (f : string -> string) (x : cell) : cell :=
  match x with
  | Str s => Str (f s)
  | Null => Null
  end.

(** [.astype(str)]: the missing value is rendered as [nan]. *)
Definition astype_str (x : cell) : cell :=
  match x with
  | Str s => Str s
  | Null => Str "nan"
  end.

(** [.astype("string")]: text stays text, missing stays missing. *)
Definition astype_string (x : cell) : cell :=
  match x with
  | Str s => Str s
  | Null => Null
  end.

(** [.fillna(v)]. *)
Definition fillna (v : string) (x : cell) : cell :=
  match x with
  | Str s => Str s
  | Null => Str v
  end.

(** [.replace(r'^\s*$', v, regex=True)] with a value that is not text. *)
Definition replace_blank (v : cell) (x : cell) : cell :=
  match x with
  | Str s => if blank s then v else Str s
  | Null => Null
  end.

(** [.replace(r'\s+', ' ', regex=True)]. *)
Definition replace_spaces (x : cell) : cell := str_method squeeze x.

(** [.replace({k: v, ...})]. *)
Definition replace_dict (m : list (string * cell)) (x : cell) : cell :=
  match x with
  | Str s => match lookup s m with Some v => v | None => Str s end
  | Null => Null
  end.

(** [.replace([k1, ...], v)] and [.replace(k, v)]. *)
Definition replace_list (ks : list string) (v : cell) (x : cell) : cell :=
  match x with
  | Str s => if mem s ks then v else Str s
  | Null => Null
  end.

(** [.map({k: v, ...})]: a key outside the mapping gives the missing
    value. *)
Definition map_dict (m : list (string * string)) (x : cell) : cell :=
  match x with
  | Str s => match lookup s m with Some v => Str v | None => Null end
  | Null => Null
  end.

(** [.str.contains(needle, na=False)]. *)
Definition str_contains (needle : string) (x : cell) : bool :=
  match x with
  | Str s => contains needle s
  | Null => false
  end.

(** [s.where(cond, other)]: the cell of [s] where [cond] holds, the cell of
    [other] elsewhere. *)
Fixpoint where_ (cond : list bool) (s other : Series) : Series :=
  match cond, s with
  | b :: cond', x :: s' =>
      (if b then x else hd Null other) :: where_ cond' s' (tl other)
  | _, _ => []
  end.

(** [.str.findall(pattern).str[0]]: the first match, if any. *)
Definition first_match (alts : list string) (x : cell) : cell :=
  match x with
  | Str s => match findall alts s with m :: _ => Str m | [] => Null end
  | Null => Null
  end.

(** [lambda x: None if pd.isna(x) else x]. *)
Definition none_if_na (x : cell) : cell := if isna x then Null else x.

End Pd.

Import Py Re Frame Pd.

(** ** The transformer *)

(** A cleaning method: its [__name__], the line it logs on entry (if any),
    the statements it runs on [df] under its [try], and the record its
    [except] clause logs at critical severity.  The statements end with
    [return_df] when the method returns [df] itself, and with [return_new d]
    when it returns a frame it has built. *)
Record step : Type := mkStep {
  name : string;
  starting : option string;
  statements : SE DataFrame (option DataFrame);
  critical : exn -> log_record
}.

Definition return_df : SE DataFrame (option DataFrame) := ret None.
Definition return_new (d : DataFrame) : SE DataFrame (option DataFrame) :=
  ret (Some d).

(** The body of the method, under its [try]. *)
Definition try_body (s : step) (df : loc) : M loc :=
  match starting s with
  | Some text => logger INFO text None
  | None => ret tt
  end;;
  r <- on df (statements s);;
  match r with
  | None => ret df
  | Some d => new d
  end.

(** Calling the method: an exception of the body is caught, logged, and
    answered with [pd.DataFrame()]. *)
Definition call (s : step) (df : loc) : M loc :=
  try_except (try_body s df)
    (fun e =>
       logger (severity (critical s e)) (message (critical s e))
              (exception (critical s e));;
       new DataFrame_empty).

Definition quote : string := String "034"%char EmptyString.

Definition rename_map : list (string * string) :=
  [ ("Timestamp", "Timestamp");
    ("How old are you?", "Age");
    ("What industry do you work in?", "Industry");
    ("Job title", "Job_Title");
    ("If your job title needs additional context, please clarify here:",
     "Job_Context");
    ("What is your annual salary? (You'll indicate the currency in a later question. If you are part-time or hourly, please enter an annualized equivalent -- what you would earn if you worked the job 40 hours a week, 52 weeks a year.)",
     "Annual_Salary");
    ("How much additional monetary compensation do you get, if any (for example, bonuses or overtime in an average year)? Please only include monetary compensation here, not the value of benefits.",
     "Additional_Comp");
    ("Please indicate the currency", "Currency");
    (("If " ++ quote ++ "Other," ++ quote
       ++ " please indicate the currency here: ")%string, "Currency_Other");
    ("If your income needs additional context, please provide it here:",
     "Income_Context");
    ("What country do you work in?", "Country");
    ("If you're in the U.S., what state do you work in?", "State");
    ("What city do you work in?", "City");
    ("How many years of professional work experience do you have overall?",
     "Experience_Overall");
    ("How many years of professional work experience do you have in your field?",
     "Experience");
    ("What is your highest level of education completed?", "Education");
    ("What is your gender?", "Gender");
    ("What is your race? (Choose all that apply.)", "Race");
    ("Seniority", "Seniority") ].

Definition _rename_columns : step :=
  mkStep "_rename_columns" (Some "Starting _rename_columns()")
    (modify (rename rename_map);;
     return_df)
    (fun e => Log CRITICAL "Exception occurred in _rename_columns() : "
                  (Some e)).

(** The alternatives of
    [\b(sr|senior|...|coordinator|i{1,3}|iv|v)\b] in the order the matcher
    tries them; the greedy [i{1,3}] tries three, then two, then one [i]. *)
Definition pattern : list string :=
  [ "sr"; "senior"; "lead"; "principal"; "jr"; "junior"; "chief";
    "director"; "manager"; "assistant"; "associate"; "head"; "coordinator";
    "iii"; "ii"; "i"; "iv"; "v" ].

Definition seniority_map : list (string * string) :=
  [ ("sr", "Senior"); ("senior", "Senior"); ("lead", "Lead");
    ("principal", "Principal"); ("chief", "Executive");
    ("director", "Executive"); ("manager", "Manager");
    ("assistant", "Assistant"); ("associate", "Associate");
    ("head", "Executive"); ("coordinator", "Coordinator");
    ("jr", "Junior"); ("junior", "Junior"); ("i", "Level I");
    ("ii", "Level II"); ("iii", "Level III"); ("iv", "Level IV");
    ("v", "Level V") ].

(** The cleaned job title: lowered, punctuation dropped, white space
    squeezed, stripped. *)
Definition clean_title (s : string) : string :=
  strip (squeeze (drop_punctuation (lower s))).

Definition _normalize_job_titles : step :=
  mkStep "_normalize_job_titles" (Some "Starting _normalize_job_titles()")
    (t <- getitem "Job_Title" >>= str;;
     setitem "Job_Title" [map (str_method clean_title) t];;
     t <- getitem "Job_Title" >>= str;;
     setitem "Seniority" [map (first_match pattern) t];;
     s <- getitem "Seniority" >>= str;;
     setitem "Seniority"
       [map (fun x => map_dict seniority_map (str_method lower x)) s];;
     s <- getitem "Seniority";;
     setitem "Seniority" (each none_if_na s);;
     s <- getitem "Seniority";;
     s <- str (each astype_string s);;
     setitem "Seniority" [map (str_method (slice0 100)) s];;
     return_df)
    (fun e => Log CRITICAL "Exception occurred in _normalize_job_titles() "
                  (Some e)).

Definition _standardize_annual_salaries : step :=
  mkStep "_standardize_annual_salaries"
    (Some "Starting _standardize_annual_salaries()")
    (s <- getitem "Annual_Salary" >>= str;;
     setitem "Annual_Salary"
       [map (fun x => replace_spaces (str_method keep_numeric x)) s];;
     return_df)
    (fun e => Log CRITICAL
                  "Exception occurred in _standardize_annual_salaries() : "
                  (Some e)).

Definition _standardize_additional_comp : step :=
  mkStep "_standardize_additional_comp"
    (Some "Starting _standardize_additional_comp()")
    (s <- getitem "Additional_Comp";;
     s <- str (each astype_str s);;
     setitem "Additional_Comp"
       [map (fun x => replace_list [EmptyString] Null
                        (replace_spaces (str_method keep_numeric x))) s];;
     return_df)
    (fun e => Log CRITICAL
                  "Exception occurred in _standardize_additional_comp() : "
                  (Some e)).

Definition replace_map : list (string * cell) :=
  [ ("US DOLLAR", Str "USD"); ("AMERICAN DOLLARS", Str "USD");
    ("USD", Str "USD"); ("BR", Str "BRL"); ("BRL", Str "BRL");
    ("BRL R", Str "BRL"); ("INDIAN RUPEES", Str "INR");
    ("RUPEES", Str "INR"); ("INR INDIAN RUPEE", Str "INR");
    ("RMB", Str "CNY"); ("CHINA RMB", Str "CNY");
    ("RMB CHINESE YUAN", Str "CNY"); ("EURO", Str "EUR");
    ("DANISH KRONER", Str "DKK"); ("NORWEGIAN KRONER", Str "NOK");
    ("POLISH ZLOTY", Str "PLN"); ("POLISH ZWOTY", Str "PLN");
    ("PLN ZWOTY", Str "PLN"); ("KOREAN WON", Str "KRW");
    ("KRW KOREAN WON", Str "KRW"); ("NEW ISRAELI SHEKEL", Str "ILS");
    ("NIS", Str "ILS"); ("NIS NEW ISRAELI SHEKEL", Str "ILS");
    ("ILS SHEKEL", Str "ILS"); ("ISRAELI SHEKELS", Str "ILS");
    ("ARGENTINIAN PESO", Str "ARS"); ("ARGENTINE PESO", Str "ARS");
    ("PESO ARGENTINO", Str "ARS"); ("MEXICAN PESOS", Str "MXN");
    ("PESOS COLOMBIANOS", Str "COP"); ("PHILIPPINE PESO", Str "PHP");
    ("PHILIPPINE PESOS", Str "PHP"); ("PHP PHILIPPINE PESO", Str "PHP");
    ("AUD AUSTRALIAN", Str "AUD"); ("AUSTRALIAN DOLLARS", Str "AUD");
    ("AUD NZD", Str "AUD/NZD"); ("SINGAPORE DOLLARA", Str "SGD");
    ("THAI BAHT", Str "THB"); ("THAI  BAHT", Str "THB");
    ("MYR", Str "MYR"); ("RM", Str "MYR"); ("EQUITY", Str "EQUITY");
    ("0", Null) ].

(** The cleaned currency text: raised, parenthetical notes dropped, every
    character outside [A-Z/] blanked, white space squeezed, stripped. *)
Definition clean_currency (s : string) : string :=
  strip (squeeze (blank_non_code (drop_parens (upper s)))).

(** The rows whose currency does not mention [other]. *)
Definition not_other (currency : Series) : list bool :=
  map (fun x => negb (str_contains "other" (str_method lower x))) currency.

Definition _standardize_currency_other_cols : step :=
  mkStep "_standardize_currency_other_cols"
    (Some "Starting _standardize_currency_other_cols()")
    (c <- getitem "Currency";;
     c' <- getitem "Currency" >>= str;;
     o <- getitem "Currency_Other";;
     c <- series "where" c;;
     o <- match o with
          | [o] => ret o
          | _ => raise NotImplementedError
          end;;
     setitem "Currency" [where_ (not_other c') c o];;
     c <- getitem "Currency" >>= str;;
     setitem "Currency" [map (str_method clean_currency) c];;
     c <- getitem "Currency";;
     setitem "Currency" (each (replace_dict replace_map) c);;
     d <- drop_column "Currency_Other";;
     return_new d)
    (fun _ => Log CRITICAL
                  "Exception occurred in _standardize_currency_other_cols()"
                  None).

Definition _standardize_income_context : step :=
  mkStep "_standardize_income_context"
    (Some "Starting _standardize_income_context()")
    (s <- getitem "Income_Context";;
     s <- str (each (fillna EmptyString) s);;
     setitem "Income_Context"
       [map (fun x => replace_list [EmptyString] Null
                        (str_method (fun t => squeeze (strip (lower t)))
                                    x)) s];;
     return_df)
    (fun _ => Log CRITICAL
                  "Exception occurred in _standardize_income_context()" None).

Definition country_map : list (string * string) :=
  [ ("us", "United States"); ("usa", "United States");
    ("u s", "United States"); ("u s a", "United States");
    ("united states", "United States"); ("united state", "United States");
    ("america", "United States"); ("the united states", "United States");
    ("uk", "United Kingdom"); ("u k", "United Kingdom");
    ("united kingdom", "United Kingdom"); ("england", "United Kingdom");
    ("great britain", "United Kingdom"); ("britain", "United Kingdom");
    ("scotland", "United Kingdom"); ("wales", "United Kingdom");
    ("canada", "Canada"); ("australia", "Australia");
    ("new zealand", "New Zealand"); ("mexico", "Mexico");
    ("france", "France"); ("germany", "Germany");
    ("netherlands", "Netherlands"); ("india", "India"); ("japan", "Japan");
    ("global", "Global"); ("worldwide", "Global");
    ("california", "United States"); ("europe", "Europe");
    ("africa", "Africa") ].

Definition _standardize_country : step :=
  mkStep "_standardize_country" None
    (s <- getitem "Country" >>= str;;
     setitem "Country"
       [map (str_method (fun t => squeeze (keep_lower_letters (lower t)))) s];;
     s <- getitem "Country" >>= str;;
     setitem "Country"
       [map (fun x => none_if_na (map_dict country_map (str_method lower x)))
            s];;
     return_df)
    (fun e => Log CRITICAL "Exception occurred in _standardize_country() : "
                  (Some e)).

Definition _standardize_job_context : step :=
  mkStep "_standardize_job_context"
    (Some "Starting _standardize_job_context()")
    (s <- getitem "Job_Context";;
     _ <- getitem "Job_Context";;
     setitem "Job_Context" (each none_if_na s);;
     return_df)
    (fun e => Log CRITICAL
                  "Exception occurred in _standardize_job_context() : "
                  (Some e)).

Definition gender_map : list (string * cell) :=
  [ ("Man", Str "Male"); ("Woman", Str "Female");
    ("Non-binary", Str "Non-Binary");
    ("Other or prefer not to answer", Str "Prefer not to say");
    ("Prefer not to answer", Str "Prefer not to say");
    ("0", Str "Prefer not to say") ].

Definition _standardize_gender : step :=
  mkStep "_standardize_gender" (Some "Starting _standardize_gender()")
    (s <- getitem "Gender";;
     setitem "Gender" (each (replace_blank Null) s);;
     s <- getitem "Gender";;
     setitem "Gender" (each (replace_dict gender_map) s);;
     s <- getitem "Gender";;
     setitem "Gender" (each (fillna "Prefer not to say") s);;
     return_df)
    (fun e => Log CRITICAL "Exception occurred in _standardize_gender() : "
                  (Some e)).

Definition race_map : list (string * cell) :=
  [ ("Another option not listed here or prefer not to answer", Str "Other");
    ("0", Str "Other") ].

Definition _standardize_race : step :=
  mkStep "_standardize_race" (Some "Starting _standardize_race()")
    (s <- getitem "Race";;
     setitem "Race" (each (replace_blank Null) s);;
     s <- getitem "Race";;
     s <- str (each (replace_dict race_map) s);;
     setitem "Race" [map (str_method title) s];;
     s <- getitem "Race";;
     setitem "Race" (each (fillna "Other") s);;
     return_df)
    (fun e => Log CRITICAL "Exception occurred in _standardize_race() : "
                  (Some e)).

Definition education_map : list (string * cell) :=
  [ ("Master's degree", Str "Master's Degree");
    ("College degree", Str "College Degree");
    ("Some college", Str "Some College");
    ("Professional degree (MD, JD, etc.)", Str "Professional Degree") ].

Definition _standardize_education : step :=
  mkStep "_standardize_education" (Some "Starting _standardize_education()")
    (s <- getitem "Education";;
     setitem "Education" (each (replace_blank Null) s);;
     s <- getitem "Education";;
     setitem "Education" (each (replace_dict education_map) s);;
     s <- getitem "Education";;
     setitem "Education" (each (fillna "Prefer not to say") s);;
     return_df)
    (fun e => Log CRITICAL
                  "Exception occurred in _standardize_education() : "
                  (Some e)).

Definition experience_map : list (string * cell) :=
  [ ("1 year or less", Str "0-1 years"); ("2 - 4 years", Str "2-4 years");
    ("5-7 years", Str "5-7 years"); ("8 - 10 years", Str "8-10 years");
    ("11 - 20 years", Str "11-20 years");
    ("21 - 30 years", Str "21-30 years");
    ("30 - 40 years", Str "30-40 years");
    ("41 years or more", Str "41+ years") ].

Definition _standardize_experience : step :=
  mkStep "_standardize_experience" (Some "Starting _standardize_experience()")
    (s <- getitem "Experience";;
     setitem "Experience" (each (replace_blank Null) s);;
     s <- getitem "Experience" >>= str;;
     setitem "Experience" [map (str_method strip) s];;
     s <- getitem "Experience";;
     setitem "Experience" (each (replace_dict experience_map) s);;
     s <- getitem "Experience";;
     setitem "Experience" (each (fillna "0-1 years") s);;
     return_df)
    (fun e => Log CRITICAL
                  "Exception occurred in _standardize_experience() : "
                  (Some e)).

Definition overall_experience_map : list (string * cell) :=
  [ ("1 year or less", Str "0-1 years"); ("2 - 4 years", Str "2-4 years");
    ("5-7 years", Str "5-7 years"); ("8 - 10 years", Str "8-10 years");
    ("11 - 20 years", Str "11-20 years");
    ("21 - 30 years", Str "21-30 years");
    ("31 - 40 years", Str "30-40 years");
    ("41 years or more", Str "41+ years") ].

Definition _standardize_overall_experience : step :=
  mkStep "_standardize_overall_experience"
    (Some "Starting _standardize_overall_experience()")
    (s <- getitem "Experience_Overall";;
     setitem "Experience_Overall" (each (replace_blank Null) s);;
     s <- getitem "Experience_Overall" >>= str;;
     setitem "Experience_Overall" [map (str_method strip) s];;
     s <- getitem "Experience_Overall";;
     setitem "Experience_Overall"
       (each (replace_dict overall_experience_map) s);;
     s <- getitem "Experience_Overall";;
     setitem "Experience_Overall" (each (fillna "0-1 years") s);;
     return_df)
    (fun e => Log CRITICAL
                  "Exception occurred in _standardize_overall_experience() : "
                  (Some e)).

Definition _standardize_state : step :=
  mkStep "_standardize_state" (Some "Starting _standardize_state()")
    (s <- getitem "State";;
     s <- str (each astype_str s);;
     setitem "State"
       [map (fun x =>
               replace_list ["0"; "nan"; "NaN"; "None"; EmptyString;
                             "null"] Null
                 (str_method (fun t => strip (split_first ","%char t))
                             x)) s];;
     return_df)
    (fun e => Log CRITICAL "Exception occurred in _standardize_state() : "
                  (Some e)).

Definition invalid_entries : list string :=
  [ "n/a"; "na"; "none"; "no answer"; "prefer not to answer"; "undisclosed";
    "test"; "remote"; "work remotely"; "telecommute"; "virtual worker";
    "home worker"; "student"; "small city"; "stay"; "unknown"; "remove";
    "dhgbfv"; "pubw"; "ff"; "s" ].

(** [.str.encode('latin1', errors='ignore').str.decode('utf-8',
    errors='ignore')]: ASCII text is its own Latin-1 and UTF-8 encoding. *)
Definition recode (s : string) : string := s.

(** [lambda x: None if isinstance(x, str) and
    x.lower().strip() in invalid_entries else x]. *)
Definition drop_invalid (x : cell) : cell :=
  match x with
  | Str t => if mem (strip (lower t)) invalid_entries then Null else x
  | Null => x
  end.

(** [lambda x: x.title().strip() if isinstance(x, str) else x]. *)
Definition capitalize (x : cell) : cell :=
  match x with
  | Str t => Str (strip (title t))
  | Null => x
  end.

Definition _standardize_city : step :=
  mkStep "_standardize_city" (Some "Starting _standardize_city()")
    (s <- getitem "City";;
     s <- str (each astype_str s);;
     setitem "City"
       [map (fun x =>
               replace_list [EmptyString; "nan"; "None"; "NaN"] Null
                 (str_method (fun t => squeeze (strip (recode t))) x))
            s];;
     s <- getitem "City" >>= series "apply";;
     setitem "City" [map drop_invalid s];;
     s <- getitem "City" >>= series "apply";;
     setitem "City" [map capitalize s];;
     return_df)
    (fun e => Log CRITICAL "Exception occurred in _standardize_city() : "
                  (Some e)).

(** [for col in df.columns: if df[col].dtype == 'object':
    df[col] = df[col].astype("string")].  Both branches of the test leave
    the cells of a text column as they are. *)
Fixpoint convert_columns (cols : list string) : SE DataFrame unit :=
  match cols with
  | [] => ret tt
  | col :: rest =>
      s <- getitem col >>= series "dtype";;
      setitem col [map astype_string s];;
      convert_columns rest
  end.

Definition dtype_conversion (df : loc) : M loc :=
  try_except
    (logger INFO "Starting dtype_conversion()" None;;
     on df (cols <- gets labels;; convert_columns cols);;
     logger INFO "Successfully converted object types to string" None;;
     ret df)
    (fun _ =>
       logger CRITICAL "Exception occurred in dtype_conversion()" None;;
       new DataFrame_empty).

Definition canonical_columns : list string :=
  [ "Timestamp"; "Age"; "Gender"; "Race"; "Education";
    "Industry"; "Job_Title"; "Seniority"; "Job_Context";
    "Experience_Overall"; "Experience"; "Annual_Salary";
    "Additional_Comp"; "Currency"; "Country"; "State";
    "City"; "Income_Context" ].

(** [str(df.shape)]. *)
Definition shape (d : DataFrame) : string :=
  ("(" ++ str_of_nat (nrows d) ++ ", " ++ str_of_nat (length (data d))
       ++ ")")%string.

Section Transformer.

(** [pd.to_datetime(column, errors="coerce", utc=True)] rendered by
    [strftime("%Y-%m-%d %H:%M:%S")]: what a text cell becomes, given the
    column it stands in (the parser infers one format for the column).  A
    date is carried as this rendering. *)
Variable parse_timestamp : Series -> string -> cell.

Definition to_datetime (column : Series) : Series :=
  map (fun x => match x with
                | Str s => parse_timestamp column s
                | Null => Null
                end) column.

(** [.dt.strftime("%Y-%m-%d %H:%M:%S")] on dates carried as that text. *)
Definition strftime (x : cell) : cell := x.

Definition _change_time_format : step :=
  mkStep "_change_time_format" (Some "Starting _change_time_format()")
    (t <- getitem "Timestamp";;
     t <- match t with
          | [t] => ret t
          | _ => raise ValueError
          end;;
     setitem "Timestamp" [to_datetime t];;
     t <- getitem "Timestamp" >>= series "dt";;
     setitem "Timestamp" [map strftime t];;
     return_df)
    (fun e => Log CRITICAL "Exception occurred in _change_time_format() : "
                  (Some e)).

Definition transformation_steps : list step :=
  [ _rename_columns;
    _normalize_job_titles;
    _standardize_annual_salaries;
    _standardize_additional_comp;
    _standardize_currency_other_cols;
    _change_time_format;
    _standardize_income_context;
    _standardize_country;
    _standardize_job_context;
    _standardize_gender;
    _standardize_race;
    _standardize_education;
    _standardize_experience;
    _standardize_overall_experience;
    _standardize_state;
    _standardize_city ].

(** [# Remove duplicates]. *)
Definition remove_duplicates (df : loc) : M loc :=
  df_duplicates <- on df (gets (fun d => take (duplicated_all d) d));;
  if negb (empty df_duplicates)
  then
    logger WARNING
      ("Found " ++ str_of_nat (nrows df_duplicates)
                ++ " duplicates in dataframe")%string None;;
    d <- on df (gets drop_duplicates);;
    df <- new d;;
    logger INFO "Duplicates removed from dataframe" None;;
    ret df
  else ret df.

(** [# Remove completely null rows]: the frame that [df.dropna(how="all")]
    returns is dropped, [df] stays as it was. *)
Definition remove_null_rows (df : loc) : M unit :=
  all_null_rows <- on df (gets (fun d => take (all_null d) d));;
  if negb (empty all_null_rows)
  then
    logger WARNING
      ("Found " ++ str_of_nat (nrows all_null_rows)
                ++ " completely null rows")%string None;;
    _ <- on df (gets dropna_all);;
    logger INFO "Completely null rows dropped" None
  else logger INFO "No completely null rows found in dataframe" None.

(** [for step in transformation_steps: ...], followed by the rest of the
    function, [after]; an empty frame returns from the function at once. *)
Fixpoint run_steps (steps : list step) (df : loc) (after : loc -> M loc)
  : M loc :=
  match steps with
  | [] => after df
  | s :: rest =>
      df <- call s df;;
      e <- on df (gets empty);;
      if e : bool
      then
        logger ERROR
          ("Transformation step " ++ name s
             ++ " returned empty DataFrame")%string None;;
        new DataFrame_empty
      else run_steps rest df after
  end.

(** [# Final cleaning] and [# Data type conversion and column ordering]. *)
Definition finish (df : loc) : M loc :=
  d <- on df (gets (map_cells (replace_blank Null)));;
  df <- new d;;
  d <- on df (gets (map_cells none_if_na));;
  df <- new d;;
  logger INFO "NaN values replaced with None" None;;
  df <- dtype_conversion df;;
  d <- on df (getitems canonical_columns);;
  df <- new d;;
  sh <- on df (gets shape);;
  logger INFO
    ("Transformation completed successfully. Final shape: " ++ sh)%string
    None;;
  ret df.

Definition transform (df : loc) : M loc :=
  try_except
    (logger INFO "Starting transformation process..." None;;
     e <- on df (gets empty);;
     if e : bool
     then
       logger WARNING "Empty DataFrame received for transformation" None;;
       ret df
     else
       df <- remove_duplicates df;;
       remove_null_rows df;;
       run_steps transformation_steps df finish)
    (fun e =>
       logger CRITICAL "Exception occurred in transform() : " (Some e);;
       new DataFrame_empty).

End Transformer.

(** [transform_data(df)]. *)
Definition transform_data := transform.

(** ** The extractor ([scripts/extract.py]) *)

(** The exceptions that the extractor tells apart, in the order of its
    [except] clauses. *)
Inductive io_error : Type :=
| UnicodeDecodeError
| FileNotFoundError
| OtherException (what : string).

(** What a call into the file system or into a library comes back with. *)
Inductive outcome (A : Type) : Type :=
| Returned (a : A)
| Raised (e : io_error).

Arguments Returned {A} a.
Arguments Raised {A} e.

(** A record of the logger [salary-survey-extract]. *)
Record extract_record : Type := Told {
  told_level : level;
  told_text : string;
  told_cause : option io_error
}.

(** The number of bytes that [detect_encoding] reads: 10000. *)
Definition head_size : nat := 100 * 100.

Section Extractor.

(** The file system and the libraries: [open(path, 'rb')] followed by
    [read(n)]; the entry [encoding] of [chardet.detect(...)]; and
    [open(path, 'r', encoding=..., errors='strict')] followed by
    [pd.read_csv]. *)
Variable bytes : Type.
Variable read_head : string -> nat -> outcome bytes.
Variable chardet_detect : bytes -> outcome (option string).
Variable read_csv : option string -> string -> outcome DataFrame.

(** [self.input_file_path], which may be [None]. *)
Variable input_file_path : option string.

(** [str(x)] for a detected encoding. *)
Definition shown (encoding : option string) : string :=
  match encoding with
  | Some text => text
  | None => "None"
  end.

(** The [except] clauses of [detect_encoding]. *)
Definition detect_encoding_except (e : io_error)
           (lg : list extract_record) : string * list extract_record :=
  match e with
  | UnicodeDecodeError =>
      ("utf-8",
       lg ++ [Told ERROR "Encoding error occurred - detect_encoding()"
                   None])
  | FileNotFoundError =>
      ("utf-8", lg ++ [Told WARNING "File not found - detect_encoding()"
                            None])
  | OtherException _ =>
      ("utf-8",
       lg ++ [Told CRITICAL "Exception occurred in - detect_encoding() : "
                   (Some e)])
  end.

Definition detect_encoding (lg : list extract_record)
  : string * list extract_record :=
  match input_file_path with
  | None | Some EmptyString =>
      ("utf-8",
       lg ++ [Told WARNING "Input file path is empty - detect_encoding()"
                   None])
  | Some path =>
      match read_head path head_size with
      | Raised e => detect_encoding_except e lg
      | Returned head =>
          match chardet_detect head with
          | Raised e => detect_encoding_except e lg
          | Returned encoding =>
              let lg := lg ++ [Told INFO ("File Encoding : "
                                            ++ shown encoding) None] in
              match encoding with
              | Some text =>
                  if negb (String.eqb text "utf-8") then ("utf-8", lg)
                  else (text, lg)
              | None => ("utf-8", lg)
              end
          end
      end
  end.

(** [extract_csv_data(encoding)]. *)
Definition extract_csv_data (encoding : option string)
           (lg : list extract_record) : DataFrame * list extract_record :=
  let lg := lg ++ [Told INFO "Extracting data from CSV..." None] in
  let (encoding, lg) :=
    match encoding with
    | None => detect_encoding lg
    | Some text => (text, lg)
    end in
  match read_csv input_file_path encoding with
  | Returned df =>
      (df,
       lg ++ [Told INFO ("Successfully extracted "
                           ++ str_of_nat (nrows df) ++ " rows from CSV")
                   None])
  | Raised e =>
      (DataFrame_empty,
       lg ++ [Told CRITICAL "Exception occurred in extract_csv_data : "
                   (Some e)])
  end.

(** [extract_data(input_file_path)]. *)
Definition extract_data : list extract_record
                          -> DataFrame * list extract_record :=
  extract_csv_data None.

End Extractor.

(** * Properties *)

Unset Implicit Arguments.

(** ** Vocabulary of the statements *)

(** What a method logs on entry. *)
Definition entry_log (s : step) : list log_record :=
  match starting s with
  | Some text => [Log INFO text None]
  | None => []
  end.

(** The world after the statements of [s] ran on the frame [d] behind
    [df]. *)
Definition after_statements (s : step) (df : loc) (d : DataFrame)
           (w : world) : world :=
  mkWorld (store_at df (snd (statements s d)) (heap w))
          (logged w ++ entry_log s).

(** The frame with column [c] set to the series [x]: appended when the
    label is new, broadcast when the frame has it. *)
Definition set_column (c : string) (x : Series) (d : DataFrame)
  : DataFrame :=
  match select d c with
  | [] => mkFrame (nrows d) (data d ++ [(c, x)])
  | _ :: _ => update c (fun _ => x) d
  end.

(** The frame without the columns labelled [c]. *)
Definition without (c : string) (d : DataFrame) : DataFrame :=
  mkFrame (nrows d)
          (filter (fun p => negb (String.eqb (fst p) c)) (data d)).

Definition salary_cell (x : cell) : cell :=
  replace_spaces (str_method keep_numeric x).

Definition comp_cell (x : cell) : cell :=
  replace_list [EmptyString] Null
    (replace_spaces (str_method keep_numeric (astype_str x))).

Definition income_cell (x : cell) : cell :=
  replace_list [EmptyString] Null
    (str_method (fun t => squeeze (strip (lower t))) (fillna EmptyString x)).

Definition country_cell (x : cell) : cell :=
  none_if_na
    (map_dict country_map
       (str_method lower
          (str_method (fun t => squeeze (keep_lower_letters (lower t))) x))).

Definition gender_cell (x : cell) : cell :=
  fillna "Prefer not to say"
    (replace_dict gender_map (replace_blank Null x)).

Definition race_cell (x : cell) : cell :=
  fillna "Other"
    (str_method title (replace_dict race_map (replace_blank Null x))).

Definition education_cell (x : cell) : cell :=
  fillna "Prefer not to say"
    (replace_dict education_map (replace_blank Null x)).

Definition experience_cell (m : list (string * cell)) (x : cell) : cell :=
  fillna "0-1 years"
    (replace_dict m (str_method strip (replace_blank Null x))).

Definition state_cell (x : cell) : cell :=
  replace_list ["0"; "nan"; "NaN"; "None"; EmptyString; "null"] Null
    (str_method (fun t => strip (split_first ","%char t)) (astype_str x)).

Definition city_cell (x : cell) : cell :=
  capitalize
    (drop_invalid
       (replace_list [EmptyString; "nan"; "None"; "NaN"] Null
          (str_method (fun t => squeeze (strip (recode t)))
                      (astype_str x)))).

(** The seniority of a cleaned title. *)
Definition seniority_cell (x : cell) : cell :=
  str_method (slice0 100)
    (astype_string
       (none_if_na
          (map_dict seniority_map
             (str_method lower (first_match pattern x))))).

(** The currency of a row, from its two currency cells. *)
Definition currency_cell (currency other : cell) : cell :=
  replace_dict replace_map
    (str_method clean_currency
       (if negb (str_contains "other" (str_method lower currency))
        then currency else other)).

(** The currency column, given the series of the other-currency column. *)
Definition currency_series (other currency : Series) : Series :=
  map (fun x => replace_dict replace_map (str_method clean_currency x))
      (where_ (not_other currency) currency other).

(** The index, in the frame, of the [j]-th row a mask keeps. *)
Fixpoint position (mask : list bool) (j : nat) : nat :=
  match mask with
  | [] => 0
  | true :: m => match j with O => 0 | S j' => S (position m j') end
  | false :: m => S (position m j)
  end.

Definition canonical_or_empty (d : DataFrame) : Prop :=
  labels d = canonical_columns \/ empty d = true.

(** What a computation returns, when it returns, is a table with [P]. *)
Definition yields (P : DataFrame -> Prop) (x : result loc * world) : Prop :=
  match x with
  | (Ok l, w) => exists d, deref w l = Some d /\ P d
  | (Raise _, _) => True
  end.

(** The loop over the steps [pre], none of which came back with an empty
    frame: the reference and the world the next step starts from. *)
Fixpoint passes (pre : list step) (df : loc) (w : world)
  : option (loc * world) :=
  match pre with
  | [] => Some (df, w)
  | s :: rest =>
      match call s df w with
      | (Ok df', w') =>
          match deref w' df' with
          | Some d => if empty d then None else passes rest df' w'
          | None => None
          end
      | (Raise _, _) => None
      end
  end.

(** The statements of [transform] that lead a non-empty input to the loop:
    the reference and the world the first step starts from. *)
Definition enters (df : loc) : M loc :=
  logger INFO "Starting transformation process..." None;;
  df <- remove_duplicates df;;
  remove_null_rows df;;
  ret df.

(** The number of rows whose cells are all missing. *)
Definition null_rows (d : DataFrame) : nat :=
  length (filter (fun b => b) (all_null d)).

(** The table a method hands back when it does not raise: [df] itself, as
    rewritten, or the frame it built. *)
Definition handed (s : step) (d : DataFrame) : option DataFrame :=
  match statements s d with
  | (Ok None, d') => Some d'
  | (Ok (Some n), _) => Some n
  | (Raise _, _) => None
  end.

(** The loop on frames: every method handed back a non-empty table. *)
Fixpoint run_frames (steps : list step) (d : DataFrame)
  : option DataFrame :=
  match steps with
  | [] => Some d
  | s :: rest =>
      match handed s d with
      | Some d' => if empty d' then None else run_frames rest d'
      | None => None
      end
  end.

(** [# Final cleaning], on frames. *)
Definition final_cleaning (d : DataFrame) : DataFrame :=
  map_cells none_if_na (map_cells (replace_blank Null) d).

(** Every column is as long as the index, and the cell of row [i] in a
    column labelled [c] satisfies [P c i]. *)
Definition holds (P : string -> nat -> cell -> Prop) (d : DataFrame)
  : Prop :=
  well_formed d /\
  forall c col i,
    In (c, col) (data d) -> i < nrows d -> P c i (nth i col Null).

(** A method takes tables with [P] to tables with [Q]. *)
Definition triple (P : DataFrame -> Prop) (s : step)
           (Q : DataFrame -> Prop) : Prop :=
  forall d d', P d -> handed s d = Some d' -> Q d'.

(** A cell that holds text that is not blank. *)
Definition good (x : cell) : Prop :=
  exists t, x = Str t /\ blank t = false.

(** A cell that is missing, or holds text that is not blank. *)
Definition sound (x : cell) : Prop := x = Null \/ good x.

(** The columns of [done] hold text that is not blank, in every row. *)
Definition filled (done : list string) (c : string) (i : nat) (x : cell)
  : Prop :=
  In c done -> good x.

(** The values that the filling methods give a missing cell. *)
Definition defaults : list (string * string) :=
  [ ("Experience_Overall", "0-1 years"); ("Experience", "0-1 years");
    ("Education", "Prefer not to say"); ("Race", "Other");
    ("Gender", "Prefer not to say") ].

(** The cell of column [c] in the image of a row of missing values, once
    the columns of [done] are filled. *)
Definition expected (done : list (string * string)) (c : string) : cell :=
  match lookup c done with
  | Some v => Str v
  | None => Null
  end.

Definition image (j : nat) (done : list (string * string)) (c : string)
           (i : nat) (x : cell) : Prop :=
  i = j -> x = expected done c.

(** The image, in the canonical order of the columns. *)
Definition null_row_image : list cell :=
  [ Null; Null; Str "Prefer not to say"; Str "Other";
    Str "Prefer not to say"; Null; Null; Null; Null; Str "0-1 years";
    Str "0-1 years"; Null; Null; Null; Null; Null; Null; Null ].

(** The raw header that the rename map sends to [c]. *)
Definition raw_header (c : string) : string :=
  match find (fun p => String.eqb (snd p) c) rename_map with
  | Some p => fst p
  | None => c
  end.

(** A table supplied again under the raw headers. *)
Definition resupply (d : DataFrame) : DataFrame :=
  mkFrame (nrows d) (map (fun p => (raw_header (fst p), snd p)) (data d)).

(** What the pipeline returns: the table behind the reference. *)
Definition result_of (x : result loc * world) : option DataFrame :=
  match x with
  | (Ok r, w) => deref w r
  | (Raise _, _) => None
  end.

(** Sample tables. The headers of the survey export: the keys of the
    rename map, but for Seniority, which the transformer derives. *)
Definition raw_headers : list string := map fst (removelast rename_map).

(** A table of the export, from its rows. *)
Definition table (rs : list (list cell)) : DataFrame :=
  mkFrame (length rs)
          (map (fun k => (nth k raw_headers EmptyString,
                          map (fun r => nth k r Null) rs))
               (seq 0 (length raw_headers))).

(** Two respondents and a row without any answer; the timestamps are
    missing. *)
Definition respondent : list cell :=
  [ Null; Str "25-34"; Str "Computing or Tech";
    Str "Senior Software Engineer!!"; Null; Str "$85,000"; Null;
    Str "Other"; Str "Swiss Francs"; Null; Str "U.S.A.";
    Str "California, US"; Str "remote"; Str "5-7 years";
    Str "2 - 4 years"; Str "College degree"; Str "Woman"; Str "White" ].

Definition respondent_usd : list cell :=
  [ Null; Str "35-44"; Str "Law"; Str "Paralegal II"; Null; Str "62,500";
    Str "1000"; Str "US Dollar"; Null; Null; Str "usa"; Str "Ohio";
    Str "Columbus"; Str "8 - 10 years"; Str "5-7 years";
    Str "Master's degree"; Str "Man"; Null ].

Definition no_answer : list cell := repeat Null 18.

(** A row whose answers are all the empty text. *)
Definition empty_answers : list cell := repeat (Str EmptyString) 18.

(** A parser that recognises no date, so that [errors="coerce"] turns every
    text into a missing value.  The timestamps of the sample tables are
    missing, and there every parser agrees with it. *)
Definition coerce_all : Series -> string -> cell := fun _ _ => Null.

(** The first [n] objects of the store are the same in [w'] as in [w], and
    no object was lost. *)
Definition stable (n : nat) (w w' : world) : Prop :=
  length (heap w) <= length (heap w') /\
  forall l, l < n -> deref w' l = deref w l.

(** A computation that writes only above [n], and returns values in [Q]. *)
Definition confined {A : Type} (n : nat) (Q : A -> Prop) (m : M A) : Prop :=
  forall w r w',
    n <= length (heap w) ->
    m w = (r, w') ->
    stable n w w' /\ forall a, r = Ok a -> Q a.

(** The cleaned table of the two respondents and of the row without an
    answer. *)
Definition cleaned_sample : DataFrame :=
  Eval vm_compute in
    match result_of (transform coerce_all 0
                       (mkWorld [table [respondent; no_answer;
                                        respondent_usd]] [])) with
    | Some d => d
    | None => DataFrame_empty
    end.

(** A digit or a dot. *)
Definition numeric (c : ascii) : bool := is_digit c || Ascii.eqb c "."%char.

(** A capital letter, a slash or a space. *)
Definition code_char (c : ascii) : bool :=
  is_upper c || Ascii.eqb c "/"%char || Ascii.eqb c " "%char.


(** The labels of the seniority table. *)
Definition seniority_labels : list string := map snd seniority_map.

(** The names of the country table. *)
Definition country_names : list string := map snd country_map.

(** The text is empty or starts with a character that is not white
    space. *)
Definition starts_clean (s : string) : Prop :=
  match s with
  | EmptyString => True
  | String c _ => is_space c = false
  end.

(** Any character but the comma. *)
Definition no_comma (c : ascii) : bool := negb (Ascii.eqb c ","%char).




Section Methods.

Variable parse_timestamp : Series -> string -> cell.

(** The methods that follow the renaming, each with the first column it
    reads. *)
Definition first_column : list (step * string) :=
  [ (_normalize_job_titles, "Job_Title");
    (_standardize_annual_salaries, "Annual_Salary");
    (_standardize_additional_comp, "Additional_Comp");
    (_standardize_currency_other_cols, "Currency");
    (_change_time_format parse_timestamp, "Timestamp");
    (_standardize_income_context, "Income_Context");
    (_standardize_country, "Country");
    (_standardize_job_context, "Job_Context");
    (_standardize_gender, "Gender");
    (_standardize_race, "Race");
    (_standardize_education, "Education");
    (_standardize_experience, "Experience");
    (_standardize_overall_experience, "Experience_Overall");
    (_standardize_state, "State");
    (_standardize_city, "City") ].

(** The methods that rewrite one column and return [df]. *)
Definition column_steps : list (step * string) :=
  [ (_standardize_annual_salaries, "Annual_Salary");
    (_standardize_additional_comp, "Additional_Comp");
    (_change_time_format parse_timestamp, "Timestamp");
    (_standardize_income_context, "Income_Context");
    (_standardize_country, "Country");
    (_standardize_job_context, "Job_Context");
    (_standardize_gender, "Gender");
    (_standardize_race, "Race");
    (_standardize_education, "Education");
    (_standardize_experience, "Experience");
    (_standardize_overall_experience, "Experience_Overall");
    (_standardize_state, "State");
    (_standardize_city, "City") ].

End Methods.

(** Every label of the table names one column. *)
Definition unique_labels (d : DataFrame) : bool :=
  forallb (fun c => Nat.eqb (length (select d c)) 1) (labels d).

(** The table the cleaning steps start from: the input, or its copy without
    duplicates when a row occurs twice. *)
Definition working (d : DataFrame) : DataFrame :=
  if negb (empty (take (duplicated_all d) d)) then drop_duplicates d else d.

(** The columns that no method rewrites, but for the method of the job
    context, which puts a missing value where one is missing. *)
Definition carried : list string := ["Age"; "Industry"; "Job_Context"].

(** The names that the rename map gives the headers of the survey. *)
Definition survey_columns : list string := map snd (removelast rename_map).

(** Every label of the table is Seniority or one of [L]. *)
Definition known (L : list string) (d : DataFrame) : Prop :=
  forall l, In l (labels d) -> l = "Seniority" \/ In l L.

(** The world of the three-row sample table, and the world its cleaning
    leaves. *)
Definition sample_world : world :=
  mkWorld [table [respondent; no_answer; respondent_usd]] [].

Definition cleaned_world : world :=
  Eval vm_compute in snd (transform coerce_all 0 sample_world).

(** Methods that return [df], whatever the table. *)
Definition in_place (s : step) : Prop :=
  forall d n, fst (statements s d) <> Ok (Some n).

(** A record at error or critical severity. *)
Definition alarm (r : log_record) : bool :=
  match severity r with
  | ERROR | CRITICAL => true
  | INFO | WARNING => false
  end.

(** The world [w'] has the log of [w], followed by [lg]. *)
Definition said (w w' : world) (lg : list log_record) : Prop :=
  logged w' = logged w ++ lg.


(** ** The store *)

Lemma store_at_length (l : loc) (d : DataFrame) (h : list DataFrame) :
  length (store_at l d h) = length h.
Proof.
  revert l; induction h as [|x h IH]; intros [|l]; simpl; auto.
Qed.

Lemma store_at_same (l : loc) (d : DataFrame) (h : list DataFrame) :
  l < length h -> nth_error (store_at l d h) l = Some d.
Proof.
  revert l; induction h as [|x h IH]; intros [|l] Hl; simpl in *;
    try lia; auto.
  apply IH; lia.
Qed.

Lemma store_at_other (l l' : loc) (d : DataFrame) (h : list DataFrame) :
  l <> l' -> nth_error (store_at l d h) l' = nth_error h l'.
Proof.
  revert l l'; induction h as [|x h IH]; intros [|l] [|l'] Hne; simpl;
    try congruence; auto.
Qed.

Lemma store_at_id (l : loc) (d : DataFrame) (h : list DataFrame) :
  nth_error h l = Some d -> store_at l d h = h.
Proof.
  revert l; induction h as [|x h IH]; intros [|l] H; simpl in *;
    try congruence.
  f_equal; auto.
Qed.

Lemma deref_lt (w : world) (l : loc) (d : DataFrame) :
  deref w l = Some d -> l < length (heap w).
Proof.
  unfold deref; intros H; apply nth_error_Some; congruence.
Qed.

Lemma deref_new (h : list DataFrame) (lg : list log_record) (d : DataFrame) :
  deref (mkWorld (h ++ [d]) lg) (length h) = Some d.
Proof.
  unfold deref; simpl.
  rewrite nth_error_app2 by lia.
  now rewrite Nat.sub_diag.
Qed.

Lemma deref_old (h h' : list DataFrame) (lg : list log_record) (l : loc) :
  l < length h -> deref (mkWorld (h ++ h') lg) l = nth_error h l.
Proof.
  intros Hl; unfold deref; simpl; now apply nth_error_app1.
Qed.

(** ** Running the statements of the monad *)

Lemma bind_ok (S A B : Type) (m : SE S A) (k : A -> SE S B) (s s' : S)
      (a : A) :
  m s = (Ok a, s') -> bind m k s = k a s'.
Proof. intros H; unfold bind; now rewrite H. Qed.

Lemma bind_raise (S A B : Type) (m : SE S A) (k : A -> SE S B) (s s' : S)
      (e : exn) :
  m s = (Raise e, s') -> bind m k s = (Raise e, s').
Proof. intros H; unfold bind; now rewrite H. Qed.

Arguments bind_ok {S A B m k s s' a} _.
Arguments bind_raise {S A B m k s s' e} _.

Lemma world_eta (w : world) : mkWorld (heap w) (logged w) = w.
Proof. now destruct w. Qed.

Lemma on_run (A : Type) (df : loc) (m : SE DataFrame A) (w : world)
      (d : DataFrame) :
  deref w df = Some d ->
  on df m w =
  (fst (m d), mkWorld (store_at df (snd (m d)) (heap w)) (logged w)).
Proof.
  intros H; unfold on; rewrite H; now destruct (m d).
Qed.

Lemma on_gets (A : Type) (df : loc) (f : DataFrame -> A) (w : world)
      (d : DataFrame) :
  deref w df = Some d -> on df (gets f) w = (Ok (f d), w).
Proof.
  intros H; rewrite (on_run _ _ _ _ _ H); unfold gets; simpl.
  rewrite (store_at_id _ _ _ H); now rewrite world_eta.
Qed.

Lemma on_dangling (A : Type) (df : loc) (m : SE DataFrame A) (w : world) :
  deref w df = None -> on df m w = (Raise ReferenceError, w).
Proof. intros H; unfold on; now rewrite H. Qed.

Lemma try_body_run (s : step) (df : loc) (w : world) (d : DataFrame) :
  deref w df = Some d ->
  try_body s df w =
  let w1 := after_statements s df d w in
  match fst (statements s d) with
  | Ok None => (Ok df, w1)
  | Ok (Some n) =>
      (Ok (length (heap w)), mkWorld (heap w1 ++ [n]) (logged w1))
  | Raise e => (Raise e, w1)
  end.
Proof.
  intros H; unfold try_body, after_statements, entry_log.
  assert (Hon : forall lg,
             on df (statements s) (mkWorld (heap w) lg) =
             (fst (statements s d),
              mkWorld (store_at df (snd (statements s d)) (heap w)) lg)).
  { intros lg; apply (on_run _ df (statements s) (mkWorld (heap w) lg) d H). }
  destruct (starting s) as [text|]; unfold bind, logger, ret; simpl.
  - rewrite Hon.
    destruct (statements s d) as [[[n|]|e] d']; simpl; unfold new; simpl;
      try reflexivity.
    now rewrite store_at_length.
  - replace w with (mkWorld (heap w) (logged w)) at 1 by apply world_eta.
    rewrite Hon, app_nil_r.
    destruct (statements s d) as [[[n|]|e] d']; simpl; unfold new; simpl;
      try reflexivity.
    now rewrite store_at_length.
Qed.

Lemma call_run (s : step) (df : loc) (w : world) (d : DataFrame) :
  deref w df = Some d ->
  call s df w =
  let w1 := after_statements s df d w in
  match fst (statements s d) with
  | Ok None => (Ok df, w1)
  | Ok (Some n) =>
      (Ok (length (heap w)), mkWorld (heap w1 ++ [n]) (logged w1))
  | Raise e =>
      (Ok (length (heap w)),
       mkWorld (heap w1 ++ [DataFrame_empty]) (logged w1 ++ [critical s e]))
  end.
Proof.
  intros H; unfold call, try_except; rewrite (try_body_run _ _ _ _ H); simpl.
  destruct (fst (statements s d)) as [[n|]|e]; try reflexivity.
  unfold bind, logger, new; simpl.
  rewrite store_at_length.
  now destruct (critical s e).
Qed.

Lemma call_dangling (s : step) (df : loc) (w : world) :
  deref w df = None ->
  exists w', call s df w = (Ok (length (heap w)), w') /\
             deref w' (length (heap w)) = Some DataFrame_empty.
Proof.
  intros H; unfold call, try_except, try_body.
  destruct (starting s); unfold bind, logger, ret; simpl;
    rewrite on_dangling by exact H; unfold new; simpl;
      eexists; split; try reflexivity; apply deref_new.
Qed.

(** ** Labels and selections *)

Lemma select_length (d : DataFrame) (c : string) :
  length (select d c) =
  length (filter (fun l => String.eqb l c) (labels d)).
Proof.
  unfold select, labels; rewrite length_map.
  induction (data d) as [|p r IH]; simpl; auto.
  destruct (String.eqb (fst p) c); simpl; auto.
Qed.

Lemma select_length_labels (d1 d2 : DataFrame) (c : string) :
  labels d1 = labels d2 -> length (select d1 c) = length (select d2 c).
Proof. intros H; now rewrite !select_length, H. Qed.

Lemma select_absent (d : DataFrame) (c : string) :
  ~ In c (labels d) -> select d c = [].
Proof.
  intros H; apply length_zero_iff_nil; rewrite select_length.
  induction (labels d) as [|l r IH]; simpl in *; auto.
  destruct (String.eqb l c) eqn:E.
  - apply String.eqb_eq in E; tauto.
  - apply IH; tauto.
Qed.

Lemma select_present_ne (d : DataFrame) (c : string) :
  In c (labels d) -> select d c <> [].
Proof.
  intros Hin E; apply (f_equal (@length Series)) in E.
  rewrite select_length in E; simpl in E.
  induction (labels d) as [|l r IH]; simpl in *; [contradiction|].
  destruct (String.eqb l c) eqn:El; simpl in E; [discriminate|].
  destruct Hin as [->|Hin]; auto.
  now rewrite String.eqb_refl in El.
Qed.

Lemma select_present (d : DataFrame) (c : string) :
  select d c <> [] -> In c (labels d).
Proof.
  intros H; destruct (in_dec string_dec c (labels d)) as [Hin|Hout]; auto.
  now apply select_absent in Hout.
Qed.

Lemma put_labels (c : string) (v : list Series)
      (cols : list (string * Series)) :
  map fst (put c v cols) = map fst cols.
Proof.
  revert v; induction cols as [|p r IH]; intros v; simpl; auto.
  destruct (String.eqb (fst p) c); [destruct v|]; simpl; now rewrite IH.
Qed.

(** A successful [df[c] = value] on a label the frame has keeps the
    labels. *)
Lemma setitem_labels (c : string) (v : list Series) (d d' : DataFrame) :
  select d c <> [] -> setitem c v d = (Ok tt, d') -> labels d' = labels d.
Proof.
  intros Hc; unfold setitem.
  assert (Hk : Nat.eqb (length (select d c)) 0 = false).
  { apply Nat.eqb_neq; now destruct (select d c). }
  rewrite Hk, andb_true_r.
  destruct v as [|x [|y v]];
    try destruct (Nat.eqb _ (length (select d c)));
    intros H; inversion H; subst; unfold labels; simpl; apply put_labels.
Qed.

Lemma getitem_ok (c : string) (d d' : DataFrame) (found : list Series) :
  getitem c d = (Ok found, d') ->
  d' = d /\ found = select d c /\ select d c <> [].
Proof.
  unfold getitem; destruct (select d c) eqn:E; intros H; inversion H; subst.
  repeat split; discriminate.
Qed.

Lemma series_ok (a : string) (found : list Series) (d d' : DataFrame)
      (s : Series) :
  series a found d = (Ok s, d') -> d' = d /\ found = [s].
Proof.
  unfold series; destruct found as [|x [|y r]]; unfold ret, raise;
    intros H; inversion H; auto.
Qed.

(** Inverting a successful [bind]. *)
Lemma bind_ok_inv (S A B : Type) (m : SE S A) (k : A -> SE S B) (s s' : S)
      (b : B) :
  bind m k s = (Ok b, s') ->
  exists a s1, m s = (Ok a, s1) /\ k a s1 = (Ok b, s').
Proof.
  unfold bind; destruct (m s) as [[a|e] s1]; intros H.
  - now exists a, s1.
  - discriminate.
Qed.

(** When the type conversion goes through, no label repeats. *)
Lemma convert_columns_unique (cols : list string) (d d' : DataFrame) :
  convert_columns cols d = (Ok tt, d') ->
  labels d' = labels d /\
  forall c, In c cols -> length (select d c) = 1.
Proof.
  revert d; induction cols as [|col rest IH]; intros d H; simpl in H.
  - unfold ret in H; inversion H; subst; split; [reflexivity|intros c []].
  - apply bind_ok_inv in H; destruct H as (s & d1 & H1 & H).
    apply bind_ok_inv in H1; destruct H1 as (found & d0 & H0 & H1).
    apply getitem_ok in H0; destruct H0 as (-> & -> & Hne).
    apply series_ok in H1; destruct H1 as (-> & Hs).
    apply bind_ok_inv in H; destruct H as ([] & d2 & H2 & H).
    pose proof (setitem_labels _ _ _ _ Hne H2) as Hl.
    apply IH in H; destruct H as (Hl' & Hu).
    split; [congruence|].
    intros c [<-|Hin].
    + now rewrite Hs.
    + rewrite <- (select_length_labels d2 d c Hl); auto.
Qed.

Lemma gather_labels (cs : list string) (d : DataFrame)
      (cols : list (string * Series)) :
  gather cs d = Some cols ->
  (forall c, In c cs -> length (select d c) <= 1) ->
  map fst cols = cs.
Proof.
  revert cols; induction cs as [|c r IH]; intros cols H Hu; simpl in H.
  - now inversion H.
  - pose proof (Hu c (or_introl eq_refl)) as Hc.
    destruct (select d c) as [|x [|y t]] eqn:E; try discriminate;
      [|simpl in Hc; lia].
    destruct (gather r d) as [rest|] eqn:G; try discriminate.
    inversion H; subst; simpl; f_equal.
    apply IH; auto.
    intros c' Hin; apply Hu; now right.
Qed.

(** ** Updating columns *)

Lemma update_labels (c : string) (g : Series -> Series) (d : DataFrame) :
  labels (update c g d) = labels d.
Proof.
  unfold labels, update; simpl; rewrite map_map.
  apply map_ext; intros p; now destruct (String.eqb (fst p) c).
Qed.

Lemma select_update_same (c : string) (g : Series -> Series)
      (d : DataFrame) :
  select (update c g d) c = map g (select d c).
Proof.
  unfold select, update; simpl.
  induction (data d) as [|p r IH]; simpl; auto.
  destruct (String.eqb (fst p) c) eqn:E; simpl; rewrite E; simpl;
    now rewrite IH.
Qed.

Lemma select_update_other (c c' : string) (g : Series -> Series)
      (d : DataFrame) :
  c <> c' -> select (update c g d) c' = select d c'.
Proof.
  intros Hne; unfold select, update; simpl.
  induction (data d) as [|p r IH]; simpl; auto.
  destruct (String.eqb (fst p) c) eqn:E; simpl.
  - apply String.eqb_eq in E.
    assert (E' : String.eqb (fst p) c' = false)
      by (apply String.eqb_neq; congruence).
    now rewrite E'.
  - destruct (String.eqb (fst p) c'); simpl; now rewrite IH.
Qed.

Lemma update_update (c : string) (g1 g2 : Series -> Series)
      (d : DataFrame) :
  update c g2 (update c g1 d) = update c (fun s => g2 (g1 s)) d.
Proof.
  unfold update; simpl; f_equal; rewrite map_map.
  apply map_ext; intros p.
  destruct (String.eqb (fst p) c) eqn:E; simpl; now rewrite E.
Qed.

Lemma update_ext (c : string) (g1 g2 : Series -> Series) (d : DataFrame) :
  (forall s, g1 s = g2 s) -> update c g1 d = update c g2 d.
Proof.
  intros H; unfold update; f_equal.
  apply map_ext; intros p; now rewrite H.
Qed.

Lemma put_update (c : string) (g : Series -> Series)
      (cols : list (string * Series)) :
  put c (map g (map snd (filter (fun p => String.eqb (fst p) c) cols))) cols
  = map (fun p => if String.eqb (fst p) c then (fst p, g (snd p)) else p)
        cols.
Proof.
  induction cols as [|p r IH]; simpl; auto.
  destruct (String.eqb (fst p) c) eqn:E; simpl; rewrite ?E; now rewrite IH.
Qed.

(** Assigning to a label the frame has what [g] makes of its columns. *)
Lemma setitem_update (c : string) (g : Series -> Series) (d : DataFrame) :
  select d c <> [] ->
  setitem c (map g (select d c)) d = (Ok tt, update c g d).
Proof.
  intros Hne; unfold setitem, update.
  pose proof (put_update c g (data d)) as Hput; fold (select d c) in Hput.
  destruct (select d c) as [|x [|y t]] eqn:E; [contradiction| |].
  - simpl in *; now rewrite Hput.
  - simpl map; simpl length; rewrite length_map, Nat.eqb_refl; simpl.
    now rewrite <- Hput.
Qed.

(** Assigning one series to a label the frame has: it is broadcast. *)
Lemma setitem_broadcast (c : string) (x : Series) (d : DataFrame) :
  select d c <> [] ->
  setitem c [x] d = (Ok tt, update c (fun _ => x) d).
Proof.
  intros Hne; unfold setitem, update.
  assert (Hk : Nat.eqb (length (select d c)) 0 = false).
  { apply Nat.eqb_neq; now destruct (select d c). }
  rewrite Hk; do 2 f_equal.
  rewrite <- (put_update c (fun _ => x) (data d)); f_equal.
  fold (select d c); clear; induction (select d c); simpl; congruence.
Qed.

Lemma setitem_new (c : string) (x : Series) (d : DataFrame) :
  select d c = [] ->
  setitem c [x] d = (Ok tt, mkFrame (nrows d) (data d ++ [(c, x)])).
Proof. intros H; unfold setitem; now rewrite H. Qed.

(** The three shapes of a statement [df[c] = df[c]. ...], followed by the
    statements [k]. *)
Lemma run_each (A : Type) (c : string) (f : cell -> cell)
      (k : SE DataFrame A) (d : DataFrame) :
  (s <- getitem c;; setitem c (each f s);; k) d =
  match select d c with
  | [] => (Raise (KeyError c), d)
  | _ :: _ => k (update c (map f) d)
  end.
Proof.
  unfold bind, getitem.
  destruct (select d c) as [|x t] eqn:E; [reflexivity|].
  rewrite <- E; unfold each.
  rewrite setitem_update by congruence; reflexivity.
Qed.

Lemma run_series (A : Type) (a c : string) (f : cell -> cell)
      (k : SE DataFrame A) (d : DataFrame) :
  (s <- getitem c >>= series a;; setitem c [map f s];; k) d =
  match select d c with
  | [] => (Raise (KeyError c), d)
  | [_] => k (update c (map f) d)
  | _ :: _ :: _ => (Raise (AttributeError a), d)
  end.
Proof.
  unfold bind, getitem, series.
  destruct (select d c) as [|x [|y t]] eqn:E; try reflexivity.
  unfold ret.
  change [map f x] with (map (map f) [x]); rewrite <- E.
  rewrite setitem_update by congruence; reflexivity.
Qed.

Lemma run_each_series (A : Type) (a c : string) (g f : cell -> cell)
      (k : SE DataFrame A) (d : DataFrame) :
  (s <- getitem c;; s <- series a (each g s);; setitem c [map f s];; k) d =
  match select d c with
  | [] => (Raise (KeyError c), d)
  | [_] => k (update c (map (fun x => f (g x))) d)
  | _ :: _ :: _ => (Raise (AttributeError a), d)
  end.
Proof.
  unfold bind, getitem, series, each.
  destruct (select d c) as [|x [|y t]] eqn:E; try reflexivity.
  change (map (map g) [x]) with [map g x]; unfold ret; cbv beta iota.
  rewrite map_map.
  change [map (fun x0 => f (g x0)) x]
    with (map (map (fun x0 => f (g x0))) [x]); rewrite <- E.
  rewrite setitem_update by congruence; reflexivity.
Qed.

Lemma setitem_set_column (c : string) (x : Series) (d : DataFrame) :
  setitem c [x] d = (Ok tt, set_column c x d).
Proof.
  unfold set_column; destruct (select d c) as [|y t] eqn:E.
  - now apply setitem_new.
  - apply setitem_broadcast; congruence.
Qed.

Lemma select_app (d : DataFrame) (c c' : string) (x : Series) :
  select (mkFrame (nrows d) (data d ++ [(c, x)])) c' =
  select d c' ++ (if String.eqb c c' then [x] else []).
Proof.
  unfold select; simpl; rewrite filter_app, map_app; simpl.
  now destruct (String.eqb c c').
Qed.

Lemma select_set_column_same (c : string) (x : Series) (d : DataFrame) :
  select (set_column c x d) c = map (fun _ => x) (select d c) ++
                                match select d c with
                                | [] => [x]
                                | _ :: _ => []
                                end.
Proof.
  unfold set_column; destruct (select d c) as [|y t] eqn:E.
  - now rewrite select_app, E, String.eqb_refl.
  - now rewrite select_update_same, E, app_nil_r.
Qed.

Lemma select_set_column_other (c c' : string) (x : Series)
      (d : DataFrame) :
  c <> c' -> select (set_column c x d) c' = select d c'.
Proof.
  intros Hne; unfold set_column; destruct (select d c) as [|y t].
  - rewrite select_app.
    apply String.eqb_neq in Hne; rewrite Hne; apply app_nil_r.
  - now apply select_update_other.
Qed.

Lemma update_set_column (c : string) (g : Series -> Series) (x : Series)
      (d : DataFrame) :
  update c g (set_column c x d) = set_column c (g x) d.
Proof.
  unfold set_column; destruct (select d c) as [|y t] eqn:E.
  - unfold update; simpl; f_equal; rewrite map_app; simpl.
    rewrite String.eqb_refl; f_equal.
    assert (Hout : ~ In c (labels d)).
    { intros Hin; revert E; unfold select, labels in *.
      induction (data d) as [|p r IH]; simpl in *; [contradiction|].
      destruct (String.eqb (fst p) c) eqn:E1; simpl; [discriminate|].
      destruct Hin as [He|Hin]; auto.
      apply String.eqb_neq in E1; congruence. }
    unfold labels in Hout; clear E.
    induction (data d) as [|p r IH]; simpl in *; auto.
    destruct (String.eqb (fst p) c) eqn:E1.
    + apply String.eqb_eq in E1; tauto.
    + f_equal; apply IH; tauto.
  - now rewrite update_update.
Qed.

Lemma select_without_other (c c' : string) (d : DataFrame) :
  c <> c' -> select (without c d) c' = select d c'.
Proof.
  intros Hne; unfold select, without; simpl.
  induction (data d) as [|p r IH]; simpl; auto.
  destruct (String.eqb (fst p) c) eqn:E; simpl.
  - apply String.eqb_eq in E.
    assert (E' : String.eqb (fst p) c' = false)
      by (apply String.eqb_neq; congruence).
    now rewrite E'.
  - destruct (String.eqb (fst p) c'); simpl; now rewrite IH.
Qed.

Lemma select_without_same (c : string) (d : DataFrame) :
  select (without c d) c = [].
Proof.
  unfold select, without; simpl.
  induction (data d) as [|p r IH]; simpl; auto.
  destruct (String.eqb (fst p) c) eqn:E; simpl; auto.
  now rewrite E.
Qed.

Lemma run_getitem (A : Type) (c : string)
      (k : list Series -> SE DataFrame A) (d : DataFrame) :
  bind (getitem c) k d =
  match select d c with
  | [] => (Raise (KeyError c), d)
  | _ :: _ => k (select d c) d
  end.
Proof. unfold bind, getitem; now destruct (select d c). Qed.

Lemma run_ret (A B : Type) (a : A) (k : A -> SE DataFrame B)
      (d : DataFrame) :
  bind (ret a) k d = k a d.
Proof. reflexivity. Qed.

Lemma run_series_one (A : Type) (a : string) (s : Series)
      (k : Series -> SE DataFrame A) (d : DataFrame) :
  bind (series a [s]) k d = k s d.
Proof. reflexivity. Qed.

Lemma run_raise (A B : Type) (e : exn) (k : A -> SE DataFrame B)
      (d : DataFrame) :
  bind (raise e) k d = (Raise e, d).
Proof. reflexivity. Qed.

Lemma run_assoc (A B C : Type) (m : SE DataFrame A)
      (f : A -> SE DataFrame B) (k : B -> SE DataFrame C) (d : DataFrame) :
  bind (bind m f) k d = bind m (fun x => bind (f x) k) d.
Proof. unfold bind; destruct (m d) as [[a|e] d']; reflexivity. Qed.

Lemma run_setitem_update (A : Type) (c : string) (g : Series -> Series)
      (k : unit -> SE DataFrame A) (d : DataFrame) (found : list Series) :
  select d c = found ->
  found <> [] ->
  bind (setitem c (map g found)) k d = k tt (update c g d).
Proof.
  intros <- Hne; unfold bind; now rewrite setitem_update.
Qed.

Lemma run_setitem_set_column (A : Type) (c : string) (x : Series)
      (k : unit -> SE DataFrame A) (d : DataFrame) :
  bind (setitem c [x]) k d = k tt (set_column c x d).
Proof. unfold bind; now rewrite setitem_set_column. Qed.

(** ** What each method does to its column *)

Ltac run_statements E :=
  unfold str;
  repeat (first [rewrite run_each | rewrite run_series
                | rewrite run_each_series];
          rewrite ?select_update_same, ?E; cbn [map]).

Ltac fuse_updates :=
  rewrite ?update_update; apply update_ext; intros ?;
  rewrite ?map_map; apply map_ext; intros ?; reflexivity.

Ltac finish_statements :=
  unfold return_df, ret; f_equal; fuse_updates.

Lemma gender_statements (d : DataFrame) :
  statements _standardize_gender d =
  match select d "Gender" with
  | [] => (Raise (KeyError "Gender"), d)
  | _ :: _ => (Ok None, update "Gender" (map gender_cell) d)
  end.
Proof.
  cbn [statements _standardize_gender].
  destruct (select d "Gender") as [|x t] eqn:E; run_statements E;
    [reflexivity|finish_statements].
Qed.

Lemma education_statements (d : DataFrame) :
  statements _standardize_education d =
  match select d "Education" with
  | [] => (Raise (KeyError "Education"), d)
  | _ :: _ => (Ok None, update "Education" (map education_cell) d)
  end.
Proof.
  cbn [statements _standardize_education].
  destruct (select d "Education") as [|x t] eqn:E; run_statements E;
    [reflexivity|finish_statements].
Qed.

Lemma salary_statements (d : DataFrame) :
  statements _standardize_annual_salaries d =
  match select d "Annual_Salary" with
  | [] => (Raise (KeyError "Annual_Salary"), d)
  | [_] => (Ok None, update "Annual_Salary" (map salary_cell) d)
  | _ :: _ :: _ => (Raise (AttributeError "str"), d)
  end.
Proof.
  cbn [statements _standardize_annual_salaries].
  destruct (select d "Annual_Salary") as [|x [|y t]] eqn:E;
    run_statements E; reflexivity.
Qed.

Lemma comp_statements (d : DataFrame) :
  statements _standardize_additional_comp d =
  match select d "Additional_Comp" with
  | [] => (Raise (KeyError "Additional_Comp"), d)
  | [_] => (Ok None, update "Additional_Comp" (map comp_cell) d)
  | _ :: _ :: _ => (Raise (AttributeError "str"), d)
  end.
Proof.
  cbn [statements _standardize_additional_comp].
  destruct (select d "Additional_Comp") as [|x [|y t]] eqn:E;
    run_statements E; reflexivity.
Qed.

Lemma income_statements (d : DataFrame) :
  statements _standardize_income_context d =
  match select d "Income_Context" with
  | [] => (Raise (KeyError "Income_Context"), d)
  | [_] => (Ok None, update "Income_Context" (map income_cell) d)
  | _ :: _ :: _ => (Raise (AttributeError "str"), d)
  end.
Proof.
  cbn [statements _standardize_income_context].
  destruct (select d "Income_Context") as [|x [|y t]] eqn:E;
    run_statements E; reflexivity.
Qed.

Lemma country_statements (d : DataFrame) :
  statements _standardize_country d =
  match select d "Country" with
  | [] => (Raise (KeyError "Country"), d)
  | [_] => (Ok None, update "Country" (map country_cell) d)
  | _ :: _ :: _ => (Raise (AttributeError "str"), d)
  end.
Proof.
  cbn [statements _standardize_country].
  destruct (select d "Country") as [|x [|y t]] eqn:E;
    run_statements E; try reflexivity.
  finish_statements.
Qed.

Lemma race_statements (d : DataFrame) :
  statements _standardize_race d =
  match select d "Race" with
  | [] => (Raise (KeyError "Race"), d)
  | [_] => (Ok None, update "Race" (map race_cell) d)
  | _ :: _ :: _ =>
      (Raise (AttributeError "str"),
       update "Race" (map (replace_blank Null)) d)
  end.
Proof.
  cbn [statements _standardize_race].
  destruct (select d "Race") as [|x [|y t]] eqn:E;
    run_statements E; try reflexivity.
  finish_statements.
Qed.

Lemma experience_statements (d : DataFrame) :
  statements _standardize_experience d =
  match select d "Experience" with
  | [] => (Raise (KeyError "Experience"), d)
  | [_] =>
      (Ok None,
       update "Experience" (map (experience_cell experience_map)) d)
  | _ :: _ :: _ =>
      (Raise (AttributeError "str"),
       update "Experience" (map (replace_blank Null)) d)
  end.
Proof.
  cbn [statements _standardize_experience].
  destruct (select d "Experience") as [|x [|y t]] eqn:E;
    run_statements E; try reflexivity.
  finish_statements.
Qed.

Lemma overall_experience_statements (d : DataFrame) :
  statements _standardize_overall_experience d =
  match select d "Experience_Overall" with
  | [] => (Raise (KeyError "Experience_Overall"), d)
  | [_] =>
      (Ok None,
       update "Experience_Overall"
              (map (experience_cell overall_experience_map)) d)
  | _ :: _ :: _ =>
      (Raise (AttributeError "str"),
       update "Experience_Overall" (map (replace_blank Null)) d)
  end.
Proof.
  cbn [statements _standardize_overall_experience].
  destruct (select d "Experience_Overall") as [|x [|y t]] eqn:E;
    run_statements E; try reflexivity.
  finish_statements.
Qed.

Lemma state_statements (d : DataFrame) :
  statements _standardize_state d =
  match select d "State" with
  | [] => (Raise (KeyError "State"), d)
  | [_] => (Ok None, update "State" (map state_cell) d)
  | _ :: _ :: _ => (Raise (AttributeError "str"), d)
  end.
Proof.
  cbn [statements _standardize_state].
  destruct (select d "State") as [|x [|y t]] eqn:E;
    run_statements E; reflexivity.
Qed.

Lemma city_statements (d : DataFrame) :
  statements _standardize_city d =
  match select d "City" with
  | [] => (Raise (KeyError "City"), d)
  | [_] => (Ok None, update "City" (map city_cell) d)
  | _ :: _ :: _ => (Raise (AttributeError "str"), d)
  end.
Proof.
  cbn [statements _standardize_city].
  destruct (select d "City") as [|x [|y t]] eqn:E;
    run_statements E; try reflexivity.
  finish_statements.
Qed.

Lemma job_context_statements (d : DataFrame) :
  statements _standardize_job_context d =
  match select d "Job_Context" with
  | [] => (Raise (KeyError "Job_Context"), d)
  | _ :: _ => (Ok None, update "Job_Context" (map none_if_na) d)
  end.
Proof.
  cbn [statements _standardize_job_context].
  transitivity
    ((s <- getitem "Job_Context";;
      setitem "Job_Context" (each none_if_na s);; return_df) d).
  - unfold bind, getitem.
    destruct (select d "Job_Context") eqn:E; [reflexivity|].
    cbv beta iota; rewrite E; reflexivity.
  - rewrite run_each; destruct (select d "Job_Context"); reflexivity.
Qed.

Lemma rename_statements (d : DataFrame) :
  statements _rename_columns d = (Ok None, rename rename_map d).
Proof. reflexivity. Qed.

Lemma currency_statements (d : DataFrame) :
  statements _standardize_currency_other_cols d =
  match select d "Currency" with
  | [] => (Raise (KeyError "Currency"), d)
  | [_] =>
      match select d "Currency_Other" with
      | [] => (Raise (KeyError "Currency_Other"), d)
      | [o] =>
          let d' := update "Currency" (currency_series o) d in
          (Ok (Some (without "Currency_Other" d')), d')
      | _ :: _ :: _ => (Raise NotImplementedError, d)
      end
  | _ :: _ :: _ => (Raise (AttributeError "str"), d)
  end.
Proof.
  cbn [statements _standardize_currency_other_cols].
  rewrite run_getitem.
  destruct (select d "Currency") as [|c [|c2 t]] eqn:E; try reflexivity.
  - rewrite run_assoc, run_getitem, E; unfold str at 1.
    rewrite run_series_one, run_getitem.
    destruct (select d "Currency_Other") as [|o [|o2 t]] eqn:Eo;
      try reflexivity.
    rewrite run_series_one, run_ret.
    rewrite (run_setitem_update _ "Currency"
               (fun col => where_ (not_other col) col o) _ d [c] E)
      by discriminate.
    run_statements E.
    unfold bind, drop_column, return_new, ret.
    rewrite !update_update.
    rewrite select_update_other, Eo by discriminate.
    assert (Hu : update "Currency"
                   (fun s => map (replace_dict replace_map)
                               (map (str_method clean_currency)
                                    (where_ (not_other s) s o))) d =
                 update "Currency" (currency_series o) d).
    { apply update_ext; intros col; unfold currency_series.
      now rewrite map_map. }
    now rewrite Hu.
  - rewrite run_assoc, run_getitem, E; reflexivity.
Qed.

Section Timestamp.

Variable parse_timestamp : Series -> string -> cell.

Lemma timestamp_statements (d : DataFrame) :
  statements (_change_time_format parse_timestamp) d =
  match select d "Timestamp" with
  | [] => (Raise (KeyError "Timestamp"), d)
  | [_] =>
      (Ok None,
       update "Timestamp"
              (fun col => map strftime (to_datetime parse_timestamp col)) d)
  | _ :: _ :: _ => (Raise ValueError, d)
  end.
Proof.
  cbn [statements _change_time_format].
  rewrite run_getitem.
  destruct (select d "Timestamp") as [|t [|t2 r]] eqn:E; try reflexivity.
  rewrite run_ret.
  rewrite (run_setitem_update _ "Timestamp" (to_datetime parse_timestamp)
             _ d [t] E) by discriminate.
  assert (Hs : select (update "Timestamp" (to_datetime parse_timestamp) d)
                      "Timestamp" = [to_datetime parse_timestamp t])
    by (now rewrite select_update_same, E).
  rewrite run_series, Hs.
  unfold return_df, ret; f_equal.
  now rewrite update_update.
Qed.

End Timestamp.

Lemma job_titles_statements (d : DataFrame) :
  statements _normalize_job_titles d =
  match select d "Job_Title" with
  | [] => (Raise (KeyError "Job_Title"), d)
  | [t] =>
      let d1 := update "Job_Title" (map (str_method clean_title)) d in
      let cleaned := map (str_method clean_title) t in
      match select d "Seniority" with
      | _ :: _ :: _ =>
          (Raise (AttributeError "str"),
           set_column "Seniority" (map (first_match pattern) cleaned) d1)
      | _ => (Ok None, set_column "Seniority" (map seniority_cell cleaned) d1)
      end
  | _ :: _ :: _ => (Raise (AttributeError "str"), d)
  end.
Proof.
  cbn [statements _normalize_job_titles].
  unfold str; rewrite run_series.
  destruct (select d "Job_Title") as [|t [|t2 r]] eqn:E; try reflexivity.
  set (d1 := update "Job_Title" (map (str_method clean_title)) d).
  assert (Hjt : select d1 "Job_Title" = [map (str_method clean_title) t])
    by (unfold d1; now rewrite select_update_same, E).
  assert (Hsen : select d1 "Seniority" = select d "Seniority")
    by (unfold d1; now rewrite select_update_other).
  rewrite run_assoc, run_getitem, Hjt.
  rewrite run_series_one, run_setitem_set_column.
  set (x := map (first_match pattern) (map (str_method clean_title) t)).
  assert (Hx : select (set_column "Seniority" x d1) "Seniority" =
               map (fun _ => x) (select d "Seniority") ++
               match select d "Seniority" with [] => [x] | _ :: _ => [] end)
    by (now rewrite select_set_column_same, Hsen).
  destruct (select d "Seniority") as [|s [|s2 r]] eqn:Es; simpl in Hx;
    run_statements Hx; try reflexivity;
      unfold return_df, ret; f_equal;
        rewrite !update_update, update_set_column; f_equal;
          unfold x, seniority_cell; now rewrite !map_map.
Qed.

(** ** Rows and boolean indexing *)

Lemma cell_eqb_eq (x y : cell) : cell_eqb x y = true <-> x = y.
Proof.
  destruct x as [a|], y as [b|]; simpl; split; intros H;
    try discriminate; try reflexivity.
  - apply String.eqb_eq in H; now subst.
  - inversion H; apply String.eqb_refl.
Qed.

Lemma row_eqb_eq (r1 r2 : list cell) : row_eqb r1 r2 = true <-> r1 = r2.
Proof.
  revert r2; induction r1 as [|x t IH]; intros [|y t2]; simpl; split;
    intros H; try discriminate; try reflexivity.
  - apply andb_true_iff in H; destruct H as [H1 H2].
    apply cell_eqb_eq in H1; apply IH in H2; now subst.
  - inversion H; subst; apply andb_true_iff; split.
    + now apply cell_eqb_eq.
    + now apply IH.
Qed.

Lemma nth_pick (mask : list bool) (s : Series) (j : nat) :
  j < length (filter (fun b => b) mask) ->
  nth j (pick mask s) Null = nth (position mask j) s Null.
Proof.
  revert s j; induction mask as [|b m IH]; intros s j Hj; simpl in *.
  - lia.
  - destruct s as [|x t].
    + assert (Hn : forall n, nth n (@nil cell) Null = Null)
        by (intros [|n]; reflexivity).
      replace (pick (b :: m) (@nil cell)) with (@nil cell)
        by (now destruct b).
      now rewrite !Hn.
    + destruct b; simpl in *.
      * destruct j as [|j']; simpl; auto. apply IH; lia.
      * now apply IH.
Qed.

Lemma row_take (mask : list bool) (d : DataFrame) (j : nat) :
  j < length (filter (fun b => b) mask) ->
  row (take mask d) j = row d (position mask j).
Proof.
  intros Hj; unfold row, take; simpl; rewrite map_map.
  apply map_ext; intros p; simpl; now apply nth_pick.
Qed.

Lemma pick_map (A B : Type) (f : A -> B) (mask : list bool) (l : list A) :
  pick mask (map f l) = map f (pick mask l).
Proof.
  revert l; induction mask as [|b m IH]; intros [|x t]; simpl; auto.
  destruct b; simpl; now rewrite IH.
Qed.

Lemma pick_seq (mask : list bool) (a : nat) :
  pick mask (seq a (length mask)) =
  map (fun j => a + position mask j)
      (seq 0 (length (filter (fun b => b) mask))).
Proof.
  revert a; induction mask as [|b m IH]; intros a; simpl; auto.
  destruct b; simpl.
  - rewrite Nat.add_0_r; f_equal.
    rewrite IH, <- seq_shift, map_map.
    apply map_ext; intros j; lia.
  - rewrite IH; apply map_ext; intros j; lia.
Qed.

Lemma rows_take (mask : list bool) (d : DataFrame) :
  length mask = nrows d -> rows (take mask d) = pick mask (rows d).
Proof.
  intros Hlen; unfold rows at 2; rewrite pick_map, <- Hlen, pick_seq.
  rewrite map_map; unfold rows; simpl.
  apply map_ext_in; intros j Hj; apply in_seq in Hj.
  apply row_take; lia.
Qed.

Lemma rows_length (d : DataFrame) : length (rows d) = nrows d.
Proof. unfold rows; now rewrite length_map, length_seq. Qed.

Lemma in_rows (d : DataFrame) (r : list cell) :
  In r (rows d) <-> exists i, i < nrows d /\ row d i = r.
Proof.
  unfold rows; rewrite in_map_iff; split; intros (i & H1 & H2).
  - apply in_seq in H2; exists i; split; auto; lia.
  - exists i; split; auto; apply in_seq; lia.
Qed.

Lemma firsts_length (seen rs : list (list cell)) :
  length (firsts seen rs) = length rs.
Proof.
  revert seen; induction rs as [|r t IH]; intros seen; simpl; auto.
Qed.

(** [drop_duplicates] keeps a copy of every row. *)
Lemma firsts_keep (rs seen : list (list cell)) (r : list cell) :
  In r rs -> ~ In r seen -> In r (pick (firsts seen rs) rs).
Proof.
  revert seen; induction rs as [|r0 t IH]; intros seen Hin Hout; simpl in *.
  - contradiction.
  - destruct (existsb (row_eqb r0) seen) eqn:E; simpl.
    + apply existsb_exists in E; destruct E as (x & Hx & Heq).
      apply row_eqb_eq in Heq; subst x.
      assert (Hne : r0 <> r) by (intros ->; contradiction).
      apply IH; [destruct Hin; [contradiction|assumption]|].
      intros [H|H]; contradiction.
    + destruct Hin as [->|Hin]; [now left|].
      destruct (row_eqb r r0) eqn:Er.
      { apply row_eqb_eq in Er; now left. }
      right.
      assert (Hne : r0 <> r).
      { intros ->; rewrite (proj2 (row_eqb_eq r r) eq_refl) in Er;
          discriminate. }
      apply IH; auto.
      intros [H|H]; [congruence|contradiction].
Qed.

Lemma drop_duplicates_keeps (d : DataFrame) (r : list cell) :
  In r (rows d) -> In r (rows (drop_duplicates d)).
Proof.
  intros H; unfold drop_duplicates.
  rewrite rows_take by (now rewrite firsts_length, rows_length).
  apply firsts_keep; auto.
Qed.

(** ** The shape of the result *)

Lemma yields_bind (A : Type) (P : DataFrame -> Prop) (m : M A)
      (k : A -> M loc) (w : world) :
  (forall a w1, yields P (k a w1)) -> yields P (bind m k w).
Proof.
  intros H; unfold bind; destruct (m w) as [[a|e] w1]; simpl; auto.
Qed.

Lemma yields_fresh_empty (P : DataFrame -> Prop) (w : world) :
  P DataFrame_empty -> yields P (new DataFrame_empty w).
Proof.
  intros H; unfold new; simpl.
  exists DataFrame_empty; split; auto; apply deref_new.
Qed.

(** The [try ... except] of [transform] and of the methods turns such a
    computation into one that always returns a table with [P]. *)
Lemma try_except_yields (P : DataFrame -> Prop) (m : M loc)
      (h : exn -> M unit) (w : world) :
  P DataFrame_empty ->
  yields P (m w) ->
  (forall e w1, exists w2, h e w1 = (Ok tt, w2)) ->
  exists l w' out,
    try_except m (fun e => h e;; new DataFrame_empty) w = (Ok l, w') /\
    deref w' l = Some out /\ P out.
Proof.
  intros HP Hy Hh; unfold try_except.
  destruct (m w) as [[l|e] w1]; simpl in Hy.
  - destruct Hy as (d & Hd & Hpd); now exists l, w1, d.
  - destruct (Hh e w1) as (w2 & Hw2).
    rewrite (bind_ok Hw2).
    exists (length (heap w2)), (mkWorld (heap w2 ++ [DataFrame_empty])
                                        (logged w2)), DataFrame_empty.
    repeat split; auto; apply deref_new.
Qed.

Lemma call_total (s : step) (df : loc) (w : world) :
  exists l w', call s df w = (Ok l, w').
Proof.
  destruct (deref w df) as [d|] eqn:Hd.
  - rewrite (call_run _ _ _ _ Hd); simpl.
    destruct (fst (statements s d)) as [[n|]|e]; eauto.
  - destruct (call_dangling s df w Hd) as (w' & H & _); eauto.
Qed.

Lemma dtype_conversion_result (df : loc) (w : world) (d : DataFrame) :
  deref w df = Some d ->
  exists l w',
    dtype_conversion df w = (Ok l, w') /\
    (deref w' l = Some DataFrame_empty \/
     exists d', deref w' l = Some d' /\
                snd (convert_columns (labels d) d) = d' /\
                fst (convert_columns (labels d) d) = Ok tt /\
                forall c, length (select d' c) <= 1).
Proof.
  intros Hd; unfold dtype_conversion, try_except.
  unfold bind at 1, logger at 1; simpl.
  set (w0 := mkWorld (heap w) _).
  assert (Hd0 : deref w0 df = Some d) by exact Hd.
  unfold bind at 1; rewrite (on_run _ _ _ _ _ Hd0).
  change ((cols <- gets labels;; convert_columns cols) d)
    with (convert_columns (labels d) d).
  destruct (convert_columns (labels d) d) as [[[]|e] d'] eqn:Hc; simpl.
  - unfold bind, logger, ret; simpl.
    do 2 eexists; split; [reflexivity|right].
    exists d'; unfold deref; simpl.
    split; [apply store_at_same; apply (deref_lt _ _ _ Hd)|].
    repeat split.
    apply convert_columns_unique in Hc; destruct Hc as (Hl & Hu).
    intros c; rewrite (select_length_labels d' d c Hl).
    destruct (in_dec string_dec c (labels d)) as [Hin|Hout].
    + rewrite (Hu c Hin); lia.
    + rewrite (select_absent d c Hout); simpl; lia.
  - unfold bind, logger, new; simpl.
    do 2 eexists; split; [reflexivity|left].
    apply deref_new.
Qed.

Lemma finish_yields (df : loc) (w : world) :
  yields canonical_or_empty (finish df w).
Proof.
  unfold finish.
  destruct (deref w df) as [d|] eqn:Hd;
    [|rewrite (bind_raise (on_dangling _ _ _ _ Hd)); exact I].
  rewrite (bind_ok (on_gets _ _ _ _ _ Hd)).
  erewrite bind_ok by reflexivity.
  erewrite bind_ok by (apply on_gets, deref_new).
  erewrite bind_ok by reflexivity.
  erewrite bind_ok by reflexivity.
  simpl logged; simpl heap.
  match goal with
  | |- yields _ (bind (dtype_conversion ?l) _ ?w0) =>
      destruct (dtype_conversion_result l w0 _ (deref_new _ _ _))
        as (l' & w' & Hrun & Hres)
  end.
  rewrite (bind_ok Hrun).
  destruct Hres as [He|(d' & Hd' & _ & _ & Hu)].
  - unfold bind at 1; rewrite (on_run _ _ _ _ _ He); simpl; exact I.
  - unfold bind at 1; rewrite (on_run _ _ _ _ _ Hd').
    unfold getitems.
    destruct (gather canonical_columns d') as [cols|] eqn:G; simpl;
      [|exact I].
    unfold bind, new, on, gets, logger, ret; simpl.
    rewrite store_at_length.
    unfold deref at 1; simpl.
    rewrite nth_error_app2 by (rewrite store_at_length; lia).
    rewrite store_at_length, Nat.sub_diag; simpl.
    eexists; split.
    + unfold deref; simpl.
      rewrite store_at_same
        by (rewrite length_app, store_at_length; simpl; lia).
      reflexivity.
    + left; unfold labels; simpl.
      apply (gather_labels _ _ _ G); intros c _; apply Hu.
Qed.

Lemma run_steps_yields (P : DataFrame -> Prop) (after : loc -> M loc)
      (steps : list step) :
  P DataFrame_empty ->
  (forall df w, yields P (after df w)) ->
  forall df w, yields P (run_steps steps df after w).
Proof.
  intros HP Hafter; induction steps as [|s rest IH]; intros df w; simpl.
  - apply Hafter.
  - destruct (call_total s df w) as (l & w1 & Hcall).
    rewrite (bind_ok Hcall).
    apply yields_bind; intros [|] w2.
    + apply yields_bind; intros _ w3; now apply yields_fresh_empty.
    + apply IH.
Qed.

Lemma empty_DataFrame_empty : canonical_or_empty DataFrame_empty.
Proof. now right. Qed.

Lemma run_steps_passes (pre rest : list step) (after : loc -> M loc) :
  forall df w dfk wk,
    passes pre df w = Some (dfk, wk) ->
    run_steps (pre ++ rest) df after w = run_steps rest dfk after wk.
Proof.
  induction pre as [|s pre IH]; intros df w dfk wk H; simpl in *.
  - now inversion H.
  - destruct (call s df w) as [[l|e] w1] eqn:Hcall; try discriminate.
    rewrite (bind_ok Hcall).
    destruct (deref w1 l) as [d|] eqn:Hd; try discriminate.
    rewrite (bind_ok (on_gets _ _ _ _ _ Hd)).
    destruct (empty d); try discriminate.
    now apply IH.
Qed.

(** The loop at a step whose body raises. *)
Lemma run_steps_raise (s : step) (rest : list step) (after : loc -> M loc)
      (df : loc) (w : world) (e : exn) :
  fst (try_body s df w) = Raise e ->
  run_steps (s :: rest) df after w =
  let w1 := snd (try_body s df w) in
  (Ok (S (length (heap w1))),
   mkWorld (heap w1 ++ [DataFrame_empty; DataFrame_empty])
     (logged w1 ++
      [critical s e;
       Log ERROR ("Transformation step " ++ name s
                    ++ " returned empty DataFrame")%string None])).
Proof.
  intros H; simpl.
  assert (Hcall : call s df w =
                  (Ok (length (heap (snd (try_body s df w)))),
                   mkWorld (heap (snd (try_body s df w)) ++ [DataFrame_empty])
                     (logged (snd (try_body s df w)) ++ [critical s e]))).
  { unfold call, try_except.
    destruct (try_body s df w) as [r w1]; simpl in *; subst r.
    unfold bind, logger, new; simpl; now destruct (critical s e). }
  rewrite (bind_ok Hcall).
  rewrite (bind_ok (on_gets _ _ _ _ DataFrame_empty (deref_new _ _ _))).
  simpl.
  unfold bind, logger, new; simpl.
  rewrite length_app, <- !app_assoc; simpl.
  now rewrite Nat.add_1_r.
Qed.

(** ** The statements before the loop *)

Lemma remove_duplicates_run (df : loc) (w : world) (d : DataFrame) :
  deref w df = Some d ->
  remove_duplicates df w =
  if negb (empty (take (duplicated_all d) d))
  then (Ok (length (heap w)),
        mkWorld (heap w ++ [drop_duplicates d])
          (logged w ++
           [Log WARNING
              ("Found " ++ str_of_nat (nrows (take (duplicated_all d) d))
                        ++ " duplicates in dataframe")%string None;
            Log INFO "Duplicates removed from dataframe" None]))
  else (Ok df, w).
Proof.
  intros Hd; unfold remove_duplicates.
  rewrite (bind_ok (on_gets _ _ _ _ _ Hd)).
  destruct (negb (empty (take (duplicated_all d) d))); [|reflexivity].
  erewrite bind_ok by reflexivity.
  erewrite bind_ok by (apply on_gets; exact Hd).
  unfold bind, new, logger, ret; simpl.
  now rewrite <- app_assoc.
Qed.

Lemma remove_null_rows_run (df : loc) (w : world) (d : DataFrame) :
  deref w df = Some d ->
  remove_null_rows df w =
  (Ok tt,
   mkWorld (heap w)
     (logged w ++
      if negb (empty (take (all_null d) d))
      then [Log WARNING
              ("Found " ++ str_of_nat (null_rows d)
                        ++ " completely null rows")%string None;
            Log INFO "Completely null rows dropped" None]
      else [Log INFO "No completely null rows found in dataframe" None])).
Proof.
  intros Hd; unfold remove_null_rows.
  rewrite (bind_ok (on_gets _ _ _ _ _ Hd)).
  destruct (negb (empty (take (all_null d) d))); [|reflexivity].
  erewrite bind_ok by reflexivity.
  erewrite bind_ok by (apply on_gets; exact Hd).
  unfold logger; simpl.
  now rewrite <- app_assoc.
Qed.

Lemma null_rows_positive (d : DataFrame) (r : list cell) :
  In r (rows d) -> forallb isna r = true -> 1 <= null_rows d.
Proof.
  intros Hin Hnull; unfold null_rows, all_null.
  induction (rows d) as [|x t IH]; simpl in *; [contradiction|].
  destruct Hin as [->|Hin].
  - rewrite Hnull; simpl; lia.
  - destruct (forallb isna x); simpl; auto with arith.
Qed.

Lemma take_empty (mask : list bool) (d : DataFrame) :
  empty (take mask d) =
  Nat.eqb (length (filter (fun b => b) mask)) 0
  || Nat.eqb (length (data d)) 0.
Proof. unfold empty, take; simpl; now rewrite length_map. Qed.

Lemma not_empty_columns (d : DataFrame) :
  empty d = false -> Nat.eqb (length (data d)) 0 = false.
Proof. unfold empty; intros H; now apply orb_false_iff in H. Qed.

(** ** The pipeline on frames *)

(** When the loop ends on a non-empty table, every method succeeded and the
    rest of the function ran on the table the last one handed back. *)
Lemma run_steps_success (after : loc -> M loc) (steps : list step) :
  forall df w d r w' out,
    deref w df = Some d ->
    run_steps steps df after w = (Ok r, w') ->
    deref w' r = Some out ->
    empty out = false ->
    exists dk dfk wk,
      run_frames steps d = Some dk /\
      deref wk dfk = Some dk /\
      after dfk wk = (Ok r, w').
Proof.
  induction steps as [|s rest IH]; intros df w d r w' out Hd Hrun Hout Hne;
    simpl in *.
  - now exists d, df, w.
  - pose proof (call_run s df w d Hd) as Hcall; simpl in Hcall.
    unfold handed.
    destruct (statements s d) as [[[n|]|e] d'] eqn:Es; simpl in Hcall;
      rewrite (bind_ok Hcall) in Hrun.
    + (* the method built a frame *)
      match type of Hrun with
      | bind _ _ ?w1 = _ =>
          assert (Hn : deref w1 (length (heap w)) = Some n)
      end.
      { unfold after_statements; rewrite ?Es; simpl.
        rewrite <- (store_at_length df d' (heap w)); apply deref_new. }
      rewrite (bind_ok (on_gets _ _ _ _ _ Hn)) in Hrun.
      destruct (empty n) eqn:En.
      * unfold bind, logger, new in Hrun; simpl in Hrun.
        inversion Hrun; subst r w'; clear Hrun.
        rewrite deref_new in Hout; inversion Hout; subst out; discriminate.
      * eapply IH; eauto.
    + (* the method returned df *)
      match type of Hrun with
      | bind _ _ ?w1 = _ => assert (Hn : deref w1 df = Some d')
      end.
      { unfold after_statements, deref; rewrite ?Es; simpl.
        apply store_at_same, (deref_lt _ _ _ Hd). }
      rewrite (bind_ok (on_gets _ _ _ _ _ Hn)) in Hrun.
      destruct (empty d') eqn:En.
      * unfold bind, logger, new in Hrun; simpl in Hrun.
        inversion Hrun; subst r w'; clear Hrun.
        rewrite deref_new in Hout; inversion Hout; subst out; discriminate.
      * eapply IH; eauto.
    + (* the method raised *)
      match type of Hrun with
      | bind _ _ ?w1 = _ =>
          assert (Hn : deref w1 (length (heap w)) = Some DataFrame_empty)
      end.
      { unfold after_statements; rewrite ?Es; simpl.
        rewrite <- (store_at_length df d' (heap w)); apply deref_new. }
      rewrite (bind_ok (on_gets _ _ _ _ _ Hn)) in Hrun.
      unfold bind, logger, new in Hrun; simpl in Hrun.
      inversion Hrun; subst r w'; clear Hrun.
      rewrite deref_new in Hout; inversion Hout; subst out; discriminate.
Qed.

Lemma update_id (c : string) (g : Series -> Series) (d : DataFrame) :
  (forall s, g s = s) -> update c g d = d.
Proof.
  intros H; unfold update; destruct d as [n cols]; simpl; f_equal.
  induction cols as [|p r IH]; simpl; auto.
  rewrite IH; f_equal.
  destruct (String.eqb (fst p) c); auto.
  rewrite H; now destruct p.
Qed.

Lemma astype_string_id (s : Series) : map astype_string s = s.
Proof.
  induction s as [|x t IH]; simpl; auto.
  rewrite IH; now destruct x.
Qed.

(** The type conversion leaves the cells of a frame of text as they are. *)
Lemma convert_columns_id (cols : list string) (d d' : DataFrame) :
  convert_columns cols d = (Ok tt, d') -> d' = d.
Proof.
  revert d; induction cols as [|col rest IH]; intros d H; simpl in H.
  - unfold ret in H; now inversion H.
  - rewrite run_series in H.
    destruct (select d col) as [|x [|y t]]; try discriminate.
    rewrite (update_id col (map astype_string) d astype_string_id) in H.
    now apply IH.
Qed.

Lemma finish_success (df : loc) (w : world) (d : DataFrame) (r : loc)
      (w' : world) (out : DataFrame) :
  deref w df = Some d ->
  finish df w = (Ok r, w') ->
  deref w' r = Some out ->
  exists cols,
    gather canonical_columns (final_cleaning d) = Some cols /\
    out = mkFrame (nrows d) cols /\
    forall c, length (select (final_cleaning d) c) <= 1.
Proof.
  intros Hd Hrun Hout; unfold finish in Hrun.
  rewrite (bind_ok (on_gets _ _ _ _ _ Hd)) in Hrun.
  erewrite bind_ok in Hrun by reflexivity.
  erewrite bind_ok in Hrun by (apply on_gets, deref_new).
  erewrite bind_ok in Hrun by reflexivity.
  erewrite bind_ok in Hrun by reflexivity.
  simpl logged in Hrun; simpl heap in Hrun.
  fold (final_cleaning d) in Hrun.
  match type of Hrun with
  | bind (dtype_conversion ?l) _ ?w0 = _ =>
      destruct (dtype_conversion_result l w0 _ (deref_new _ _ _))
        as (l' & w1 & Hconv & Hres)
  end.
  rewrite (bind_ok Hconv) in Hrun.
  destruct Hres as [He|(d' & Hd' & Hsnd & Hfst & Hu)].
  - unfold bind at 1 in Hrun; rewrite (on_run _ _ _ _ _ He) in Hrun.
    simpl in Hrun; discriminate.
  - assert (Hid : d' = final_cleaning d).
    { apply (convert_columns_id (labels (final_cleaning d))).
      rewrite <- Hsnd, <- Hfst; now destruct (convert_columns _ _). }
    clear Hsnd Hfst; subst d'.
    unfold bind at 1 in Hrun; rewrite (on_run _ _ _ _ _ Hd') in Hrun.
    unfold getitems in Hrun.
    destruct (gather canonical_columns (final_cleaning d)) as [cols|] eqn:G;
      simpl in Hrun; [|discriminate].
    exists cols; repeat split; auto.
    unfold bind, new, on, gets, logger, ret in Hrun; simpl in Hrun.
    rewrite store_at_length in Hrun.
    unfold deref at 1 in Hrun; simpl in Hrun.
    rewrite nth_error_app2 in Hrun by (rewrite store_at_length; lia).
    rewrite store_at_length, Nat.sub_diag in Hrun; simpl in Hrun.
    inversion Hrun; subst r w'; clear Hrun.
    unfold deref in Hout; simpl in Hout.
    rewrite store_at_same in Hout
      by (rewrite length_app, store_at_length; simpl; lia).
    now inversion Hout.
Qed.

(** ** Properties of every cell *)

Lemma well_formed_In (d : DataFrame) (c : string) (col : Series) :
  well_formed d -> In (c, col) (data d) -> length col = nrows d.
Proof.
  unfold well_formed; rewrite Forall_forall; intros H Hin.
  apply (H (c, col) Hin).
Qed.

Lemma select_In (d : DataFrame) (c : string) (col : Series) :
  In col (select d c) <-> In (c, col) (data d).
Proof.
  unfold select; rewrite in_map_iff; split.
  - intros ([c' col'] & Heq & Hin); simpl in Heq; subst col'.
    apply filter_In in Hin; destruct Hin as [Hin E]; simpl in E.
    apply String.eqb_eq in E; now subst.
  - intros Hin; exists (c, col); split; auto.
    apply filter_In; split; auto; apply String.eqb_refl.
Qed.

Lemma nth_map_cell (f : cell -> cell) (col : Series) (i : nat) :
  i < length col -> nth i (map f col) Null = f (nth i col Null).
Proof.
  intros Hi; rewrite (nth_indep _ Null (f Null))
    by (now rewrite length_map).
  apply map_nth.
Qed.

Lemma holds_update (P Q : string -> nat -> cell -> Prop) (c : string)
      (g : Series -> Series) (d : DataFrame) :
  holds P d ->
  (forall col, In (c, col) (data d) -> length (g col) = length col) ->
  (forall col i, In (c, col) (data d) -> i < nrows d ->
                 P c i (nth i col Null) -> Q c i (nth i (g col) Null)) ->
  (forall c' i x, c' <> c -> P c' i x -> Q c' i x) ->
  holds Q (update c g d).
Proof.
  intros [Hwf HP] Hlen Hc Hother; split.
  - unfold well_formed, update in *; simpl.
    rewrite Forall_forall in *; intros p Hin.
    apply in_map_iff in Hin; destruct Hin as ([c0 col0] & <- & Hq).
    simpl; destruct (String.eqb c0 c) eqn:E; simpl.
    + apply String.eqb_eq in E; subst c0.
      rewrite (Hlen col0 Hq); apply (Hwf _ Hq).
    + apply (Hwf _ Hq).
  - intros c' col i Hin Hi; unfold update in Hin, Hi; simpl in Hin, Hi.
    apply in_map_iff in Hin; destruct Hin as ([c0 col0] & Heq & Hq).
    simpl in Heq; destruct (String.eqb c0 c) eqn:E; inversion Heq; subst.
    + apply String.eqb_eq in E; subst c'.
      apply Hc; auto.
    + apply String.eqb_neq in E; apply Hother; auto.
Qed.

Lemma holds_update_map (P Q : string -> nat -> cell -> Prop) (c : string)
      (f : cell -> cell) (d : DataFrame) :
  holds P d ->
  (forall i x, P c i x -> Q c i (f x)) ->
  (forall c' i x, c' <> c -> P c' i x -> Q c' i x) ->
  holds Q (update c (map f) d).
Proof.
  intros H Hc Hother; apply (holds_update P Q); auto.
  - intros col _; apply length_map.
  - intros col i Hin Hi HP.
    rewrite nth_map_cell; auto.
    destruct H as [Hwf _]; rewrite (well_formed_In d c col Hwf Hin); auto.
Qed.

Lemma holds_set_column (P Q : string -> nat -> cell -> Prop) (c : string)
      (x : Series) (d : DataFrame) :
  holds P d ->
  length x = nrows d ->
  (forall i, i < nrows d -> Q c i (nth i x Null)) ->
  (forall c' i y, c' <> c -> P c' i y -> Q c' i y) ->
  holds Q (set_column c x d).
Proof.
  intros H Hlen Hc Hother; unfold set_column.
  destruct (select d c) as [|y t] eqn:E.
  - destruct H as [Hwf HP]; split.
    + unfold well_formed in *; simpl; apply Forall_app; split; auto.
    + intros c' col i Hin Hi; simpl in *.
      apply in_app_or in Hin; destruct Hin as [Hin|[Heq|[]]].
      * apply Hother; auto.
        intros ->; apply select_In in Hin; rewrite E in Hin; contradiction.
      * inversion Heq; subst; auto.
  - apply (holds_update P Q); auto.
    intros col Hin; rewrite Hlen.
    destruct H as [Hwf _]; symmetry; now apply (well_formed_In d c).
Qed.

Lemma holds_rename (P Q : string -> nat -> cell -> Prop)
      (m : list (string * string)) (d : DataFrame) :
  holds P d ->
  (forall c i x, P c i x -> Q (rename_label m c) i x) ->
  holds Q (rename m d).
Proof.
  intros [Hwf HP] HQ; split.
  - unfold well_formed, rename in *; simpl.
    rewrite Forall_forall in *; intros p Hin.
    apply in_map_iff in Hin; destruct Hin as (q & <- & Hq); simpl.
    now apply Hwf.
  - intros c col i Hin Hi; unfold rename in Hin, Hi; simpl in Hin, Hi.
    apply in_map_iff in Hin; destruct Hin as ([c0 col0] & Heq & Hq).
    inversion Heq; subst; apply HQ, HP; auto.
Qed.

Lemma holds_without (P : string -> nat -> cell -> Prop) (c : string)
      (d : DataFrame) :
  holds P d -> holds P (without c d).
Proof.
  intros [Hwf HP]; split.
  - unfold well_formed, without in *; simpl.
    rewrite Forall_forall in *; intros p Hin.
    apply filter_In in Hin; now apply Hwf.
  - intros c' col i Hin Hi; unfold without in Hin, Hi; simpl in Hin, Hi.
    apply filter_In in Hin; apply HP; tauto.
Qed.

Lemma holds_map_cells (P Q : string -> nat -> cell -> Prop)
      (f : cell -> cell) (d : DataFrame) :
  holds P d ->
  (forall c i x, P c i x -> Q c i (f x)) ->
  holds Q (map_cells f d).
Proof.
  intros [Hwf HP] HQ; split.
  - unfold well_formed, map_cells in *; simpl.
    rewrite Forall_forall in *; intros p Hin.
    apply in_map_iff in Hin; destruct Hin as (q & <- & Hq); simpl.
    rewrite length_map; now apply Hwf.
  - intros c col i Hin Hi; unfold map_cells in Hin, Hi; simpl in Hin, Hi.
    apply in_map_iff in Hin; destruct Hin as ([c0 col0] & Heq & Hq).
    inversion Heq; subst.
    rewrite nth_map_cell
      by (now rewrite (well_formed_In d c col0 Hwf Hq)).
    apply HQ, HP; auto.
Qed.

Lemma gather_In (cs : list string) (d : DataFrame)
      (cols : list (string * Series)) :
  gather cs d = Some cols ->
  forall p, In p cols -> In p (data d).
Proof.
  revert cols; induction cs as [|c r IH]; intros cols H p Hin; simpl in H.
  - inversion H; subst; contradiction.
  - destruct (select d c) as [|x t] eqn:E; try discriminate.
    destruct (gather r d) as [rest|]; try discriminate.
    inversion H; subst; clear H.
    change ((c, x) :: map (pair c) t ++ rest)
      with (map (pair c) (x :: t) ++ rest) in Hin.
    apply in_app_or in Hin; destruct Hin as [Hin|Hin];
      [|now apply (IH rest eq_refl)].
    apply in_map_iff in Hin; destruct Hin as (col & <- & Hcol).
    apply select_In; now rewrite E.
Qed.

Lemma holds_gather (P : string -> nat -> cell -> Prop) (cs : list string)
      (d : DataFrame) (cols : list (string * Series)) :
  holds P d -> gather cs d = Some cols -> holds P (mkFrame (nrows d) cols).
Proof.
  intros [Hwf HP] G; split.
  - unfold well_formed in *; simpl; rewrite Forall_forall in *.
    intros p Hin; apply Hwf, (gather_In cs d cols G p Hin).
  - intros c col i Hin Hi; simpl in *.
    apply HP; auto; apply (gather_In cs d cols G _ Hin).
Qed.

Lemma holds_weaken (P Q : string -> nat -> cell -> Prop) (d : DataFrame) :
  holds P d -> (forall c i x, P c i x -> Q c i x) -> holds Q d.
Proof. intros [Hwf HP] H; split; auto. Qed.

Lemma pick_length (A : Type) (mask : list bool) (s : list A) :
  length s = length mask ->
  length (pick mask s) = length (filter (fun b => b) mask).
Proof.
  revert s; induction mask as [|b m IH]; intros [|x t] H; simpl in *;
    try discriminate; auto.
  destruct b; simpl; rewrite IH; auto.
Qed.

Lemma take_well_formed (mask : list bool) (d : DataFrame) :
  length mask = nrows d -> well_formed d -> well_formed (take mask d).
Proof.
  intros Hlen Hwf; unfold well_formed, take in *; simpl.
  rewrite Forall_forall in *; intros p Hin.
  apply in_map_iff in Hin; destruct Hin as (q & <- & Hq); simpl.
  apply pick_length; rewrite (Hwf q Hq); auto.
Qed.

Lemma drop_duplicates_well_formed (d : DataFrame) :
  well_formed d -> well_formed (drop_duplicates d).
Proof.
  apply take_well_formed; now rewrite firsts_length, rows_length.
Qed.

(** ** What each method hands back *)

Ltac handed_by equation :=
  unfold handed; rewrite equation;
  match goal with
  | |- context [match select ?d ?c with _ => _ end] =>
      destruct (select d c) as [|? [|? ?]]
  end;
  intros H; inversion H; reflexivity.

Lemma rename_handed (d d' : DataFrame) :
  handed _rename_columns d = Some d' -> d' = rename rename_map d.
Proof. unfold handed; rewrite rename_statements; congruence. Qed.

Lemma salary_handed (d d' : DataFrame) :
  handed _standardize_annual_salaries d = Some d' ->
  d' = update "Annual_Salary" (map salary_cell) d.
Proof. handed_by salary_statements. Qed.

Lemma comp_handed (d d' : DataFrame) :
  handed _standardize_additional_comp d = Some d' ->
  d' = update "Additional_Comp" (map comp_cell) d.
Proof. handed_by comp_statements. Qed.

Lemma income_handed (d d' : DataFrame) :
  handed _standardize_income_context d = Some d' ->
  d' = update "Income_Context" (map income_cell) d.
Proof. handed_by income_statements. Qed.

Lemma country_handed (d d' : DataFrame) :
  handed _standardize_country d = Some d' ->
  d' = update "Country" (map country_cell) d.
Proof. handed_by country_statements. Qed.

Lemma job_context_handed (d d' : DataFrame) :
  handed _standardize_job_context d = Some d' ->
  d' = update "Job_Context" (map none_if_na) d.
Proof. handed_by job_context_statements. Qed.

Lemma gender_handed (d d' : DataFrame) :
  handed _standardize_gender d = Some d' ->
  d' = update "Gender" (map gender_cell) d.
Proof. handed_by gender_statements. Qed.

Lemma race_handed (d d' : DataFrame) :
  handed _standardize_race d = Some d' ->
  d' = update "Race" (map race_cell) d.
Proof. handed_by race_statements. Qed.

Lemma education_handed (d d' : DataFrame) :
  handed _standardize_education d = Some d' ->
  d' = update "Education" (map education_cell) d.
Proof. handed_by education_statements. Qed.

Lemma experience_handed (d d' : DataFrame) :
  handed _standardize_experience d = Some d' ->
  d' = update "Experience" (map (experience_cell experience_map)) d.
Proof. handed_by experience_statements. Qed.

Lemma overall_experience_handed (d d' : DataFrame) :
  handed _standardize_overall_experience d = Some d' ->
  d' = update "Experience_Overall"
              (map (experience_cell overall_experience_map)) d.
Proof. handed_by overall_experience_statements. Qed.

Lemma state_handed (d d' : DataFrame) :
  handed _standardize_state d = Some d' ->
  d' = update "State" (map state_cell) d.
Proof. handed_by state_statements. Qed.

Lemma city_handed (d d' : DataFrame) :
  handed _standardize_city d = Some d' ->
  d' = update "City" (map city_cell) d.
Proof. handed_by city_statements. Qed.

Lemma timestamp_handed (parse_timestamp : Series -> string -> cell)
      (d d' : DataFrame) :
  handed (_change_time_format parse_timestamp) d = Some d' ->
  d' = update "Timestamp"
              (fun col => map strftime (to_datetime parse_timestamp col)) d.
Proof. handed_by (timestamp_statements parse_timestamp). Qed.

Lemma job_titles_handed (d d' : DataFrame) :
  handed _normalize_job_titles d = Some d' ->
  exists t,
    select d "Job_Title" = [t] /\
    d' = set_column "Seniority"
           (map seniority_cell (map (str_method clean_title) t))
           (update "Job_Title" (map (str_method clean_title)) d).
Proof.
  unfold handed; rewrite job_titles_statements.
  destruct (select d "Job_Title") as [|t [|t2 r]]; try discriminate.
  cbv zeta.
  destruct (select d "Seniority") as [|s [|s2 r]]; intros H; inversion H;
    now exists t.
Qed.

Lemma currency_handed (d d' : DataFrame) :
  handed _standardize_currency_other_cols d = Some d' ->
  exists c o,
    select d "Currency" = [c] /\
    select d "Currency_Other" = [o] /\
    d' = without "Currency_Other"
                 (update "Currency" (currency_series o) d).
Proof.
  unfold handed; rewrite currency_statements.
  destruct (select d "Currency") as [|c [|c2 r]]; try discriminate.
  destruct (select d "Currency_Other") as [|o [|o2 r]]; try discriminate.
  cbv zeta; intros H; inversion H; now exists c, o.
Qed.

Lemma run_frames_triple (P Q : DataFrame -> Prop) (s : step)
      (rest : list step) (d dk : DataFrame) :
  triple P s Q ->
  P d ->
  run_frames (s :: rest) d = Some dk ->
  exists d', Q d' /\ run_frames rest d' = Some dk.
Proof.
  intros Ht HP H; simpl in H.
  destruct (handed s d) as [d'|] eqn:Eh; try discriminate.
  destruct (empty d'); try discriminate.
  exists d'; split; auto; apply (Ht d d' HP Eh).
Qed.

(** A method that rewrites column [c] cell by cell. *)
Lemma triple_update (P Q : string -> nat -> cell -> Prop) (s : step)
      (c : string) (f : cell -> cell) :
  (forall d d', handed s d = Some d' -> d' = update c (map f) d) ->
  (forall i x, P c i x -> Q c i (f x)) ->
  (forall c' i x, c' <> c -> P c' i x -> Q c' i x) ->
  triple (holds P) s (holds Q).
Proof.
  intros Hs Hc Hother d d' HP Hh.
  rewrite (Hs d d' Hh); now apply (holds_update_map P Q).
Qed.

Lemma triple_rename (P Q : string -> nat -> cell -> Prop) :
  (forall c i x, P c i x -> Q (rename_label rename_map c) i x) ->
  triple (holds P) _rename_columns (holds Q).
Proof.
  intros H d d' HP Hh; rewrite (rename_handed d d' Hh).
  now apply (holds_rename P Q).
Qed.

Lemma triple_timestamp (parse_timestamp : Series -> string -> cell)
      (P Q : string -> nat -> cell -> Prop) :
  (forall i x y, P "Timestamp" i x -> (x = Null -> y = Null) ->
                 Q "Timestamp" i y) ->
  (forall c' i x, c' <> "Timestamp" -> P c' i x -> Q c' i x) ->
  triple (holds P) (_change_time_format parse_timestamp) (holds Q).
Proof.
  intros Hc Hother d d' HP Hh.
  rewrite (timestamp_handed parse_timestamp d d' Hh).
  apply (holds_update P Q); auto.
  - intros col _; unfold to_datetime; now rewrite !length_map.
  - intros col i Hin Hi Hx.
    assert (Hlen : i < length col).
    { destruct HP as [Hwf _].
      now rewrite (well_formed_In d _ col Hwf Hin). }
    unfold to_datetime, strftime.
    rewrite map_map, nth_map_cell by exact Hlen.
    apply (Hc i (nth i col Null)); auto.
    now intros ->.
Qed.

Lemma triple_job_titles (P Q : string -> nat -> cell -> Prop) :
  (forall i x, P "Job_Title" i x ->
               Q "Job_Title" i (str_method clean_title x)) ->
  (forall i x, P "Job_Title" i x ->
               Q "Seniority" i (seniority_cell (str_method clean_title x))) ->
  (forall c' i x, c' <> "Job_Title" -> c' <> "Seniority" ->
                  P c' i x -> Q c' i x) ->
  triple (holds P) _normalize_job_titles (holds Q).
Proof.
  intros Htitle Hsen Hother d d' HP Hh.
  destruct (job_titles_handed d d' Hh) as (t & Et & ->).
  assert (Hin : In ("Job_Title", t) (data d))
    by (apply select_In; rewrite Et; now left).
  assert (Hlen : length t = nrows d)
    by (destruct HP as [Hwf _]; now apply (well_formed_In d "Job_Title")).
  set (R := fun c i x =>
              (c = "Job_Title" -> Q c i x) /\
              (c <> "Job_Title" -> P c i x)).
  assert (HR : holds R (update "Job_Title" (map (str_method clean_title)) d)).
  { apply (holds_update_map P R); auto.
    - intros i x Hx; split; [intros _; now apply Htitle|congruence].
    - intros c' i x Hne Hx; split; [congruence|auto]. }
  apply (holds_set_column R Q); auto.
  - now rewrite !length_map.
  - intros i Hi; simpl in Hi.
    rewrite map_map, nth_map_cell by lia.
    apply Hsen; destruct HP as [_ HP]; now apply HP.
  - intros c' i y Hne [H1 H2].
    destruct (string_dec c' "Job_Title") as [->|Hjt]; auto.
Qed.

Lemma where_length (p : cell -> bool) (s other : Series) :
  length (where_ (map p s) s other) = length s.
Proof.
  revert other; induction s as [|x t IH]; intros other; simpl; auto.
Qed.

Lemma nth_where (p : cell -> bool) (s other : Series) (i : nat) :
  i < length s ->
  nth i (where_ (map p s) s other) Null =
  if p (nth i s Null) then nth i s Null else nth i other Null.
Proof.
  revert other i; induction s as [|x t IH]; intros other i Hi; simpl in *.
  - lia.
  - destruct i as [|i].
    + now destruct other.
    + rewrite IH by lia.
      destruct (p (nth i t Null)); auto.
      destruct other; simpl; auto; now destruct i.
Qed.

Lemma nth_currency_series (other currency : Series) (i : nat) :
  i < length currency ->
  nth i (currency_series other currency) Null =
  currency_cell (nth i currency Null) (nth i other Null).
Proof.
  intros Hi; unfold currency_series, not_other.
  rewrite nth_map_cell by (now rewrite where_length).
  rewrite nth_where by exact Hi.
  unfold currency_cell.
  now destruct (negb (str_contains "other"
                        (str_method lower (nth i currency Null)))).
Qed.

Lemma triple_currency (P Q : string -> nat -> cell -> Prop) :
  (forall i x y, P "Currency" i x -> Q "Currency" i (currency_cell x y)) ->
  (forall c' i x, c' <> "Currency" -> P c' i x -> Q c' i x) ->
  triple (holds P) _standardize_currency_other_cols (holds Q).
Proof.
  intros Hc Hother d d' HP Hh.
  destruct (currency_handed d d' Hh) as (c & o & Ec & Eo & ->).
  apply holds_without, (holds_update P Q); auto.
  - intros col _; unfold currency_series, not_other.
    now rewrite length_map, where_length.
  - intros col i Hin Hi Hx.
    rewrite nth_currency_series; auto.
    destruct HP as [Hwf _].
    now rewrite (well_formed_In d _ col Hwf Hin).
Qed.

(** ** Columns that are filled *)

Lemma is_space_upper_char (c : ascii) :
  is_space (upper_char c) = is_space c.
Proof. destruct c as [[] [] [] [] [] [] [] []]; reflexivity. Qed.

Lemma is_space_lower_char (c : ascii) :
  is_space (lower_char c) = is_space c.
Proof. destruct c as [[] [] [] [] [] [] [] []]; reflexivity. Qed.

Lemma blank_title_from (b : bool) (t : string) :
  blank (title_from b t) = blank t.
Proof.
  revert b; induction t as [|c r IH]; intros b; simpl; auto.
  unfold blank in *; simpl; rewrite IH.
  destruct b; now rewrite ?is_space_lower_char, ?is_space_upper_char.
Qed.

Lemma blank_lstrip (t : string) : blank (lstrip t) = blank t.
Proof.
  unfold blank; induction t as [|c r IH]; simpl; auto.
  destruct (is_space c) eqn:E; simpl; now rewrite ?E.
Qed.

Lemma blank_rstrip (t : string) : blank (rstrip t) = blank t.
Proof.
  unfold blank; induction t as [|c r IH]; simpl; auto.
  destruct (rstrip r) as [|c' r'] eqn:E.
  - simpl in IH; rewrite <- IH, andb_true_r.
    now destruct (is_space c) eqn:Ec; simpl; rewrite ?Ec.
  - simpl; simpl in IH; now rewrite IH.
Qed.

Lemma blank_strip (t : string) : blank (strip t) = blank t.
Proof. unfold strip; now rewrite blank_rstrip, blank_lstrip. Qed.

Lemma sound_replace_blank (x : cell) : sound (replace_blank Null x).
Proof.
  destruct x as [t|]; simpl; [|now left].
  destruct (blank t) eqn:E; [now left|right; now exists t].
Qed.

Lemma lookup_In (A : Type) (k : string) (m : list (string * A)) (v : A) :
  lookup k m = Some v -> In v (map snd m).
Proof.
  induction m as [|[k' v'] r IH]; simpl; try discriminate.
  destruct (String.eqb k k'); intros H; [left; congruence|right; auto].
Qed.

Lemma sound_replace_dict (m : list (string * cell)) (x : cell) :
  Forall good (map snd m) -> sound x -> sound (replace_dict m x).
Proof.
  intros Hm [->|(t & -> & Ht)]; simpl; [now left|].
  destruct (lookup t m) as [v|] eqn:E.
  - right; rewrite Forall_forall in Hm; apply Hm, (lookup_In _ _ _ _ E).
  - right; now exists t.
Qed.

Lemma sound_str_method (f : string -> string) (x : cell) :
  (forall t, blank (f t) = blank t) -> sound x -> sound (str_method f x).
Proof.
  intros Hf [->|(t & -> & Ht)]; simpl; [now left|].
  right; exists (f t); split; auto; now rewrite Hf.
Qed.

Lemma good_fillna (v : string) (x : cell) :
  blank v = false -> sound x -> good (fillna v x).
Proof.
  intros Hv [->|(t & -> & Ht)]; simpl; [now exists v|now exists t].
Qed.

Ltac good_values :=
  simpl;
  repeat (apply Forall_cons; [eexists; split; reflexivity|]);
  apply Forall_nil.

Lemma good_gender_cell (x : cell) : good (gender_cell x).
Proof.
  apply good_fillna; [reflexivity|].
  apply sound_replace_dict; [good_values|apply sound_replace_blank].
Qed.

Lemma good_race_cell (x : cell) : good (race_cell x).
Proof.
  apply good_fillna; [reflexivity|].
  apply sound_str_method; [apply blank_title_from|].
  apply sound_replace_dict; [good_values|apply sound_replace_blank].
Qed.

Lemma good_education_cell (x : cell) : good (education_cell x).
Proof.
  apply good_fillna; [reflexivity|].
  apply sound_replace_dict; [good_values|apply sound_replace_blank].
Qed.

Lemma good_experience_cell (m : list (string * cell)) (x : cell) :
  Forall good (map snd m) -> good (experience_cell m x).
Proof.
  intros Hm; apply good_fillna; [reflexivity|].
  apply sound_replace_dict; auto.
  apply sound_str_method; [apply blank_strip|apply sound_replace_blank].
Qed.

(** A method that fills column [c]. *)
Lemma triple_fill (s : step) (c : string) (f : cell -> cell)
      (done : list string) :
  (forall d d', handed s d = Some d' -> d' = update c (map f) d) ->
  (forall x, good (f x)) ->
  triple (holds (filled done)) s (holds (filled (c :: done))).
Proof.
  intros Hs Hf; apply (triple_update _ _ s c f Hs).
  - intros i x _ _; apply Hf.
  - intros c' i x Hne Hx [Heq|Hin]; [congruence|auto].
Qed.

(** A method that rewrites a column outside [done]. *)
Lemma triple_keep (s : step) (c : string) (f : cell -> cell)
      (done : list string) :
  (forall d d', handed s d = Some d' -> d' = update c (map f) d) ->
  ~ In c done ->
  triple (holds (filled done)) s (holds (filled done)).
Proof.
  intros Hs Hout; apply (triple_update _ _ s c f Hs).
  - intros i x _ Hin; contradiction.
  - intros c' i x _ Hx; exact Hx.
Qed.

Ltac advance T :=
  match goal with
  | HP : ?P ?d, Hrun : run_frames (_ :: _) ?d = Some _ |- _ =>
      let d' := fresh "d" in
      let HQ := fresh "Hd" in
      let Hr := fresh "Hrun" in
      destruct (run_frames_triple _ _ _ _ _ _ T HP Hrun) as (d' & HQ & Hr);
      clear HP Hrun
  end.

Ltac not_done := simpl; intuition discriminate.

(** ** The image of a row of missing values *)

(** A method that maps the expected cell of its column to itself. *)
Lemma triple_image (j : nat) (s : step) (c : string) (f : cell -> cell)
      (done : list (string * string)) :
  (forall d d', handed s d = Some d' -> d' = update c (map f) d) ->
  f (expected done c) = expected done c ->
  triple (holds (image j done)) s (holds (image j done)).
Proof.
  intros Hs Hf; apply (triple_update _ _ s c f Hs).
  - intros i x Hx Hi; rewrite (Hx Hi); exact Hf.
  - intros c' i x _ Hx; exact Hx.
Qed.

(** A method that fills the missing cell of its column with [v]. *)
Lemma triple_image_fill (j : nat) (s : step) (c v : string)
      (f : cell -> cell) (done : list (string * string)) :
  (forall d d', handed s d = Some d' -> d' = update c (map f) d) ->
  lookup c done = None ->
  f Null = Str v ->
  triple (holds (image j done)) s (holds (image j ((c, v) :: done))).
Proof.
  intros Hs Hnone Hf; apply (triple_update _ _ s c f Hs).
  - intros i x Hx Hi; rewrite (Hx Hi); unfold expected; simpl.
    now rewrite Hnone, String.eqb_refl.
  - intros c' i x Hne Hx Hi; rewrite (Hx Hi); unfold expected; simpl.
    apply String.eqb_neq in Hne; now rewrite Hne.
Qed.

Lemma set_column_nrows (c : string) (x : Series) (d : DataFrame) :
  nrows (set_column c x d) = nrows d.
Proof. unfold set_column; now destruct (select d c). Qed.

(** No method changes the number of rows. *)
Lemma steps_keep_nrows (parse_timestamp : Series -> string -> cell) :
  Forall (fun s => forall d d', handed s d = Some d' -> nrows d' = nrows d)
         (transformation_steps parse_timestamp).
Proof.
  unfold transformation_steps; repeat apply Forall_cons;
    try apply Forall_nil; intros d d' H.
  - now rewrite (rename_handed d d' H).
  - destruct (job_titles_handed d d' H) as (t & _ & ->).
    now rewrite set_column_nrows.
  - now rewrite (salary_handed d d' H).
  - now rewrite (comp_handed d d' H).
  - now destruct (currency_handed d d' H) as (c & o & _ & _ & ->).
  - now rewrite (timestamp_handed parse_timestamp d d' H).
  - now rewrite (income_handed d d' H).
  - now rewrite (country_handed d d' H).
  - now rewrite (job_context_handed d d' H).
  - now rewrite (gender_handed d d' H).
  - now rewrite (race_handed d d' H).
  - now rewrite (education_handed d d' H).
  - now rewrite (experience_handed d d' H).
  - now rewrite (overall_experience_handed d d' H).
  - now rewrite (state_handed d d' H).
  - now rewrite (city_handed d d' H).
Qed.

Lemma run_frames_nrows (steps : list step) (d dk : DataFrame) :
  Forall (fun s => forall d d', handed s d = Some d' -> nrows d' = nrows d)
         steps ->
  run_frames steps d = Some dk -> nrows dk = nrows d.
Proof.
  intros Hall; revert d; induction Hall as [|s rest Hs _ IH]; intros d H;
    simpl in H.
  - now inversion H.
  - destruct (handed s d) as [d'|] eqn:E; try discriminate.
    destruct (empty d'); try discriminate.
    rewrite (IH d' H); now apply Hs.
Qed.

Lemma expected_defaults_clean (c : string) :
  none_if_na (replace_blank Null (expected defaults c)) =
  expected defaults c.
Proof.
  unfold expected, defaults; simpl.
  repeat (destruct (String.eqb c _); [reflexivity|]); reflexivity.
Qed.

(** ** A cleaned table under the raw headers *)

Lemma take_labels (mask : list bool) (d : DataFrame) :
  labels (take mask d) = labels d.
Proof. unfold labels, take; simpl; now rewrite map_map. Qed.

Lemma rename_labels (m : list (string * string)) (d : DataFrame) :
  labels (rename m d) = map (rename_label m) (labels d).
Proof. unfold labels, rename; simpl; now rewrite !map_map. Qed.

Lemma resupply_labels (d : DataFrame) :
  labels (resupply d) = map raw_header (labels d).
Proof. unfold labels, resupply; simpl; now rewrite !map_map. Qed.

Lemma set_column_labels (c : string) (x : Series) (d : DataFrame) :
  In c (labels d) -> labels (set_column c x d) = labels d.
Proof.
  intros Hin; unfold set_column.
  destruct (select d c) eqn:E; [|apply update_labels].
  destruct (in_dec string_dec c (labels d)) as [_|Hout]; [|contradiction].
  exfalso; revert E; apply select_present_ne.
  exact Hin.
Qed.

Lemma labels_update (s : step) (c : string) (f : cell -> cell)
      (L : list string) :
  (forall d d', handed s d = Some d' -> d' = update c (map f) d) ->
  triple (fun d => labels d = L) s (fun d => labels d = L).
Proof.
  intros Hs d d' HL Hh; rewrite (Hs d d' Hh); now rewrite update_labels.
Qed.

Lemma labels_job_titles (L : list string) :
  In "Seniority" L ->
  triple (fun d => labels d = L) _normalize_job_titles
         (fun d => labels d = L).
Proof.
  intros Hin d d' HL Hh.
  destruct (job_titles_handed d d' Hh) as (t & _ & ->).
  rewrite set_column_labels; rewrite update_labels; congruence.
Qed.

Lemma labels_rename (L : list string) :
  triple (fun d => labels d = L) _rename_columns
         (fun d => labels d = map (rename_label rename_map) L).
Proof.
  intros d d' HL Hh; rewrite (rename_handed d d' Hh), rename_labels.
  now rewrite HL.
Qed.

Ltac advance_labels T :=
  match goal with
  | HL : labels ?d = ?L, Hrun : run_frames (?s :: ?rest) ?d = Some ?dk
    |- _ =>
      let d' := fresh "d" in
      let HQ := fresh "L" in
      let Hr := fresh "Hrun" in
      destruct (run_frames_triple (fun x => labels x = L) _ s rest d dk
                                  T HL Hrun) as (d' & HQ & Hr);
      clear HL Hrun
  end.

(** ** The seniority of a title *)

Lemma findall_from_In (alts : list string) (s : string) :
  forall before skip m,
    In m (findall_from alts before skip s) -> In m alts.
Proof.
  induction s as [|c r IH]; intros before skip m H; simpl in H.
  - contradiction.
  - destruct skip as [|k]; [|eauto].
    destruct (match_here alts before (String c r)) as [m'|] eqn:E; [|eauto].
    destruct H as [<-|H]; [|eauto].
    unfold match_here in E.
    destruct (boundary before (first_char (String c r))); [|discriminate].
    apply find_some in E; tauto.
Qed.

(** The seniority is the label of the first keyword found, and there is
    none when no keyword is found. *)
Lemma seniority_of_title (s : string) :
  seniority_cell (Str s) =
  match findall pattern s with
  | [] => Null
  | m :: _ => map_dict seniority_map (Str m)
  end.
Proof.
  unfold seniority_cell, first_match.
  destruct (findall pattern s) as [|m rest] eqn:E; [reflexivity|].
  assert (Hin : In m pattern).
  { apply (findall_from_In pattern s None 0); unfold findall in E.
    rewrite E; now left. }
  unfold pattern in Hin; simpl in Hin.
  repeat (destruct Hin as [<-|Hin]; [reflexivity|]); contradiction.
Qed.

(** ** What a call may write *)

Lemma stable_refl (n : nat) (w : world) : stable n w w.
Proof. split; auto. Qed.

Lemma stable_trans (n : nat) (w1 w2 w3 : world) :
  stable n w1 w2 -> stable n w2 w3 -> stable n w1 w3.
Proof.
  intros [L1 H1] [L2 H2]; split; [lia|].
  intros l Hl; rewrite H2, H1; auto.
Qed.

Lemma confined_ret (A : Type) (n : nat) (Q : A -> Prop) (a : A) :
  Q a -> confined n Q (ret a).
Proof.
  intros HQ w r w' _ H; unfold ret in H; inversion H; subst.
  split; [apply stable_refl|]; intros a' Ha; inversion Ha; subst; exact HQ.
Qed.

Lemma confined_bind (A B : Type) (n : nat) (Q : A -> Prop) (R : B -> Prop)
      (m : M A) (k : A -> M B) :
  confined n Q m ->
  (forall a, Q a -> confined n R (k a)) ->
  confined n R (bind m k).
Proof.
  intros Hm Hk w r w' Hn H; unfold bind in H.
  destruct (m w) as [[a|e] w1] eqn:Em.
  - destruct (Hm w (Ok a) w1 Hn Em) as [Hs HQ].
    assert (Hn1 : n <= length (heap w1)) by (destruct Hs; lia).
    destruct (Hk a (HQ a eq_refl) w1 r w' Hn1 H) as [Hs' HR].
    split; auto; eapply stable_trans; eauto.
  - inversion H; subst.
    destruct (Hm w (Raise e) w' Hn Em) as [Hs _].
    split; auto; intros a Ha; discriminate.
Qed.

Lemma confined_weaken (A : Type) (n : nat) (Q R : A -> Prop) (m : M A) :
  (forall a, Q a -> R a) -> confined n Q m -> confined n R m.
Proof.
  intros HQR Hm w r w' Hn H; destruct (Hm w r w' Hn H) as [Hs HQ].
  split; auto.
Qed.

Lemma confined_logger (n : nat) (lv : level) (text : string)
      (e : option exn) :
  confined n (fun _ => True) (logger lv text e).
Proof.
  intros w r w' _ H; unfold logger in H; inversion H; subst.
  split; [split; auto|auto].
Qed.

Lemma confined_new (n : nat) (d : DataFrame) :
  confined n (fun l => n <= l) (new d).
Proof.
  intros w r w' Hn H; unfold new in H; inversion H; subst; split.
  - split; simpl; [rewrite length_app; lia|].
    intros l Hl; apply deref_old; lia.
  - intros a Ha; inversion Ha; subst; exact Hn.
Qed.

Lemma confined_on (A : Type) (n : nat) (df : loc) (m : SE DataFrame A) :
  n <= df -> confined n (fun _ => True) (on df m).
Proof.
  intros Hdf w r w' _ H; unfold on in H.
  destruct (deref w df) as [d|].
  - destruct (m d) as [r' d']; inversion H; subst; split; auto.
    split; simpl; [now rewrite store_at_length|].
    intros l Hl; unfold deref; simpl; apply store_at_other; lia.
  - inversion H; subst; split; auto; apply stable_refl.
Qed.

Lemma confined_try_except (A : Type) (n : nat) (Q : A -> Prop) (m : M A)
      (h : exn -> M A) :
  confined n Q m ->
  (forall e, confined n Q (h e)) ->
  confined n Q (try_except m h).
Proof.
  intros Hm Hh w r w' Hn H; unfold try_except in H.
  destruct (m w) as [[a|e] w1] eqn:Em.
  - inversion H; subst; apply (Hm w (Ok a) w' Hn Em).
  - destruct (Hm w (Raise e) w1 Hn Em) as [Hs _].
    assert (Hn1 : n <= length (heap w1)) by (destruct Hs; lia).
    destruct (Hh e w1 r w' Hn1 H) as [Hs' HQ].
    split; auto; eapply stable_trans; eauto.
Qed.

Lemma confined_call (n : nat) (s : step) (df : loc) :
  n <= df -> confined n (fun l => n <= l) (call s df).
Proof.
  intros Hdf; unfold call; apply confined_try_except.
  - unfold try_body.
    eapply confined_bind with (Q := fun _ => True).
    + destruct (starting s); [apply confined_logger|now apply confined_ret].
    + intros _ _.
      eapply confined_bind; [apply confined_on; exact Hdf|].
      intros [d|] _; [apply confined_new|now apply confined_ret].
  - intros e.
    eapply confined_bind; [apply confined_logger|].
    intros _ _; apply confined_new.
Qed.

Lemma confined_dtype_conversion (n : nat) (df : loc) :
  n <= df -> confined n (fun l => n <= l) (dtype_conversion df).
Proof.
  intros Hdf; unfold dtype_conversion; apply confined_try_except.
  - eapply confined_bind; [apply confined_logger|]; intros _ _.
    eapply confined_bind; [apply confined_on; exact Hdf|]; intros _ _.
    eapply confined_bind; [apply confined_logger|]; intros _ _.
    now apply confined_ret.
  - intros e.
    eapply confined_bind; [apply confined_logger|].
    intros _ _; apply confined_new.
Qed.

Lemma confined_finish (n : nat) (df : loc) :
  n <= df -> confined n (fun l => n <= l) (finish df).
Proof.
  intros Hdf; unfold finish.
  eapply confined_bind; [apply confined_on; exact Hdf|]; intros d1 _.
  eapply confined_bind; [apply confined_new|]; intros l1 Hl1.
  eapply confined_bind; [apply confined_on; exact Hl1|]; intros d2 _.
  eapply confined_bind; [apply confined_new|]; intros l2 Hl2.
  eapply confined_bind; [apply confined_logger|]; intros _ _.
  eapply confined_bind; [apply confined_dtype_conversion; exact Hl2|].
  intros l3 Hl3.
  eapply confined_bind; [apply confined_on; exact Hl3|]; intros d3 _.
  eapply confined_bind; [apply confined_new|]; intros l4 Hl4.
  eapply confined_bind; [apply confined_on; exact Hl4|]; intros sh _.
  eapply confined_bind; [apply confined_logger|]; intros _ _.
  now apply confined_ret.
Qed.

Lemma confined_run_steps (n : nat) (steps : list step)
      (after : loc -> M loc) :
  (forall df, n <= df -> confined n (fun l => n <= l) (after df)) ->
  forall df, n <= df ->
             confined n (fun l => n <= l) (run_steps steps df after).
Proof.
  intros Hafter; induction steps as [|s rest IH]; intros df Hdf; simpl.
  - now apply Hafter.
  - eapply confined_bind; [apply confined_call; exact Hdf|]; intros l Hl.
    eapply confined_bind; [apply confined_on; exact Hl|]; intros [|] _.
    + eapply confined_bind; [apply confined_logger|].
      intros _ _; apply confined_new.
    + now apply IH.
Qed.

Lemma confined_remove_null_rows (n : nat) (df : loc) :
  n <= df -> confined n (fun _ => True) (remove_null_rows df).
Proof.
  intros Hdf; unfold remove_null_rows.
  eapply confined_bind; [apply confined_on; exact Hdf|]; intros d1 _.
  destruct (negb (empty d1)); [|apply confined_logger].
  eapply confined_bind; [apply confined_logger|]; intros _ _.
  eapply confined_bind; [apply confined_on; exact Hdf|]; intros _ _.
  apply confined_logger.
Qed.

Section Pipeline.

Variable parse_timestamp : Series -> string -> cell.

(** [transform] always returns a table. *)
Lemma transform_returns_table (w : world) (df : loc) (d : DataFrame) :
  deref w df = Some d ->
  exists (result : loc) (w' : world) (out : DataFrame),
    transform parse_timestamp df w = (Ok result, w') /\
    deref w' result = Some out /\
    (labels out = canonical_columns \/ empty out = true).
Proof.
  intros Hd; unfold transform.
  apply (try_except_yields canonical_or_empty _
           (fun e => logger CRITICAL "Exception occurred in transform() : "
                            (Some e))).
  - apply empty_DataFrame_empty.
  - erewrite bind_ok by reflexivity.
    erewrite bind_ok by (apply on_gets; exact Hd).
    destruct (empty d) eqn:He.
    + erewrite bind_ok by reflexivity.
      unfold ret; simpl; exists d; split; [exact Hd|now right].
    + apply yields_bind; intros l w1.
      apply yields_bind; intros _ w2.
      apply run_steps_yields.
      * apply empty_DataFrame_empty.
      * apply finish_yields.
  - intros e w1; eexists; reflexivity.
Qed.

(** C1. For every input table, the table that [transform] returns has
    exactly the 18 canonical columns, in the canonical order, or is an empty
    table. *)
Theorem transform_canonical_or_empty (w : world) (df : loc) (d : DataFrame) :
  deref w df = Some d ->
  exists (result : loc) (w' : world) (out : DataFrame),
    transform parse_timestamp df w = (Ok result, w') /\
    deref w' result = Some out /\
    (labels out = canonical_columns \/ empty out = true).
Proof. apply transform_returns_table. Qed.

(** An empty input returns at once. *)
Lemma transform_on_empty (w : world) (df : loc) (d : DataFrame) :
  deref w df = Some d ->
  empty d = true ->
  transform parse_timestamp df w =
  (Ok df,
   mkWorld (heap w)
     (logged w ++
      [Log INFO "Starting transformation process..." None;
       Log WARNING "Empty DataFrame received for transformation" None])).
Proof.
  intros Hd He; unfold transform, try_except.
  erewrite bind_ok by reflexivity.
  erewrite bind_ok by (apply on_gets; exact Hd).
  rewrite He.
  unfold bind, logger, ret; simpl.
  now rewrite <- app_assoc.
Qed.

(** C4. An empty input table is returned as it is, before any cleaning step
    runs: the call succeeds with the caller's own table, the store is
    untouched, and only the entry line and the warning are logged. *)
Theorem transform_empty_input (w : world) (df : loc) (d : DataFrame) :
  deref w df = Some d ->
  empty d = true ->
  transform parse_timestamp df w =
  (Ok df,
   mkWorld (heap w)
     (logged w ++
      [Log INFO "Starting transformation process..." None;
       Log WARNING "Empty DataFrame received for transformation" None])).
Proof. apply transform_on_empty. Qed.

(** A non-empty input reaches the loop of the cleaning steps. *)
Lemma transform_enters (w : world) (df : loc) (d : DataFrame)
      (df0 : loc) (w0 : world) :
  deref w df = Some d ->
  empty d = false ->
  enters df w = (Ok df0, w0) ->
  transform parse_timestamp df w =
  try_except
    (run_steps (transformation_steps parse_timestamp) df0 finish)
    (fun e =>
       logger CRITICAL "Exception occurred in transform() : " (Some e);;
       new DataFrame_empty) w0.
Proof.
  intros Hd He Henter; unfold transform, try_except.
  unfold enters in Henter.
  apply bind_ok_inv in Henter; destruct Henter as ([] & wi & Hlog & Henter).
  apply bind_ok_inv in Henter; destruct Henter as (l & wd & Hdup & Henter).
  apply bind_ok_inv in Henter; destruct Henter as ([] & wn & Hnull & Hret).
  unfold ret in Hret; inversion Hret; subst l wn; clear Hret.
  rewrite (bind_ok Hlog).
  assert (Hdi : deref wi df = Some d).
  { unfold logger in Hlog; inversion Hlog; subst wi; exact Hd. }
  rewrite (bind_ok (on_gets _ _ _ _ _ Hdi)), He.
  now rewrite (bind_ok Hdup), (bind_ok Hnull).
Qed.

(** The table the loop starts from: the input itself, or the copy that
    [drop_duplicates] made of it. *)
Lemma enters_run (w : world) (df : loc) (d : DataFrame) :
  deref w df = Some d ->
  exists df0 w0 d1 lg,
    enters df w = (Ok df0, w0) /\
    deref w0 df0 = Some d1 /\
    (negb (empty (take (duplicated_all d) d)) = false /\
     d1 = d /\ df0 = df /\ heap w0 = heap w \/
     negb (empty (take (duplicated_all d) d)) = true /\
     d1 = drop_duplicates d /\ df0 = length (heap w) /\
     heap w0 = heap w ++ [d1]) /\
    logged w0 =
    lg ++
    if negb (empty (take (all_null d1) d1))
    then [Log WARNING
            ("Found " ++ str_of_nat (null_rows d1)
                      ++ " completely null rows")%string None;
          Log INFO "Completely null rows dropped" None]
    else [Log INFO "No completely null rows found in dataframe" None].
Proof.
  intros Hd; unfold enters.
  erewrite bind_ok by reflexivity.
  set (wi := mkWorld (heap w) _).
  assert (Hdi : deref wi df = Some d) by exact Hd.
  pose proof (remove_duplicates_run _ _ _ Hdi) as Hdup.
  destruct (negb (empty (take (duplicated_all d) d))) eqn:Edup;
    rewrite (bind_ok Hdup).
  - set (wd := mkWorld (heap wi ++ _) _).
    assert (Hdd : deref wd (length (heap wi)) = Some (drop_duplicates d))
      by apply deref_new.
    rewrite (bind_ok (remove_null_rows_run _ _ _ Hdd)).
    unfold ret; do 4 eexists; split; [reflexivity|].
    split; [exact Hdd|]; split; [right; now repeat split|reflexivity].
  - rewrite (bind_ok (remove_null_rows_run _ _ _ Hdi)).
    unfold ret; do 4 eexists; split; [reflexivity|].
    split; [exact Hdi|]; split; [left; now repeat split|reflexivity].
Qed.

(** C5, as the code has it. For every non-empty input table with a row whose
    cells are all missing, the statements before the loop log the number of
    such rows of the working table (at least one) at warning level, then
    that they were dropped, and yet hand the working table to the cleaning
    steps with the row still in it. *)
Theorem null_rows_logged_not_removed
        (w : world) (df : loc) (d : DataFrame) (i : nat) :
  deref w df = Some d ->
  empty d = false ->
  i < nrows d ->
  forallb isna (row d i) = true ->
  exists df0 w0 d1 lg,
    enters df w = (Ok df0, w0) /\
    transform parse_timestamp df w =
    try_except
      (run_steps (transformation_steps parse_timestamp) df0 finish)
      (fun e =>
         logger CRITICAL "Exception occurred in transform() : " (Some e);;
         new DataFrame_empty) w0 /\
    deref w0 df0 = Some d1 /\
    In (row d i) (rows d1) /\
    1 <= null_rows d1 /\
    logged w0 =
    lg ++ [Log WARNING
             ("Found " ++ str_of_nat (null_rows d1)
                       ++ " completely null rows")%string None;
           Log INFO "Completely null rows dropped" None].
Proof.
  intros Hd He Hi Hnull.
  destruct (enters_run w df d Hd) as (df0 & w0 & d1 & lg & Hrun & Hd1 & Hc & Hlog).
  assert (Hin : In (row d i) (rows d1)).
  { assert (In (row d i) (rows d)) by (apply in_rows; eauto).
    destruct Hc as [(_ & -> & _)|(_ & -> & _)]; auto.
    now apply drop_duplicates_keeps. }
  pose proof (null_rows_positive d1 _ Hin Hnull) as Hpos.
  assert (Hne : negb (empty (take (all_null d1) d1)) = true).
  { rewrite take_empty; fold (null_rows d1).
    assert (Hcols : Nat.eqb (length (data d1)) 0 = false).
    { destruct Hc as [(_ & -> & _)|(_ & -> & _)].
      - now apply not_empty_columns.
      - unfold drop_duplicates, take; simpl; rewrite length_map.
        now apply not_empty_columns. }
    rewrite Hcols, orb_false_r.
    apply negb_true_iff, Nat.eqb_neq; lia. }
  rewrite Hne in Hlog.
  exists df0, w0, d1, lg; repeat split; auto.
  now apply (transform_enters w df d).
Qed.



(** A run that ends on a non-empty table went through every method and
    through the final projection. *)
Lemma transform_success (w : world) (df : loc) (d : DataFrame) (r : loc)
      (w' : world) (out : DataFrame) :
  deref w df = Some d ->
  transform parse_timestamp df w = (Ok r, w') ->
  deref w' r = Some out ->
  empty out = false ->
  exists d1 dk cols,
    (d1 = d \/ d1 = drop_duplicates d) /\
    run_frames (transformation_steps parse_timestamp) d1 = Some dk /\
    gather canonical_columns (final_cleaning dk) = Some cols /\
    out = mkFrame (nrows dk) cols /\
    forall c, length (select (final_cleaning dk) c) <= 1.
Proof.
  intros Hd Hrun Hout Hne.
  destruct (empty d) eqn:He.
  { rewrite (transform_on_empty w df d Hd He) in Hrun.
    inversion Hrun; subst r w'; clear Hrun.
    unfold deref in Hout; simpl in Hout; unfold deref in Hd.
    congruence. }
  destruct (enters_run w df d Hd)
    as (df0 & w0 & d1 & lg & Henter & Hd1 & Hc & _).
  rewrite (transform_enters w df d df0 w0 Hd He Henter) in Hrun.
  unfold try_except in Hrun.
  destruct (run_steps (transformation_steps parse_timestamp) df0 finish w0)
    as [[l|e] w1] eqn:Hloop.
  - inversion Hrun; subst l w1; clear Hrun.
    destruct (run_steps_success finish _ df0 w0 d1 r w' out Hd1 Hloop
                                Hout Hne)
      as (dk & dfk & wk & Hframes & Hdk & Hfin).
    destruct (finish_success dfk wk dk r w' out Hdk Hfin Hout)
      as (cols & G & -> & Hu).
    exists d1, dk, cols; repeat split; auto.
    destruct Hc as [(_ & -> & _)|(_ & -> & _)]; auto.
  - unfold bind, logger, new in Hrun; simpl in Hrun.
    inversion Hrun; subst r w'; clear Hrun.
    rewrite deref_new in Hout; inversion Hout; subst out; discriminate.
Qed.

(** C3. In a non-empty result, each of the columns Gender, Race, Education,
    Experience and Experience_Overall is there once, is as long as the
    index, and holds text in every row. *)
Theorem filled_columns_hold_text
        (w : world) (df : loc) (d : DataFrame) (r : loc) (w' : world)
        (out : DataFrame) (c : string) :
  deref w df = Some d ->
  well_formed d ->
  transform parse_timestamp df w = (Ok r, w') ->
  deref w' r = Some out ->
  empty out = false ->
  In c ["Gender"; "Race"; "Education"; "Experience"; "Experience_Overall"] ->
  exists col,
    select out c = [col] /\
    length col = nrows out /\
    forall i, i < nrows out -> exists t, nth i col Null = Str t.
Proof.
  intros Hd Hwf Hrun Hout Hne Hc.
  destruct (transform_success w df d r w' out Hd Hrun Hout Hne)
    as (d1 & dk & cols & Hd1 & Hframes & G & -> & Hu).
  assert (H1 : holds (filled []) d1).
  { split; [|intros c' col i _ _ []].
    destruct Hd1 as [->| ->]; auto; now apply drop_duplicates_well_formed. }
  unfold transformation_steps in Hframes.
  advance (triple_rename (filled []) (filled []) ltac:(intros ? ? ? _ [])).
  advance (triple_job_titles (filled []) (filled [])
             ltac:(intros ? ? _ []) ltac:(intros ? ? _ [])
             ltac:(intros ? ? ? _ _ _ [])).
  advance (triple_keep _ _ _ [] salary_handed ltac:(not_done)).
  advance (triple_keep _ _ _ [] comp_handed ltac:(not_done)).
  advance (triple_currency (filled []) (filled [])
             ltac:(intros ? ? ? _ []) ltac:(intros ? ? ? _ _ [])).
  advance (triple_timestamp parse_timestamp (filled []) (filled [])
             ltac:(intros ? ? ? _ _ []) ltac:(intros ? ? ? _ _ [])).
  advance (triple_keep _ _ _ [] income_handed ltac:(not_done)).
  advance (triple_keep _ _ _ [] country_handed ltac:(not_done)).
  advance (triple_keep _ _ _ [] job_context_handed ltac:(not_done)).
  advance (triple_fill _ _ _ [] gender_handed good_gender_cell).
  advance (triple_fill _ _ _ ["Gender"] race_handed good_race_cell).
  advance (triple_fill _ _ _ ["Race"; "Gender"] education_handed
             good_education_cell).
  advance (triple_fill _ _ _ ["Education"; "Race"; "Gender"]
             experience_handed
             (fun x => good_experience_cell experience_map x
                         ltac:(good_values))).
  advance (triple_fill _ _ _ ["Experience"; "Education"; "Race"; "Gender"]
             overall_experience_handed
             (fun x => good_experience_cell overall_experience_map x
                         ltac:(good_values))).
  advance (triple_keep _ _ _
             ["Experience_Overall"; "Experience"; "Education"; "Race";
              "Gender"] state_handed ltac:(not_done)).
  advance (triple_keep _ _ _
             ["Experience_Overall"; "Experience"; "Education"; "Race";
              "Gender"] city_handed ltac:(not_done)).
  match goal with
  | Hr : run_frames [] ?d' = Some dk, Hh : holds _ ?d' |- _ =>
      simpl in Hr; inversion Hr; subst d'; clear Hr; rename Hh into Hk
  end.
  set (five := ["Experience_Overall"; "Experience"; "Education"; "Race";
                "Gender"]) in *.
  assert (Hfinal : holds (filled five) (final_cleaning dk)).
  { unfold final_cleaning.
    apply (holds_map_cells (filled five) (filled five)).
    - apply (holds_map_cells (filled five) (filled five)); auto.
      intros c' i x Hx Hin; destruct (Hx Hin) as (t & -> & Ht).
      exists t; simpl; now rewrite Ht.
    - intros c' i x Hx Hin; destruct (Hx Hin) as (t & -> & Ht).
      now exists t. }
  pose proof (holds_gather _ _ _ _ Hfinal G) as [Hwfo Hout'].
  assert (Hlabels : labels (mkFrame (nrows (final_cleaning dk)) cols) =
                    canonical_columns).
  { unfold labels; simpl.
    apply (gather_labels _ _ _ G); intros c' _; apply Hu. }
  assert (Hone : length (select (mkFrame (nrows (final_cleaning dk)) cols) c)
                 = 1).
  { rewrite select_length, Hlabels.
    simpl in Hc; decompose [or] Hc; subst; try contradiction;
      reflexivity. }
  assert (Hnrows : nrows (final_cleaning dk) = nrows dk) by reflexivity.
  rewrite Hnrows in *.
  destruct (select (mkFrame (nrows dk) cols) c) as [|col [|col2 rest]] eqn:E;
    try discriminate.
  assert (Hin : In (c, col) (data (mkFrame (nrows dk) cols)))
    by (apply select_In; rewrite E; now left).
  exists col; repeat split.
  - now apply (well_formed_In _ c col Hwfo).
  - intros i Hi.
    destruct (Hout' c col i Hin Hi) as (t & Ht & _).
    + unfold five; simpl in *; tauto.
    + now exists t.
Qed.

(** C10. A row of the input whose cells are all missing has a row in a
    non-empty result: there Gender, Race, Education, Experience and
    Experience_Overall hold their fill values and every other column is
    missing. *)
Theorem null_row_is_filled
        (w : world) (df : loc) (d : DataFrame) (r : loc) (w' : world)
        (out : DataFrame) (i : nat) :
  deref w df = Some d ->
  well_formed d ->
  transform parse_timestamp df w = (Ok r, w') ->
  deref w' r = Some out ->
  empty out = false ->
  i < nrows d ->
  forallb isna (row d i) = true ->
  exists j, j < nrows out /\ row out j = null_row_image.
Proof.
  intros Hd Hwf Hrun Hout Hne Hi Hnull.
  destruct (transform_success w df d r w' out Hd Hrun Hout Hne)
    as (d1 & dk & cols & Hd1 & Hframes & G & -> & Hu).
  assert (Hwf1 : well_formed d1).
  { destruct Hd1 as [->| ->]; auto; now apply drop_duplicates_well_formed. }
  assert (Hin : In (row d i) (rows d1)).
  { assert (In (row d i) (rows d)) by (apply in_rows; eauto).
    destruct Hd1 as [->| ->]; auto; now apply drop_duplicates_keeps. }
  apply in_rows in Hin; destruct Hin as (j & Hj & Hrow).
  rewrite <- Hrow in Hnull.
  pose proof (run_frames_nrows _ d1 dk (steps_keep_nrows parse_timestamp)
                               Hframes) as Hn.
  assert (H1 : holds (image j []) d1).
  { split; auto; intros c col i' Hin _ ->.
    unfold row in Hnull; rewrite forallb_forall in Hnull.
    specialize (Hnull (nth j col Null)
                      (in_map (fun p => nth j (snd p) Null) _ _ Hin)).
    now destruct (nth j col Null). }
  unfold transformation_steps in Hframes.
  advance (triple_rename (image j []) (image j [])
             ltac:(intros ? ? ? H E; exact (H E))).
  advance (triple_job_titles (image j []) (image j [])
             ltac:(intros ? ? H E; rewrite (H E); reflexivity)
             ltac:(intros ? ? H E; rewrite (H E); reflexivity)
             ltac:(intros ? ? ? _ _ H; exact H)).
  advance (triple_image j _ _ _ [] salary_handed eq_refl).
  advance (triple_image j _ _ _ [] comp_handed eq_refl).
  advance (triple_currency (image j []) (image j [])
             ltac:(intros ? ? ? H E; rewrite (H E); reflexivity)
             ltac:(intros ? ? ? _ H; exact H)).
  advance (triple_timestamp parse_timestamp (image j []) (image j [])
             ltac:(intros ? ? ? H Hy E; apply Hy, (H E))
             ltac:(intros ? ? ? _ H; exact H)).
  advance (triple_image j _ _ _ [] income_handed eq_refl).
  advance (triple_image j _ _ _ [] country_handed eq_refl).
  advance (triple_image j _ _ _ [] job_context_handed eq_refl).
  advance (triple_image_fill j _ _ "Prefer not to say" _ [] gender_handed
             eq_refl eq_refl).
  advance (triple_image_fill j _ _ "Other" _ (skipn 4 defaults)
             race_handed eq_refl eq_refl).
  advance (triple_image_fill j _ _ "Prefer not to say" _ (skipn 3 defaults)
             education_handed eq_refl eq_refl).
  advance (triple_image_fill j _ _ "0-1 years" _ (skipn 2 defaults)
             experience_handed eq_refl eq_refl).
  advance (triple_image_fill j _ _ "0-1 years" _ (skipn 1 defaults)
             overall_experience_handed eq_refl eq_refl).
  advance (triple_image j _ _ _ defaults state_handed eq_refl).
  advance (triple_image j _ _ _ defaults city_handed eq_refl).
  match goal with
  | Hr : run_frames [] ?d' = Some dk, Hh : holds _ ?d' |- _ =>
      simpl in Hr; inversion Hr; subst d'; clear Hr; rename Hh into Hk
  end.
  assert (Hfinal : holds (image j defaults) (final_cleaning dk)).
  { unfold final_cleaning.
    apply (holds_map_cells
             (fun c i x => i = j ->
                           x = replace_blank Null (expected defaults c))
             (image j defaults)).
    - apply (holds_map_cells (image j defaults)); auto.
      intros c i' x Hx E; now rewrite (Hx E).
    - intros c i' x Hx E; rewrite (Hx E); apply expected_defaults_clean. }
  pose proof (holds_gather _ _ _ _ Hfinal G) as [_ Hout'].
  assert (Hlabels : map fst cols = canonical_columns)
    by (apply (gather_labels _ _ _ G); intros c' _; apply Hu).
  exists j; split; [simpl; lia|].
  unfold row; simpl.
  transitivity (map (expected defaults) (map fst cols));
    [|now rewrite Hlabels].
  rewrite map_map; apply map_ext_in; intros [c col] Hc; simpl.
  apply (Hout' c col j Hc); simpl; auto; lia.
Qed.

(** C6, as the code has it. A non-empty cleaned table, supplied again under
    the raw headers, is not reproduced by a second run: the first run
    dropped the other-currency column, the currency step of the second run
    fails on it, and the second run returns an empty table. *)
Theorem rerun_on_cleaned_table_is_empty
        (w : world) (df : loc) (out : DataFrame) :
  deref w df = Some (resupply out) ->
  labels out = canonical_columns ->
  exists (r : loc) (w' : world) (again : DataFrame),
    transform parse_timestamp df w = (Ok r, w') /\
    deref w' r = Some again /\
    empty again = true.
Proof.
  intros Hd Hlabels.
  destruct (transform_returns_table w df (resupply out) Hd)
    as (r & w' & again & Hrun & Hagain & _).
  exists r, w', again; repeat split; auto.
  destruct (empty again) eqn:Hne; auto; exfalso.
  destruct (transform_success w df _ r w' again Hd Hrun Hagain Hne)
    as (d1 & dk & cols & Hd1 & Hframes & _).
  assert (L1 : labels d1 = map raw_header canonical_columns).
  { destruct Hd1 as [->| ->]; unfold drop_duplicates;
      rewrite ?take_labels, resupply_labels; now rewrite Hlabels. }
  unfold transformation_steps in Hframes.
  advance_labels (labels_rename (map raw_header canonical_columns)).
  change (map (rename_label rename_map) (map raw_header canonical_columns))
    with canonical_columns in *.
  advance_labels (labels_job_titles canonical_columns
                    ltac:(unfold canonical_columns; simpl; tauto)).
  advance_labels (labels_update _ _ _ canonical_columns salary_handed).
  advance_labels (labels_update _ _ _ canonical_columns comp_handed).
  match goal with
  | H : run_frames (_ :: _) ?d5 = Some _, L : labels ?d5 = _ |- _ =>
      simpl in H;
      destruct (handed _standardize_currency_other_cols d5) as [d6|] eqn:E6;
      [|discriminate];
      destruct (currency_handed d5 d6 E6) as (c & o & _ & Eo & _);
      assert (Hin : In "Currency_Other" (labels d5))
        by (apply select_present; rewrite Eo; discriminate);
      rewrite L in Hin
  end.
  unfold canonical_columns in Hin; simpl in Hin.
  repeat (destruct Hin as [Hin|Hin]; [discriminate|]); contradiction.
Qed.


(** C9. The method replaces a currency that mentions "other", in any case,
    by the cell of the other-currency column, cleans the text and maps it
    through the table, in which "0" stands for the missing value: "US
    Dollar" gives "USD", and "Other" with "Swiss Francs" gives "SWISS
    FRANCS", which the table does not map. *)
Theorem currency_standardization :
  (forall d,
      statements _standardize_currency_other_cols d =
      match select d "Currency" with
      | [] => (Raise (KeyError "Currency"), d)
      | [_] =>
          match select d "Currency_Other" with
          | [] => (Raise (KeyError "Currency_Other"), d)
          | [o] =>
              let d' := update "Currency" (currency_series o) d in
              (Ok (Some (without "Currency_Other" d')), d')
          | _ :: _ :: _ => (Raise NotImplementedError, d)
          end
      | _ :: _ :: _ => (Raise (AttributeError "str"), d)
      end) /\
  (forall x y currency other,
      currency_series (y :: other) (x :: currency) =
      currency_cell x y :: currency_series other currency) /\
  (forall s y,
      currency_cell (Str s) y =
      replace_dict replace_map
        (str_method clean_currency
           (if contains "other" (lower s) then y else Str s))) /\
  (forall y, currency_cell (Str "US Dollar") y = Str "USD") /\
  currency_cell (Str "Other") (Str "Swiss Francs") = Str "SWISS FRANCS" /\
  lookup "SWISS FRANCS" replace_map = None /\
  replace_dict replace_map (Str "0") = Null /\
  option_map (fun d => select d "Currency")
    (result_of (transform parse_timestamp 0
                  (mkWorld [table [respondent; respondent_usd]] []))) =
  Some [[Str "SWISS FRANCS"; Str "USD"]].
Proof.
  split; [exact currency_statements|].
  split.
  { intros x y currency other; unfold currency_series, currency_cell.
    simpl; now destruct (negb (str_contains "other" (str_method lower x))). }
  split.
  { intros s y; unfold currency_cell; simpl.
    now destruct (contains "other" (lower s)). }
  repeat split; vm_compute; reflexivity.
Qed.

(** C2. When the body of a cleaning step raises, the exception is caught
    (the call of [transform] returns), the loop stops there, and the result
    is a fresh empty table: the final world is the one the failed body left,
    plus the critical record of the step, the error record of the loop and
    the two empty frames they return; no later step has run. *)
Theorem step_error_gives_empty_table
        (w : world) (df : loc) (d : DataFrame)
        (df0 : loc) (w0 : world) (pre post : list step) (s : step)
        (dfk : loc) (wk : world) (e : exn) :
  deref w df = Some d ->
  empty d = false ->
  enters df w = (Ok df0, w0) ->
  transformation_steps parse_timestamp = pre ++ s :: post ->
  passes pre df0 w0 = Some (dfk, wk) ->
  fst (try_body s dfk wk) = Raise e ->
  let w1 := snd (try_body s dfk wk) in
  let w' := mkWorld (heap w1 ++ [DataFrame_empty; DataFrame_empty])
              (logged w1 ++
               [critical s e;
                Log ERROR ("Transformation step " ++ name s
                             ++ " returned empty DataFrame")%string None]) in
  transform parse_timestamp df w = (Ok (S (length (heap w1))), w') /\
  deref w' (S (length (heap w1))) = Some DataFrame_empty.
Proof.
  intros Hd He Henter Hsteps Hpass Hraise w1 w'.
  split.
  - rewrite (transform_enters w df d df0 w0 Hd He Henter); unfold try_except.
    rewrite Hsteps, (run_steps_passes _ _ _ _ _ _ _ Hpass).
    now rewrite (run_steps_raise _ _ _ _ _ _ Hraise).
  - subst w'; unfold deref; cbn [heap].
    generalize (heap w1); intros h.
    rewrite nth_error_app2 by lia.
    now replace (S (length h) - length h) with 1 by lia.
Qed.

End Pipeline.

(** ** The theorems at sample tables *)

Lemma table_well_formed (rs : list (list cell)) : well_formed (table rs).
Proof.
  unfold well_formed, table; cbn [data nrows].
  rewrite Forall_forall; intros p Hin.
  apply in_map_iff in Hin; destruct Hin as (k & <- & _); cbn [snd].
  apply length_map.
Qed.

(** C1 at the table of one respondent. *)
Lemma transform_canonical_or_empty_witness :
  exists (result : loc) (w' : world) (out : DataFrame),
    transform coerce_all 0 (mkWorld [table [respondent]] []) =
    (Ok result, w') /\
    deref w' result = Some out /\
    (labels out = canonical_columns \/ empty out = true).
Proof.
  apply (transform_canonical_or_empty coerce_all
           (mkWorld [table [respondent]] []) 0 (table [respondent])).
  reflexivity.
Defined.

(** C2 at a table without a job title: the second method raises. *)
Lemma step_error_gives_empty_table_witness :
  exists (r : loc) (w' : world),
    transform coerce_all 0
              (mkWorld [mkFrame 1 [("Timestamp", [Null])]] []) =
    (Ok r, w') /\
    deref w' r = Some DataFrame_empty.
Proof.
  pose (d := mkFrame 1 [("Timestamp", [Null])]).
  pose (w := mkWorld [d] []).
  pose (w0 := snd (enters 0 w)).
  pose (wk := snd (call _rename_columns 0 w0)).
  assert (Hd : deref w 0 = Some d) by reflexivity.
  assert (He : empty d = false) by reflexivity.
  assert (Henter : enters 0 w = (Ok 0, w0)) by (vm_compute; reflexivity).
  assert (Hsteps : transformation_steps coerce_all =
                   [_rename_columns] ++
                   _normalize_job_titles ::
                   skipn 2 (transformation_steps coerce_all))
    by reflexivity.
  assert (Hpre : passes [_rename_columns] 0 w0 = Some (0, wk))
    by (vm_compute; reflexivity).
  assert (Hraise : fst (try_body _normalize_job_titles 0 wk) =
                   Raise (KeyError "Job_Title"))
    by (vm_compute; reflexivity).
  destruct (step_error_gives_empty_table coerce_all w 0 d 0 w0
              [_rename_columns]
              (skipn 2 (transformation_steps coerce_all))
              _normalize_job_titles 0 wk (KeyError "Job_Title")
              Hd He Henter Hsteps Hpre Hraise)
    as [Hrun Hempty].
  eexists; eexists; split; [exact Hrun|exact Hempty].
Defined.

(** C3 at the three-row table, for the column Gender. *)
Lemma filled_columns_hold_text_witness :
  exists col,
    select cleaned_sample "Gender" = [col] /\
    length col = nrows cleaned_sample /\
    forall i, i < nrows cleaned_sample -> exists t, nth i col Null = Str t.
Proof.
  pose (d := table [respondent; no_answer; respondent_usd]).
  pose (w := mkWorld [d] []).
  apply (filled_columns_hold_text coerce_all w 0 d
           (length (heap (snd (transform coerce_all 0 w))) - 1)
           (snd (transform coerce_all 0 w)) cleaned_sample "Gender").
  - reflexivity.
  - apply table_well_formed.
  - vm_compute; reflexivity.
  - vm_compute; reflexivity.
  - reflexivity.
  - simpl; tauto.
Defined.

(** C4 at [pd.DataFrame()]. *)
Lemma transform_empty_input_witness :
  transform coerce_all 0 (mkWorld [DataFrame_empty] []) =
  (Ok 0,
   mkWorld [DataFrame_empty]
     [Log INFO "Starting transformation process..." None;
      Log WARNING "Empty DataFrame received for transformation" None]).
Proof.
  apply (transform_empty_input coerce_all (mkWorld [DataFrame_empty] []) 0
                               DataFrame_empty); reflexivity.
Defined.

(** C5 at the three-row table, whose second row has no answer. *)
Lemma null_rows_logged_not_removed_witness :
  let d := table [respondent; no_answer; respondent_usd] in
  let w := mkWorld [d] [] in
  exists df0 w0 d1 lg,
    enters 0 w = (Ok df0, w0) /\
    transform coerce_all 0 w =
    try_except
      (run_steps (transformation_steps coerce_all) df0 finish)
      (fun e =>
         logger CRITICAL "Exception occurred in transform() : " (Some e);;
         new DataFrame_empty) w0 /\
    deref w0 df0 = Some d1 /\
    In (row d 1) (rows d1) /\
    1 <= null_rows d1 /\
    logged w0 =
    lg ++ [Log WARNING
             ("Found " ++ str_of_nat (null_rows d1)
                       ++ " completely null rows")%string None;
           Log INFO "Completely null rows dropped" None].
Proof.
  intros d w.
  apply (null_rows_logged_not_removed coerce_all w 0 d 1).
  - reflexivity.
  - reflexivity.
  - unfold d, table; simpl; lia.
  - vm_compute; reflexivity.
Defined.

(** C5 fails as stated on a row of empty texts: the row is not counted
    among the null rows, and no warning is logged. *)
Lemma empty_texts_are_not_null_rows :
  let d := table [empty_answers] in
  let after := snd (transform coerce_all 0 (mkWorld [d] [])) in
  forallb (fun x => match x with
                    | Null => true
                    | Str s => String.eqb s EmptyString
                    end) (row d 0) = true /\
  In (Log INFO "No completely null rows found in dataframe" None)
     (logged after) /\
  filter (fun entry => match severity entry with
                       | WARNING => true
                       | _ => false
                       end) (logged after) = [].
Proof.
  vm_compute; repeat split; auto.
Qed.

(** C6 at the cleaned sample. *)
Lemma rerun_on_cleaned_table_is_empty_witness :
  exists (r : loc) (w' : world) (again : DataFrame),
    transform coerce_all 0 (mkWorld [resupply cleaned_sample] []) =
    (Ok r, w') /\
    deref w' r = Some again /\
    empty again = true.
Proof.
  apply (rerun_on_cleaned_table_is_empty coerce_all
           (mkWorld [resupply cleaned_sample] []) 0 cleaned_sample);
    reflexivity.
Defined.

(** C6 fails as stated: the table of one respondent is cleaned into a table
    of one row, and a second run, on that table under the raw headers,
    returns [pd.DataFrame()]. *)
Lemma second_run_differs :
  let first :=
    result_of (transform coerce_all 0 (mkWorld [table [respondent]] [])) in
  let second :=
    match first with
    | Some out =>
        result_of (transform coerce_all 0 (mkWorld [resupply out] []))
    | None => None
    end in
  option_map nrows first = Some 1 /\
  option_map labels first = Some canonical_columns /\
  second = Some DataFrame_empty /\
  second <> first.
Proof.
  vm_compute; repeat split; auto; discriminate.
Qed.



(** C10 at the three-row table, whose second row has no answer. *)
Lemma null_row_is_filled_witness :
  exists j, j < nrows cleaned_sample /\ row cleaned_sample j = null_row_image.
Proof.
  pose (d := table [respondent; no_answer; respondent_usd]).
  pose (w := mkWorld [d] []).
  apply (null_row_is_filled coerce_all w 0 d
           (length (heap (snd (transform coerce_all 0 w))) - 1)
           (snd (transform coerce_all 0 w)) cleaned_sample 1).
  - reflexivity.
  - apply table_well_formed.
  - vm_compute; reflexivity.
  - vm_compute; reflexivity.
  - reflexivity.
  - unfold d, table; simpl; lia.
  - reflexivity.
Defined.

(** * More of the code *)

(** ** Texts *)

Lemma all_chars_keep_chars (p : ascii -> bool) (s : string) :
  all_chars p (keep_chars p s) = true.
Proof.
  induction s as [|c r IH]; simpl; [reflexivity|].
  destruct (p c) eqn:E; simpl; [now rewrite E|exact IH].
Qed.

Lemma keep_chars_all (p : ascii -> bool) (s : string) :
  all_chars p s = true -> keep_chars p s = s.
Proof.
  induction s as [|c r IH]; simpl; [reflexivity|].
  intros H; apply andb_true_iff in H; destruct H as [Hc Hr].
  now rewrite Hc, IH.
Qed.

Lemma all_chars_weaken (p q : ascii -> bool) (s : string) :
  (forall c, p c = true -> q c = true) ->
  all_chars p s = true -> all_chars q s = true.
Proof.
  intros Hpq; induction s as [|c r IH]; simpl; [reflexivity|].
  intros H; apply andb_true_iff in H; destruct H as [Hc Hr].
  now rewrite (Hpq _ Hc), IH.
Qed.

Lemma all_chars_map_chars (p : ascii -> bool) (f : ascii -> ascii)
      (s : string) :
  (forall c, p (f c) = true) -> all_chars p (map_chars f s) = true.
Proof.
  intros H; induction s as [|c r IH]; simpl; [reflexivity|].
  now rewrite H, IH.
Qed.

Lemma all_chars_keep_other (p q : ascii -> bool) (s : string) :
  all_chars p s = true -> all_chars p (keep_chars q s) = true.
Proof.
  induction s as [|c r IH]; simpl; [reflexivity|].
  intros H; apply andb_true_iff in H; destruct H as [Hc Hr].
  destruct (q c); simpl; [now rewrite Hc, IH|now apply IH].
Qed.

Lemma all_chars_squeeze_from (p : ascii -> bool) (s : string) :
  p " "%char = true ->
  all_chars p s = true ->
  forall b, all_chars p (squeeze_from b s) = true.
Proof.
  intros Hsp; induction s as [|c r IH]; simpl; [reflexivity|].
  intros H b; apply andb_true_iff in H; destruct H as [Hc Hr].
  destruct (is_space c); [destruct b|]; simpl;
    rewrite ?Hsp, ?Hc; simpl; now apply IH.
Qed.

Lemma all_chars_lstrip (p : ascii -> bool) (s : string) :
  all_chars p s = true -> all_chars p (lstrip s) = true.
Proof.
  induction s as [|c r IH]; simpl; [reflexivity|].
  intros H; destruct (is_space c); simpl; [|exact H].
  apply andb_true_iff in H; now apply IH.
Qed.

Lemma all_chars_rstrip (p : ascii -> bool) (s : string) :
  all_chars p s = true -> all_chars p (rstrip s) = true.
Proof.
  induction s as [|c r IH]; simpl; [reflexivity|].
  intros H; apply andb_true_iff in H; destruct H as [Hc Hr].
  specialize (IH Hr).
  destruct (rstrip r) as [|c' r'].
  - destruct (is_space c); simpl; [reflexivity|now rewrite Hc].
  - change (all_chars p (String c (String c' r')) = true).
    simpl; rewrite Hc; exact IH.
Qed.

Lemma all_chars_strip (p : ascii -> bool) (s : string) :
  all_chars p s = true -> all_chars p (strip s) = true.
Proof. intros H; apply all_chars_rstrip, all_chars_lstrip, H. Qed.

(** ** Annual salary and additional compensation *)

Lemma numeric_not_space (c : ascii) : numeric c = true -> is_space c = false.
Proof.
  unfold numeric, is_digit, is_space, between, code.
  destruct c as [[] [] [] [] [] [] [] []]; vm_compute; congruence.
Qed.

Lemma squeeze_from_no_space (s : string) :
  all_chars (fun c => negb (is_space c)) s = true ->
  forall b, squeeze_from b s = s.
Proof.
  induction s as [|c r IH]; simpl; [reflexivity|].
  intros H b; apply andb_true_iff in H; destruct H as [Hc Hr].
  apply negb_true_iff in Hc; rewrite Hc; now rewrite IH.
Qed.

Lemma squeeze_keep_numeric (s : string) :
  squeeze (keep_numeric s) = keep_numeric s.
Proof.
  apply squeeze_from_no_space.
  apply all_chars_weaken with (p := numeric);
    [|apply all_chars_keep_chars].
  intros c H; now rewrite (numeric_not_space c H).
Qed.

Lemma salary_cell_numeric (x : cell) :
  salary_cell x = str_method keep_numeric x.
Proof.
  destruct x as [s|]; [|reflexivity].
  unfold salary_cell, replace_spaces; simpl.
  now rewrite squeeze_keep_numeric.
Qed.


(** X1. The salary method keeps the digits and the dots of each text, leaves a
    missing cell missing, and a second pass changes nothing; the replacement
    of white space that follows never finds any. *)
Theorem annual_salary_keeps_digits_and_dots :
  (forall d,
      statements _standardize_annual_salaries d =
      match select d "Annual_Salary" with
      | [] => (Raise (KeyError "Annual_Salary"), d)
      | [_] =>
          (Ok None,
           update "Annual_Salary" (map (str_method keep_numeric)) d)
      | _ :: _ :: _ => (Raise (AttributeError "str"), d)
      end) /\
  (forall s, all_chars numeric (keep_numeric s) = true) /\
  (forall s, keep_numeric (keep_numeric s) = keep_numeric s).
Proof.
  split; [|split].
  - intros d; rewrite salary_statements.
    destruct (select d "Annual_Salary") as [|a [|b l]]; try reflexivity.
    f_equal; apply update_ext; intros col.
    apply map_ext, salary_cell_numeric.
  - intros s; apply all_chars_keep_chars.
  - intros s; apply keep_chars_all, all_chars_keep_chars.
Qed.

(** The texts of the column that a method rewrites cell by cell. *)
Lemma written_texts (s : step) (c : string) (f : cell -> cell)
      (P : string -> Prop) :
  (forall d d', handed s d = Some d' -> d' = update c (map f) d) ->
  (forall x t, f x = Str t -> P t) ->
  forall d d' col t,
    handed s d = Some d' -> In col (select d' c) -> In (Str t) col -> P t.
Proof.
  intros Hs Hf d d' col t Hd Hcol Ht.
  rewrite (Hs d d' Hd), select_update_same in Hcol.
  apply in_map_iff in Hcol; destruct Hcol as (col0 & <- & _).
  apply in_map_iff in Ht; destruct Ht as (x & Hx & _).
  exact (Hf x t Hx).
Qed.

Lemma comp_cell_text (x : cell) (t : string) :
  comp_cell x = Str t -> t <> EmptyString /\ all_chars numeric t = true.
Proof.
  unfold comp_cell, replace_spaces.
  assert (E : forall s,
             replace_list [EmptyString] Null
               (str_method squeeze (str_method keep_numeric (Str s))) =
             Str t ->
             t <> EmptyString /\ all_chars numeric t = true).
  { intros s; simpl; rewrite squeeze_keep_numeric.
    unfold mem; simpl; rewrite orb_false_r.
    destruct (String.eqb (keep_numeric s) EmptyString) eqn:E;
      [discriminate|].
    intros H; inversion H; subst t; split.
    - now apply String.eqb_neq.
    - apply all_chars_keep_chars. }
  destruct x as [s|]; [apply E|]; simpl; discriminate.
Qed.

(** X2. In the table that the method hands back, every text of Additional_Comp
    is made of digits and dots and is not empty. *)
Theorem additional_comp_is_numeric
        (d d' : DataFrame) (col : Series) (t : string) :
  handed _standardize_additional_comp d = Some d' ->
  In col (select d' "Additional_Comp") ->
  In (Str t) col ->
  t <> EmptyString /\ all_chars numeric t = true.
Proof.
  exact (written_texts _standardize_additional_comp "Additional_Comp"
           comp_cell
           (fun t => t <> EmptyString /\ all_chars numeric t = true)
           comp_handed comp_cell_text d d' col t).
Qed.

Lemma additional_comp_is_numeric_witness :
  "1000.50" <> EmptyString /\ all_chars numeric "1000.50" = true.
Proof.
  apply (additional_comp_is_numeric
           (mkFrame 2 [("Additional_Comp", [Str "$1,000.50"; Null])])
           (mkFrame 2 [("Additional_Comp", [Str "1000.50"; Null])])
           [Str "1000.50"; Null] "1000.50").
  - reflexivity.
  - simpl; auto.
  - simpl; auto.
Defined.

(** ** Currency *)

Lemma clean_currency_alphabet (s : string) :
  all_chars code_char (clean_currency s) = true.
Proof.
  unfold clean_currency, squeeze.
  apply all_chars_strip, all_chars_squeeze_from; [reflexivity|].
  apply all_chars_map_chars; intros c; unfold code_char.
  destruct (is_upper c || Ascii.eqb c "/"%char) eqn:E;
    [now rewrite E|reflexivity].
Qed.

Lemma currency_text (x : cell) (t : string) :
  replace_dict replace_map (str_method clean_currency x) = Str t ->
  all_chars code_char t = true.
Proof.
  destruct x as [s|]; [|discriminate].
  unfold str_method, replace_dict.
  destruct (lookup (clean_currency s) replace_map) as [v|] eqn:E.
  - intros ->; apply lookup_In in E.
    assert (H : Forall (fun v => match v with
                                 | Str t => all_chars code_char t = true
                                 | Null => True
                                 end) (map snd replace_map))
      by (repeat constructor).
    rewrite Forall_forall in H; exact (H _ E).
  - intros H; inversion H; apply clean_currency_alphabet.
Qed.

(** X3. In the table that the currency method hands back, every text of
    Currency is made of capital letters, slashes and spaces, whether it came
    from the currency or from the other-currency column. *)
Theorem currency_is_capital_letters
        (d d' : DataFrame) (col : Series) (t : string) :
  handed _standardize_currency_other_cols d = Some d' ->
  In col (select d' "Currency") ->
  In (Str t) col ->
  all_chars code_char t = true.
Proof.
  intros Hd Hcol Ht.
  destruct (currency_handed d d' Hd) as (c & o & Hc & Ho & ->).
  rewrite select_without_other, select_update_same, Hc in Hcol
    by discriminate.
  destruct Hcol as [<-|[]].
  unfold currency_series in Ht.
  apply in_map_iff in Ht; destruct Ht as (x & Hx & _).
  exact (currency_text x t Hx).
Qed.

Lemma currency_is_capital_letters_witness :
  all_chars code_char "SWISS FRANCS" = true.
Proof.
  apply (currency_is_capital_letters
           (mkFrame 2 [("Currency", [Str "Other (please specify)"; Str "usd"]);
                       ("Currency_Other", [Str "Swiss francs"; Null])])
           (mkFrame 2 [("Currency", [Str "SWISS FRANCS"; Str "USD"])])
           [Str "SWISS FRANCS"; Str "USD"] "SWISS FRANCS").
  - vm_compute; reflexivity.
  - simpl; auto.
  - simpl; auto.
Defined.

(** ** Job titles *)







Lemma seniority_cell_label (x : cell) (t : string) :
  seniority_cell x = Str t -> In t seniority_labels.
Proof.
  destruct x as [s|]; [|discriminate].
  rewrite seniority_of_title.
  destruct (findall pattern s) as [|m l]; [discriminate|].
  unfold map_dict.
  destruct (lookup m seniority_map) as [v|] eqn:E; [|discriminate].
  intros H; inversion H; subst v.
  exact (lookup_In _ _ _ _ E).
Qed.

(** X5. In the table that the method hands back, every text of Seniority is
    one of the labels of the seniority table, whatever the column held before. *)
Theorem seniority_is_a_label
        (d d' : DataFrame) (col : Series) (t : string) :
  handed _normalize_job_titles d = Some d' ->
  In col (select d' "Seniority") ->
  In (Str t) col ->
  In t seniority_labels.
Proof.
  intros Hd Hcol Ht.
  destruct (job_titles_handed d d' Hd) as (c & Hc & ->).
  rewrite select_set_column_same in Hcol.
  assert (E : col = map seniority_cell (map (str_method clean_title) c)).
  { apply in_app_or in Hcol; destruct Hcol as [Hcol|Hcol].
    - apply in_map_iff in Hcol; now destruct Hcol as (_ & <- & _).
    - destruct (select _ "Seniority"); simpl in Hcol; intuition. }
  subst col.
  apply in_map_iff in Ht; destruct Ht as (x & Hx & _).
  exact (seniority_cell_label x t Hx).
Qed.

Lemma seniority_is_a_label_witness : In "Level II" seniority_labels.
Proof.
  apply (seniority_is_a_label
           (mkFrame 2 [("Job_Title", [Str "Paralegal II"; Str "Nurse"]);
                       ("Seniority", [Str "boss"; Str "boss"])])
           (mkFrame 2 [("Job_Title", [Str "paralegal ii"; Str "nurse"]);
                       ("Seniority", [Str "Level II"; Null])])
           [Str "Level II"; Null] "Level II").
  - vm_compute; reflexivity.
  - simpl; auto.
  - simpl; auto.
Defined.

(** ** Country *)

Lemma country_cell_name (x : cell) (t : string) :
  country_cell x = Str t -> In t country_names.
Proof.
  destruct x as [s|]; [|discriminate].
  unfold country_cell, str_method, map_dict.
  destruct (lookup _ country_map) as [v|] eqn:E; [|discriminate].
  intros H; inversion H; subst v.
  exact (lookup_In _ _ _ _ E).
Qed.



(** X6. In the table that the method hands back, every text of Country is one
    of the names of the country table: a country that the table does not list
    is left missing. *)
Theorem country_is_a_listed_name
        (d d' : DataFrame) (col : Series) (t : string) :
  handed _standardize_country d = Some d' ->
  In col (select d' "Country") ->
  In (Str t) col ->
  In t country_names.
Proof.
  exact (written_texts _standardize_country "Country" country_cell
           (fun t => In t country_names)
           country_handed country_cell_name d d' col t).
Qed.

Lemma country_is_a_listed_name_witness : In "United States" country_names.
Proof.
  apply (country_is_a_listed_name
           (mkFrame 2 [("Country", [Str "U.S.A."; Str "Atlantis"])])
           (mkFrame 2 [("Country", [Str "United States"; Null])])
           [Str "United States"; Null] "United States").
  - vm_compute; reflexivity.
  - simpl; auto.
  - simpl; auto.
Defined.

(** ** Stripping and casing *)

Lemma rstrip_idem (s : string) : rstrip (rstrip s) = rstrip s.
Proof.
  induction s as [|c r IH]; [reflexivity|].
  simpl; destruct (rstrip r) as [|c' r'] eqn:E.
  - destruct (is_space c) eqn:Ec; [reflexivity|].
    simpl; now rewrite Ec.
  - change (rstrip (String c (String c' r')) = String c (String c' r')).
    cbn [rstrip]; fold rstrip.
    change (match rstrip (String c' r') with
            | EmptyString =>
                if is_space c then EmptyString else String c EmptyString
            | String a b => String c (String a b)
            end = String c (String c' r')).
    now rewrite IH.
Qed.

Lemma lstrip_starts_clean (s : string) : starts_clean (lstrip s).
Proof.
  induction s as [|c r IH]; simpl; [exact I|].
  destruct (is_space c) eqn:E; [exact IH|exact E].
Qed.

Lemma lstrip_clean (s : string) : starts_clean s -> lstrip s = s.
Proof. destruct s as [|c r]; simpl; [reflexivity|]; now intros ->. Qed.

Lemma rstrip_starts_clean (s : string) :
  starts_clean s -> starts_clean (rstrip s).
Proof.
  destruct s as [|c r]; simpl; [exact id|].
  intros E; destruct (rstrip r); [rewrite E|]; exact E.
Qed.

Lemma strip_idem (s : string) : strip (strip s) = strip s.
Proof.
  unfold strip.
  rewrite (lstrip_clean (rstrip (lstrip s)))
    by apply rstrip_starts_clean, lstrip_starts_clean.
  apply rstrip_idem.
Qed.







(** ** State and city *)

Lemma split_first_no_comma (s : string) :
  all_chars no_comma (split_first ","%char s) = true.
Proof.
  induction s as [|c r IH]; simpl; [reflexivity|].
  destruct (Ascii.eqb c ","%char) eqn:E; simpl; [reflexivity|].
  unfold no_comma at 1; now rewrite E.
Qed.

Lemma state_cell_text (x : cell) (t : string) :
  state_cell x = Str t ->
  all_chars no_comma t = true /\ strip t = t /\
  mem t ["0"; "nan"; "NaN"; "None"; EmptyString; "null"] = false.
Proof.
  unfold state_cell.
  set (u := match astype_str x with Str s => s | Null => EmptyString end).
  assert (E : str_method (fun t => strip (split_first ","%char t))
                         (astype_str x) =
              Str (strip (split_first ","%char u)))
    by (now destruct x).
  rewrite E; unfold replace_list.
  destruct (mem _ _) eqn:Em; [discriminate|].
  intros H; inversion H; subst t; repeat split.
  - apply all_chars_strip, split_first_no_comma.
  - apply strip_idem.
  - exact Em.
Qed.

(** X7. In the table that the method hands back, every text of State is the
    part before the first comma, without white space around it, and is none of
    the texts that stand for a missing state. *)
Theorem state_is_one_clean_name
        (d d' : DataFrame) (col : Series) (t : string) :
  handed _standardize_state d = Some d' ->
  In col (select d' "State") ->
  In (Str t) col ->
  all_chars no_comma t = true /\ strip t = t /\
  mem t ["0"; "nan"; "NaN"; "None"; EmptyString; "null"] = false.
Proof.
  exact (written_texts _standardize_state "State" state_cell
           (fun t => all_chars no_comma t = true /\ strip t = t /\
                     mem t ["0"; "nan"; "NaN"; "None"; EmptyString; "null"]
                     = false)
           state_handed state_cell_text d d' col t).
Qed.

Lemma state_is_one_clean_name_witness :
  all_chars no_comma "California" = true /\
  strip "California" = "California" /\
  mem "California" ["0"; "nan"; "NaN"; "None"; EmptyString; "null"] = false.
Proof.
  apply (state_is_one_clean_name
           (mkFrame 3 [("State", [Str " California , Oregon"; Null;
                                  Str "null"])])
           (mkFrame 3 [("State", [Str "California"; Null; Null])])
           [Str "California"; Null; Null] "California").
  - vm_compute; reflexivity.
  - simpl; auto.
  - simpl; auto.
Defined.




(** ** Cleaning a cleaned cell again *)

















(** ** Running a method on the table it handed back *)





(** ** Renaming the columns *)

Lemma rename_label_idem (c : string) :
  rename_label rename_map (rename_label rename_map c) =
  rename_label rename_map c.
Proof.
  unfold rename_label at 2 3.
  destruct (lookup c rename_map) as [v|] eqn:E.
  - apply lookup_In in E.
    assert (H : Forall (fun v => rename_label rename_map v = v)
                       (map snd rename_map))
      by (repeat constructor).
    rewrite Forall_forall in H; exact (H v E).
  - unfold rename_label; now rewrite E.
Qed.

Lemma rename_idem (d : DataFrame) :
  rename rename_map (rename rename_map d) = rename rename_map d.
Proof.
  unfold rename; simpl; f_equal; rewrite map_map.
  apply map_ext; intros p; simpl; now rewrite rename_label_idem.
Qed.

(** X10. The renaming method never fails and builds no table: it hands back
    the reference it was given, after replacing, in the table behind it, each
    header by its canonical name; the columns keep their order and their
    cells, and renaming a renamed table changes nothing. *)
Theorem rename_columns_in_place (w : world) (df : loc) (d : DataFrame) :
  deref w df = Some d ->
  call _rename_columns df w =
  (Ok df,
   mkWorld (store_at df (rename rename_map d) (heap w))
           (logged w ++ [Log INFO "Starting _rename_columns()" None])) /\
  labels (rename rename_map d) =
  map (rename_label rename_map) (labels d) /\
  map snd (data (rename rename_map d)) = map snd (data d) /\
  rename rename_map (rename rename_map d) = rename rename_map d.
Proof.
  intros Hd; repeat split.
  - now rewrite (call_run _ _ _ _ Hd).
  - apply rename_labels.
  - unfold rename; simpl; rewrite map_map; reflexivity.
  - apply rename_idem.
Qed.

Lemma rename_columns_in_place_witness :
  let d := mkFrame 1 [("Job title", [Str "Nurse"]); ("Seniority", [Null]);
                      ("Shoe size", [Str "9"])] in
  let w := mkWorld [d] [] in
  call _rename_columns 0 w =
  (Ok 0,
   mkWorld (store_at 0 (rename rename_map d) (heap w))
           (logged w ++ [Log INFO "Starting _rename_columns()" None])) /\
  labels (rename rename_map d) =
  map (rename_label rename_map) (labels d) /\
  map snd (data (rename rename_map d)) = map snd (data d) /\
  rename rename_map (rename rename_map d) = rename rename_map d.
Proof.
  intros d w.
  apply (rename_columns_in_place w 0 d); reflexivity.
Defined.

(** ** A missing column *)

Section Columns.

Variable parse_timestamp : Series -> string -> cell.

Lemma first_column_missing :
  Forall (fun p => forall d,
              select d (snd p) = [] ->
              statements (fst p) d = (Raise (KeyError (snd p)), d))
         (first_column parse_timestamp).
Proof.
  unfold first_column.
  repeat (apply Forall_cons; [cbn [fst snd]; intros d E|]);
    try apply Forall_nil.
  - now rewrite job_titles_statements, E.
  - now rewrite salary_statements, E.
  - now rewrite comp_statements, E.
  - now rewrite currency_statements, E.
  - now rewrite timestamp_statements, E.
  - now rewrite income_statements, E.
  - now rewrite country_statements, E.
  - now rewrite job_context_statements, E.
  - now rewrite gender_statements, E.
  - now rewrite race_statements, E.
  - now rewrite education_statements, E.
  - now rewrite experience_statements, E.
  - now rewrite overall_experience_statements, E.
  - now rewrite state_statements, E.
  - now rewrite city_statements, E.
Qed.

Lemma column_steps_update :
  Forall (fun p => forall d d',
              handed (fst p) d = Some d' ->
              exists g, d' = update (snd p) g d)
         (column_steps parse_timestamp).
Proof.
  unfold column_steps.
  repeat (apply Forall_cons; [cbn [fst snd]; intros d d' H|]);
    try apply Forall_nil; eexists.
  - exact (salary_handed d d' H).
  - exact (comp_handed d d' H).
  - exact (timestamp_handed parse_timestamp d d' H).
  - exact (income_handed d d' H).
  - exact (country_handed d d' H).
  - exact (job_context_handed d d' H).
  - exact (gender_handed d d' H).
  - exact (race_handed d d' H).
  - exact (education_handed d d' H).
  - exact (experience_handed d d' H).
  - exact (overall_experience_handed d d' H).
  - exact (state_handed d d' H).
  - exact (city_handed d d' H).
Qed.

(** X11. A method called on a table without its column catches the [KeyError]:
    it logs its entry line and a critical record, leaves the table and the
    rest of the store as they were, and returns a new empty table. *)
Theorem missing_column_gives_empty_table
        (s : step) (c : string) (w : world) (df : loc) (d : DataFrame) :
  In (s, c) (first_column parse_timestamp) ->
  deref w df = Some d ->
  select d c = [] ->
  call s df w =
  (Ok (length (heap w)),
   mkWorld (heap w ++ [DataFrame_empty])
           (logged w ++ entry_log s ++ [critical s (KeyError c)])).
Proof.
  intros Hin Hd Hc.
  pose proof first_column_missing as H; rewrite Forall_forall in H.
  pose proof (H _ Hin d Hc) as Hs; cbn [fst snd] in Hs.
  rewrite (call_run _ _ _ _ Hd); unfold after_statements.
  rewrite Hs; cbn [fst snd heap logged].
  rewrite (store_at_id df d (heap w) Hd), <- app_assoc; reflexivity.
Qed.

(** X12. A method that rewrites one column leaves the labels, the number of
    rows and every other column of the table as they were. *)
Theorem column_steps_leave_the_rest
        (s : step) (c : string) (d d' : DataFrame) :
  In (s, c) (column_steps parse_timestamp) ->
  handed s d = Some d' ->
  labels d' = labels d /\
  nrows d' = nrows d /\
  length (select d' c) = length (select d c) /\
  forall c', c' <> c -> select d' c' = select d c'.
Proof.
  intros Hin Hd.
  pose proof column_steps_update as H; rewrite Forall_forall in H.
  destruct (H _ Hin d d' Hd) as (g & ->); cbn [fst snd].
  repeat split.
  - apply update_labels.
  - rewrite select_update_same; apply length_map.
  - intros c' Hc; apply select_update_other; congruence.
Qed.

End Columns.

Lemma missing_column_gives_empty_table_witness :
  let d := mkFrame 1 [("Age", [Str "25-34"])] in
  let w := mkWorld [d] [] in
  call _standardize_gender 0 w =
  (Ok 1,
   mkWorld [d; DataFrame_empty]
     [Log INFO "Starting _standardize_gender()" None;
      Log CRITICAL "Exception occurred in _standardize_gender() : "
          (Some (KeyError "Gender"))]).
Proof.
  intros d w.
  apply (missing_column_gives_empty_table coerce_all _standardize_gender
           "Gender" w 0 d).
  - unfold first_column; simpl; auto 20.
  - reflexivity.
  - reflexivity.
Defined.

Lemma column_steps_leave_the_rest_witness :
  let d := mkFrame 1 [("Age", [Str "25-34"]); ("State", [Str "Ohio, US"])] in
  let d' := mkFrame 1 [("Age", [Str "25-34"]); ("State", [Str "Ohio"])] in
  labels d' = labels d /\
  nrows d' = nrows d /\
  length (select d' "State") = length (select d "State") /\
  forall c', c' <> "State" -> select d' c' = select d c'.
Proof.
  intros d d'.
  apply (column_steps_leave_the_rest coerce_all _standardize_state "State").
  - unfold column_steps; simpl; auto 20.
  - reflexivity.
Defined.

(** ** The currency method and its two tables *)

Lemma without_labels (c : string) (d : DataFrame) :
  labels (without c d) =
  filter (fun l => negb (String.eqb l c)) (labels d).
Proof.
  unfold labels, without; simpl.
  induction (data d) as [|p r IH]; simpl; [reflexivity|].
  destruct (negb (String.eqb (fst p) c)); simpl; now rewrite IH.
Qed.

(** X13. On a table with one Currency and one Currency_Other column, the
    currency method rewrites Currency in the table it was given, which keeps
    its Currency_Other column, and returns a new table: the rewritten one
    without Currency_Other, the other labels being in their order. *)
Theorem currency_method_returns_a_new_table
        (w : world) (df : loc) (d : DataFrame) (c o : Series) :
  deref w df = Some d ->
  select d "Currency" = [c] ->
  select d "Currency_Other" = [o] ->
  let d1 := update "Currency" (currency_series o) d in
  let d2 := without "Currency_Other" d1 in
  call _standardize_currency_other_cols df w =
  (Ok (length (heap w)),
   mkWorld (store_at df d1 (heap w) ++ [d2])
           (logged w ++
            [Log INFO "Starting _standardize_currency_other_cols()" None]))
  /\ select d1 "Currency_Other" = [o]
  /\ select d2 "Currency_Other" = []
  /\ select d2 "Currency" = [currency_series o c]
  /\ labels d2 =
     filter (fun l => negb (String.eqb l "Currency_Other")) (labels d).
Proof.
  intros Hd Hc Ho d1 d2; repeat split.
  - rewrite (call_run _ _ _ _ Hd); unfold after_statements.
    rewrite currency_statements, Hc, Ho; reflexivity.
  - unfold d1; rewrite select_update_other by discriminate; exact Ho.
  - apply select_without_same.
  - unfold d2, d1.
    rewrite select_without_other, select_update_same, Hc by discriminate.
    reflexivity.
  - unfold d2, d1; now rewrite without_labels, update_labels.
Qed.

Lemma currency_method_returns_a_new_table_witness :
  let d := mkFrame 1 [("Currency", [Str "Other"]);
                      ("Currency_Other", [Str "Swiss Francs"])] in
  let w := mkWorld [d] [] in
  let d1 := update "Currency"
                   (currency_series [Str "Swiss Francs"]) d in
  let d2 := without "Currency_Other" d1 in
  call _standardize_currency_other_cols 0 w =
  (Ok 1,
   mkWorld (store_at 0 d1 (heap w) ++ [d2])
           (logged w ++
            [Log INFO "Starting _standardize_currency_other_cols()" None]))
  /\ select d1 "Currency_Other" = [[Str "Swiss Francs"]]
  /\ select d2 "Currency_Other" = []
  /\ select d2 "Currency" =
     [currency_series [Str "Swiss Francs"] [Str "Other"]]
  /\ labels d2 =
     filter (fun l => negb (String.eqb l "Currency_Other")) (labels d).
Proof.
  intros d w.
  apply (currency_method_returns_a_new_table w 0 d
           [Str "Other"] [Str "Swiss Francs"]); reflexivity.
Defined.

(** ** The conversion of the types *)

Lemma convert_columns_run (cols : list string) (d : DataFrame) :
  (forall c, In c cols -> In c (labels d)) ->
  convert_columns cols d =
  (if forallb (fun c => Nat.eqb (length (select d c)) 1) cols
   then Ok tt else Raise (AttributeError "dtype"), d).
Proof.
  induction cols as [|col rest IH]; intros Hin; [reflexivity|].
  cbn [convert_columns forallb]; rewrite run_series.
  assert (Hcol : In col (labels d)) by (apply Hin; now left).
  destruct (select d col) as [|x [|y t]] eqn:E.
  - exfalso; unfold labels in Hcol.
    apply in_map_iff in Hcol; destruct Hcol as ([c0 s0] & Hc0 & Hp).
    simpl in Hc0; subst c0.
    apply (proj2 (select_In d col s0)) in Hp; rewrite E in Hp; exact Hp.
  - rewrite (update_id col (map astype_string) d astype_string_id).
    apply IH; intros c Hc; apply Hin; now right.
  - reflexivity.
Qed.

Lemma dtype_conversion_run (w : world) (df : loc) (d : DataFrame) :
  deref w df = Some d ->
  dtype_conversion df w =
  if unique_labels d
  then (Ok df,
        mkWorld (heap w)
          (logged w ++
           [Log INFO "Starting dtype_conversion()" None;
            Log INFO "Successfully converted object types to string" None]))
  else (Ok (length (heap w)),
        mkWorld (heap w ++ [DataFrame_empty])
          (logged w ++
           [Log INFO "Starting dtype_conversion()" None;
            Log CRITICAL "Exception occurred in dtype_conversion()" None])).
Proof.
  intros Hd; unfold dtype_conversion, try_except.
  unfold bind at 1, logger at 1; cbn [fst snd].
  set (w0 := mkWorld (heap w) _).
  assert (Hd0 : deref w0 df = Some d) by exact Hd.
  unfold bind at 1; rewrite (on_run _ _ _ _ _ Hd0).
  change ((cols <- gets labels;; convert_columns cols) d)
    with (convert_columns (labels d) d).
  rewrite (convert_columns_run (labels d) d (fun c H => H)).
  fold (unique_labels d); cbn [fst snd].
  subst w0; cbn [heap logged].
  rewrite (store_at_id df d (heap w) Hd).
  destruct (unique_labels d); unfold bind, logger, ret, new;
    cbn [fst snd heap logged]; rewrite <- app_assoc; reflexivity.
Qed.

(** X14. The conversion returns the table it was given, unchanged, when every
    label names one column; when a label is repeated, the [.dtype] of the
    sub-frame raises, and the method logs a critical record and returns a new
    empty table. The store is otherwise left as it was. *)
Theorem dtype_conversion_needs_unique_labels
        (w : world) (df : loc) (d : DataFrame) :
  deref w df = Some d ->
  dtype_conversion df w =
  if unique_labels d
  then (Ok df,
        mkWorld (heap w)
          (logged w ++
           [Log INFO "Starting dtype_conversion()" None;
            Log INFO "Successfully converted object types to string" None]))
  else (Ok (length (heap w)),
        mkWorld (heap w ++ [DataFrame_empty])
          (logged w ++
           [Log INFO "Starting dtype_conversion()" None;
            Log CRITICAL "Exception occurred in dtype_conversion()" None])).
Proof. apply dtype_conversion_run. Qed.

Lemma dtype_conversion_needs_unique_labels_witness :
  let d := mkFrame 1 [("Age", [Str "25-34"]); ("Age", [Str "35-44"])] in
  let w := mkWorld [d] [] in
  dtype_conversion 0 w =
  if unique_labels d
  then (Ok 0,
        mkWorld (heap w)
          (logged w ++
           [Log INFO "Starting dtype_conversion()" None;
            Log INFO "Successfully converted object types to string" None]))
  else (Ok (length (heap w)),
        mkWorld (heap w ++ [DataFrame_empty])
          (logged w ++
           [Log INFO "Starting dtype_conversion()" None;
            Log CRITICAL "Exception occurred in dtype_conversion()" None])).
Proof.
  intros d w.
  apply (dtype_conversion_needs_unique_labels w 0 d); reflexivity.
Defined.


(** ** Rows that occur once *)

Lemma firsts_all (rs : list (list cell)) :
  forall seen,
    (forall r, In r rs -> existsb (row_eqb r) seen = false) ->
    (forall r, In r rs -> occurrences r rs <= 1) ->
    filter (fun b => b) (firsts seen rs) = repeat true (length rs).
Proof.
  induction rs as [|r t IH]; intros seen Hseen Hocc; [reflexivity|].
  cbn [firsts length repeat].
  rewrite (Hseen r (or_introl eq_refl)); cbn [negb filter]; f_equal.
  assert (Hr : occurrences r (r :: t) <= 1) by (apply Hocc; now left).
  unfold occurrences in Hr; cbn [filter] in Hr.
  rewrite (proj2 (row_eqb_eq r r) eq_refl) in Hr; cbn [length] in Hr.
  apply IH.
  - intros r' Hin; cbn [existsb].
    rewrite (Hseen r' (or_intror Hin)), orb_false_r.
    destruct (row_eqb r' r) eqn:E; [|reflexivity].
    apply row_eqb_eq in E; subst r'; exfalso.
    assert (In r (filter (row_eqb r) t))
      by (apply filter_In; split; [exact Hin|now apply row_eqb_eq]).
    destruct (filter (row_eqb r) t); [contradiction|simpl in Hr; lia].
  - intros r' Hin.
    specialize (Hocc r' (or_intror Hin)).
    unfold occurrences in *; cbn [filter] in Hocc.
    destruct (row_eqb r' r); cbn [length] in Hocc; lia.
Qed.

Lemma no_duplicates_nrows (d : DataFrame) :
  empty d = false ->
  empty (take (duplicated_all d) d) = true ->
  nrows (drop_duplicates d) = nrows d.
Proof.
  intros He Hnone.
  rewrite take_empty, (not_empty_columns d He), orb_false_r in Hnone.
  apply Nat.eqb_eq, length_zero_iff_nil in Hnone.
  unfold drop_duplicates, take; cbn [nrows].
  rewrite firsts_all.
  - now rewrite repeat_length, rows_length.
  - reflexivity.
  - intros r Hin.
    destruct (Nat.leb 2 (occurrences r (rows d))) eqn:E;
      [|apply Nat.leb_gt in E; lia].
    exfalso.
    assert (Ht : In true (filter (fun b => b) (duplicated_all d))).
    { apply filter_In; split; [|reflexivity].
      unfold duplicated_all; apply in_map_iff; now exists r. }
    now rewrite Hnone in Ht.
Qed.

Lemma working_nrows (d : DataFrame) :
  empty d = false -> nrows (working d) = nrows (drop_duplicates d).
Proof.
  intros He; unfold working.
  destruct (empty (take (duplicated_all d) d)) eqn:E; [|reflexivity].
  symmetry; now apply no_duplicates_nrows.
Qed.

Lemma working_labels (d : DataFrame) : labels (working d) = labels d.
Proof.
  unfold working, drop_duplicates.
  destruct (negb _); [apply take_labels|reflexivity].
Qed.

(** A relation between tables that every method of a list keeps holds
    between the ends of the loop. *)
Lemma run_frames_related (R : DataFrame -> DataFrame -> Prop)
      (steps : list step) :
  (forall d, R d d) ->
  (forall a b c, R a b -> R b c -> R a c) ->
  Forall (fun s => forall d d', handed s d = Some d' -> R d d') steps ->
  forall d dk, run_frames steps d = Some dk -> R d dk.
Proof.
  intros Hrefl Htrans; induction steps as [|s rest IH]; intros Hs d dk H.
  - inversion H; apply Hrefl.
  - inversion Hs as [|? ? H1 H2]; subst.
    cbn [run_frames] in H.
    destruct (handed s d) as [d'|] eqn:E; [|discriminate].
    destruct (empty d'); [discriminate|].
    exact (Htrans _ _ _ (H1 d d' E) (IH H2 d' dk H)).
Qed.

Section Output.

Variable parse_timestamp : Series -> string -> cell.

(** A run that ends on a non-empty table went from the working table
    through every method and through the final projection. *)
Lemma transform_success_working (w : world) (df : loc) (d : DataFrame)
      (r : loc) (w' : world) (out : DataFrame) :
  deref w df = Some d ->
  transform parse_timestamp df w = (Ok r, w') ->
  deref w' r = Some out ->
  empty out = false ->
  exists dk cols,
    empty d = false /\
    run_frames (transformation_steps parse_timestamp) (working d) =
    Some dk /\
    gather canonical_columns (final_cleaning dk) = Some cols /\
    out = mkFrame (nrows dk) cols /\
    forall c, length (select (final_cleaning dk) c) <= 1.
Proof.
  intros Hd Hrun Hout Hne.
  destruct (empty d) eqn:He.
  { rewrite (transform_on_empty parse_timestamp w df d Hd He) in Hrun.
    inversion Hrun; subst r w'; clear Hrun.
    unfold deref in Hout, Hd; cbn [heap] in Hout; congruence. }
  destruct (enters_run w df d Hd)
    as (df0 & w0 & d1 & lg & Henter & Hd1 & Hc & _).
  rewrite (transform_enters parse_timestamp w df d df0 w0 Hd He Henter)
    in Hrun.
  unfold try_except in Hrun.
  destruct (run_steps (transformation_steps parse_timestamp) df0 finish w0)
    as [[l|e] w1] eqn:Hloop.
  - inversion Hrun; subst l w1; clear Hrun.
    destruct (run_steps_success finish _ df0 w0 d1 r w' out Hd1 Hloop
                                Hout Hne)
      as (dk & dfk & wk & Hframes & Hdk & Hfin).
    destruct (finish_success dfk wk dk r w' out Hdk Hfin Hout)
      as (cols & G & -> & Hu).
    exists dk, cols; repeat split; auto.
    unfold working.
    destruct Hc as [(-> & -> & _)|(-> & -> & _)]; exact Hframes.
  - unfold bind, logger, new in Hrun; simpl in Hrun.
    inversion Hrun; subst r w'; clear Hrun.
    rewrite deref_new in Hout; inversion Hout; subst out; discriminate.
Qed.

(** X15. A table that [transform] returns, when it is not empty, has as many
    rows as the input without its duplicates: the duplicates are dropped, and
    no other row is. *)
Theorem output_has_the_distinct_rows
        (w : world) (df : loc) (d : DataFrame) (r : loc) (w' : world)
        (out : DataFrame) :
  deref w df = Some d ->
  transform parse_timestamp df w = (Ok r, w') ->
  deref w' r = Some out ->
  empty out = false ->
  nrows out = nrows (drop_duplicates d).
Proof.
  intros Hd Hrun Hout Hne.
  destruct (transform_success_working w df d r w' out Hd Hrun Hout Hne)
    as (dk & cols & He & Hframes & _ & -> & _).
  cbn [nrows].
  rewrite (run_frames_nrows _ _ dk (steps_keep_nrows parse_timestamp)
                            Hframes).
  now apply working_nrows.
Qed.

Lemma final_cleaning_text (x : cell) (t : string) :
  none_if_na (replace_blank Null x) = Str t -> blank t = false.
Proof.
  destruct x as [s|]; simpl; [|discriminate].
  destruct (blank s) eqn:E; simpl; [discriminate|].
  intros H; inversion H; now subst t.
Qed.

(** X16. No text of a table that [transform] returns is empty or made of white
    space only: the final cleaning has turned such a text into a missing
    value. *)
Theorem output_has_no_blank_text
        (w : world) (df : loc) (d : DataFrame) (r : loc) (w' : world)
        (out : DataFrame) (c : string) (col : Series) (t : string) :
  deref w df = Some d ->
  transform parse_timestamp df w = (Ok r, w') ->
  deref w' r = Some out ->
  empty out = false ->
  In (c, col) (data out) ->
  In (Str t) col ->
  blank t = false.
Proof.
  intros Hd Hrun Hout Hne Hcol Ht.
  destruct (transform_success_working w df d r w' out Hd Hrun Hout Hne)
    as (dk & cols & _ & _ & G & -> & _).
  cbn [data] in Hcol.
  pose proof (gather_In _ _ _ G _ Hcol) as Hin.
  unfold final_cleaning, map_cells in Hin; cbn [data] in Hin.
  rewrite map_map in Hin; cbn [fst snd] in Hin.
  apply in_map_iff in Hin; destruct Hin as ([c0 col0] & E & _).
  inversion E; subst c col; clear E.
  rewrite map_map in Ht.
  apply in_map_iff in Ht; destruct Ht as (x & Hx & _).
  exact (final_cleaning_text x t Hx).
Qed.

Lemma none_if_na_id (col : Series) : map none_if_na col = col.
Proof.
  induction col as [|x t IH]; simpl; [reflexivity|].
  rewrite IH; now destruct x.
Qed.

Lemma carried_steps (c0 : string) :
  In c0 carried ->
  Forall (fun s => forall d d',
              handed s d = Some d' -> select d c0 = select d' c0)
         (tl (transformation_steps parse_timestamp)).
Proof.
  intros Hin; unfold transformation_steps; cbn [tl].
  assert (Hupd : forall s c f,
             (forall d d', handed s d = Some d' ->
                           d' = update c f d) ->
             c <> c0 ->
             forall d d', handed s d = Some d' ->
                          select d c0 = select d' c0).
  { intros s c f Hs Hc d d' H; rewrite (Hs d d' H).
    now rewrite select_update_other. }
  assert (H0 : c0 <> "Job_Title" /\ c0 <> "Seniority" /\
               c0 <> "Annual_Salary" /\ c0 <> "Additional_Comp" /\
               c0 <> "Currency" /\ c0 <> "Currency_Other" /\
               c0 <> "Timestamp" /\ c0 <> "Income_Context" /\
               c0 <> "Country" /\ c0 <> "Gender" /\ c0 <> "Race" /\
               c0 <> "Education" /\ c0 <> "Experience" /\
               c0 <> "Experience_Overall" /\ c0 <> "State" /\
               c0 <> "City").
  { unfold carried in Hin; simpl in Hin.
    destruct Hin as [<-|[<-|[<-|[]]]]; repeat split; discriminate. }
  destruct H0 as (N1 & N2 & N3 & N4 & N5 & N6 & N7 & N8 & N9 & N10 & N11
                  & N12 & N13 & N14 & N15 & N16).
  repeat apply Forall_cons; try apply Forall_nil.
  - intros d d' H; destruct (job_titles_handed d d' H) as (t & _ & ->).
    rewrite select_set_column_other, select_update_other; congruence.
  - exact (Hupd _ _ _ salary_handed (not_eq_sym N3)).
  - exact (Hupd _ _ _ comp_handed (not_eq_sym N4)).
  - intros d d' H; destruct (currency_handed d d' H) as (c & o & _ & _ & ->).
    rewrite select_without_other, select_update_other; congruence.
  - exact (Hupd _ _ _ (timestamp_handed parse_timestamp) (not_eq_sym N7)).
  - exact (Hupd _ _ _ income_handed (not_eq_sym N8)).
  - exact (Hupd _ _ _ country_handed (not_eq_sym N9)).
  - intros d d' H; rewrite (job_context_handed d d' H).
    destruct (string_dec "Job_Context" c0) as [<-|Hne].
    + rewrite select_update_same, map_ext with (g := fun col => col);
        [now rewrite map_id|exact none_if_na_id].
    + now rewrite select_update_other.
  - exact (Hupd _ _ _ gender_handed (not_eq_sym N10)).
  - exact (Hupd _ _ _ race_handed (not_eq_sym N11)).
  - exact (Hupd _ _ _ education_handed (not_eq_sym N12)).
  - exact (Hupd _ _ _ experience_handed (not_eq_sym N13)).
  - exact (Hupd _ _ _ overall_experience_handed (not_eq_sym N14)).
  - exact (Hupd _ _ _ state_handed (not_eq_sym N15)).
  - exact (Hupd _ _ _ city_handed (not_eq_sym N16)).
Qed.

Lemma select_map_cells (f : cell -> cell) (d : DataFrame) (c : string) :
  select (map_cells f d) c = map (map f) (select d c).
Proof.
  unfold select, map_cells; cbn [data].
  induction (data d) as [|[c1 s1] r IH]; [reflexivity|].
  cbn [map filter fst snd].
  destruct (String.eqb c1 c); cbn [map snd]; now rewrite IH.
Qed.

Lemma select_gathered (cs : list string) (d : DataFrame) (c0 : string) :
  forall cols n,
    gather cs d = Some cols ->
    NoDup cs ->
    In c0 cs ->
    select (mkFrame n cols) c0 = select d c0.
Proof.
  assert (Hpair : forall c l,
             map snd (filter (fun p : string * Series =>
                                String.eqb (fst p) c0)
                             (map (pair c) l)) =
             if String.eqb c c0 then l else []).
  { intros c l; induction l as [|x t IH]; simpl;
      [now destruct (String.eqb c c0)|].
    destruct (String.eqb c c0) eqn:E; simpl; now rewrite IH. }
  induction cs as [|c rest IH]; intros cols n G Hnd Hin; [contradiction|].
  cbn [gather] in G.
  destruct (select d c) as [|x l] eqn:Ec; [discriminate|].
  destruct (gather rest d) as [cols'|] eqn:Gr; [|discriminate].
  assert (Hcols : cols = map (pair c) (x :: l) ++ cols') by congruence.
  clear G; subst cols.
  inversion Hnd as [|? ? Hnotin Hnd']; subst.
  unfold select at 1; cbn [data].
  rewrite filter_app, map_app, Hpair.
  destruct Hin as [->|Hin].
  - rewrite String.eqb_refl.
    assert (Hnone : forall cs' cols'',
               gather cs' d = Some cols'' -> ~ In c0 cs' ->
               map snd (filter (fun p : string * Series =>
                                  String.eqb (fst p) c0) cols'') = []).
    { induction cs' as [|c' r' IH']; intros cols'' G' Hn; cbn [gather] in G'.
      - now inversion G'.
      - destruct (select d c') as [|x' l'] eqn:Ec'; [discriminate|].
        destruct (gather r' d) as [cols3|] eqn:G3; [|discriminate].
        assert (Hc'' : cols'' = map (pair c') (x' :: l') ++ cols3)
          by congruence.
        clear G'; subst cols''.
        rewrite filter_app, map_app, Hpair.
        destruct (String.eqb c' c0) eqn:E;
          [apply String.eqb_eq in E; subst c'; exfalso; apply Hn; now left|].
        apply (IH' cols3 eq_refl); intros H; apply Hn; now right. }
    rewrite (Hnone rest cols' Gr Hnotin), app_nil_r; now rewrite Ec.
  - destruct (String.eqb c c0) eqn:E;
      [apply String.eqb_eq in E; subst c; contradiction|].
    exact (IH cols' n eq_refl Hnd' Hin).
Qed.

Lemma canonical_columns_NoDup : NoDup canonical_columns.
Proof.
  unfold canonical_columns.
  repeat (apply NoDup_cons;
          [simpl; intuition discriminate|]).
  apply NoDup_nil.
Qed.

(** X17. In a table that [transform] returns, when it is not empty, the
    columns Age, Industry and Job_Context are those of the working table, cell
    by cell, but for the blank texts, which are missing in the result. *)
Theorem carried_columns_pass_through
        (w : world) (df : loc) (d : DataFrame) (r : loc) (w' : world)
        (out : DataFrame) (c0 : string) :
  deref w df = Some d ->
  transform parse_timestamp df w = (Ok r, w') ->
  deref w' r = Some out ->
  empty out = false ->
  In c0 carried ->
  exists col0,
    select (rename rename_map (working d)) c0 = [col0] /\
    select out c0 = [map (replace_blank Null) col0].
Proof.
  intros Hd Hrun Hout Hne Hin.
  destruct (transform_success_working w df d r w' out Hd Hrun Hout Hne)
    as (dk & cols & He & Hframes & G & -> & Hu).
  unfold transformation_steps in Hframes; cbn [run_frames] in Hframes.
  destruct (handed _rename_columns (working d)) as [d1|] eqn:E1;
    [|discriminate].
  apply rename_handed in E1; subst d1.
  destruct (empty (rename rename_map (working d))); [discriminate|].
  pose proof (run_frames_related
                (fun a b => select a c0 = select b c0)
                (tl (transformation_steps parse_timestamp))
                (fun _ => eq_refl)
                (fun a b c H1 H2 => eq_trans H1 H2)
                (carried_steps c0 Hin) _ dk Hframes) as Hsel.
  assert (Hcanon : In c0 canonical_columns).
  { unfold carried in Hin; simpl in Hin; unfold canonical_columns.
    destruct Hin as [<-|[<-|[<-|[]]]]; simpl; auto 20. }
  rewrite (select_gathered _ _ c0 cols (nrows dk) G
                           canonical_columns_NoDup Hcanon).
  unfold final_cleaning; rewrite !select_map_cells, <- Hsel.
  specialize (Hu c0); unfold final_cleaning in Hu.
  rewrite !select_map_cells, !length_map, <- Hsel in Hu.
  assert (Hne0 : select (rename rename_map (working d)) c0 <> []).
  { intros E; rewrite Hsel in E.
    assert (Hg : forall cs cols', gather cs (final_cleaning dk) = Some cols'
                                  -> In c0 cs -> select dk c0 <> []).
    { induction cs as [|c rest IH]; intros cols' G' Hc; [contradiction|].
      cbn [gather] in G'.
      destruct (select (final_cleaning dk) c) as [|x l] eqn:Ec;
        [discriminate|].
      destruct (gather rest (final_cleaning dk)) as [cols3|] eqn:G3;
        [|discriminate].
      destruct Hc as [->|Hc]; [|exact (IH cols3 eq_refl Hc)].
      unfold final_cleaning in Ec; rewrite !select_map_cells in Ec.
      intros E0; rewrite E0 in Ec; discriminate. }
    exact (Hg _ _ G Hcanon E). }
  destruct (select (rename rename_map (working d)) c0) as [|col0 [|y t]];
    [contradiction| |simpl in Hu; lia].
  exists col0; split; [reflexivity|]; cbn [map]; f_equal.
  rewrite map_map; apply map_ext; intros x.
  now destruct (replace_blank Null x).
Qed.

Lemma set_column_known (c : string) (x : Series) (d : DataFrame)
      (l : string) :
  In l (labels (set_column c x d)) -> l = c \/ In l (labels d).
Proof.
  unfold set_column.
  destruct (select d c) as [|y t] eqn:E.
  - unfold labels; cbn [data]; rewrite map_app; intros H.
    apply in_app_or in H; destruct H as [H|[H|[]]]; [now right|now left].
  - rewrite update_labels; now right.
Qed.

Lemma known_steps (L : list string) :
  Forall (fun s => forall d d',
              handed s d = Some d' -> known L d -> known L d')
         (tl (transformation_steps parse_timestamp)).
Proof.
  unfold transformation_steps; cbn [tl].
  assert (Hupd : forall s c f,
             (forall d d', handed s d = Some d' ->
                           d' = update c f d) ->
             forall d d', handed s d = Some d' -> known L d -> known L d').
  { intros s c f Hs d d' H K l Hl; rewrite (Hs d d' H), update_labels in Hl.
    exact (K l Hl). }
  repeat apply Forall_cons; try apply Forall_nil.
  - intros d d' H K l Hl.
    destruct (job_titles_handed d d' H) as (t & _ & ->).
    apply set_column_known in Hl; destruct Hl as [->|Hl]; [now left|].
    rewrite update_labels in Hl; exact (K l Hl).
  - exact (Hupd _ _ _ salary_handed).
  - exact (Hupd _ _ _ comp_handed).
  - intros d d' H K l Hl.
    destruct (currency_handed d d' H) as (c & o & _ & _ & ->).
    rewrite without_labels, update_labels in Hl.
    apply filter_In in Hl; exact (K l (proj1 Hl)).
  - exact (Hupd _ _ _ (timestamp_handed parse_timestamp)).
  - exact (Hupd _ _ _ income_handed).
  - exact (Hupd _ _ _ country_handed).
  - exact (Hupd _ _ _ job_context_handed).
  - exact (Hupd _ _ _ gender_handed).
  - exact (Hupd _ _ _ race_handed).
  - exact (Hupd _ _ _ education_handed).
  - exact (Hupd _ _ _ experience_handed).
  - exact (Hupd _ _ _ overall_experience_handed).
  - exact (Hupd _ _ _ state_handed).
  - exact (Hupd _ _ _ city_handed).
Qed.

Lemma run_frames_known (L : list string) (steps : list step) :
  Forall (fun s => forall d d',
              handed s d = Some d' -> known L d -> known L d') steps ->
  forall d dk, known L d -> run_frames steps d = Some dk -> known L dk.
Proof.
  induction steps as [|s rest IH]; intros Hs d dk K H.
  - inversion H; now subst.
  - inversion Hs as [|? ? H1 H2]; subst.
    cbn [run_frames] in H.
    destruct (handed s d) as [d'|] eqn:E; [|discriminate].
    destruct (empty d'); [discriminate|].
    exact (IH H2 d' dk (H1 d d' E K) H).
Qed.

Lemma run_frames_app (pre rest : list step) :
  forall d dk,
    run_frames (pre ++ rest) d = Some dk ->
    exists dm, run_frames pre d = Some dm /\ run_frames rest dm = Some dk.
Proof.
  induction pre as [|s pre IH]; intros d dk H; [now exists d|].
  cbn [app run_frames] in *.
  destruct (handed s d) as [d'|]; [|discriminate].
  destruct (empty d'); [discriminate|].
  exact (IH d' dk H).
Qed.

Lemma gathered_present (d : DataFrame) (c : string) :
  forall cs cols,
    gather cs d = Some cols -> In c cs -> select d c <> [].
Proof.
  induction cs as [|c' rest IH]; intros cols G Hc; [contradiction|].
  cbn [gather] in G.
  destruct (select d c') as [|x l] eqn:Ec; [discriminate|].
  destruct (gather rest d) as [cols'|] eqn:G'; [|discriminate].
  destruct Hc as [->|Hc]; [|exact (IH cols' eq_refl Hc)].
  rewrite Ec; discriminate.
Qed.

(** The loop does not reach its end on a table that lacks a survey
    column. *)
Lemma incomplete_input_fails (d dk : DataFrame) (cols : list (string * Series))
      (c : string) :
  In c survey_columns ->
  ~ In c (map (rename_label rename_map) (labels d)) ->
  run_frames (transformation_steps parse_timestamp) d = Some dk ->
  gather canonical_columns (final_cleaning dk) = Some cols ->
  False.
Proof.
  intros Hc Hmiss Hframes G.
  set (L := map (rename_label rename_map) (labels d)) in *.
  assert (Hns : c <> "Seniority").
  { unfold survey_columns in Hc; simpl in Hc.
    repeat (destruct Hc as [<-|Hc]; [discriminate|]); contradiction. }
  change (transformation_steps parse_timestamp)
    with ([_rename_columns] ++
          tl (transformation_steps parse_timestamp)) in Hframes.
  apply run_frames_app in Hframes; destruct Hframes as (d1 & H1 & Hrest).
  cbn [run_frames] in H1.
  destruct (handed _rename_columns d) as [d1'|] eqn:E1; [|discriminate].
  apply rename_handed in E1; subst d1'.
  destruct (empty (rename rename_map d)); [discriminate|].
  inversion H1; subst d1; clear H1.
  assert (K1 : known L (rename rename_map d)).
  { intros l Hl; right; now rewrite rename_labels in Hl. }
  pose proof (known_steps L) as Hsteps.
  destruct (String.eqb c "Currency_Other") eqn:Eo.
  - apply String.eqb_eq in Eo; subst c.
    change (tl (transformation_steps parse_timestamp))
      with ([_normalize_job_titles; _standardize_annual_salaries;
             _standardize_additional_comp] ++
            skipn 4 (transformation_steps parse_timestamp)) in *.
    apply run_frames_app in Hrest; destruct Hrest as (d4 & H4 & Hrest).
    apply Forall_app in Hsteps; destruct Hsteps as [Hpre _].
    pose proof (run_frames_known L _ Hpre _ d4 K1 H4) as K4.
    cbn [skipn transformation_steps run_frames] in Hrest.
    destruct (handed _standardize_currency_other_cols d4) as [d5|] eqn:E5;
      [|discriminate].
    destruct (currency_handed d4 d5 E5) as (cu & o & _ & Ho & _).
    assert (Hin : In "Currency_Other" (labels d4))
      by (apply select_present; rewrite Ho; discriminate).
    destruct (K4 _ Hin) as [E|Hin']; [discriminate|contradiction].
  - apply String.eqb_neq in Eo.
    pose proof (run_frames_known L _ Hsteps _ dk K1 Hrest) as Kk.
    assert (Hcanon : In c canonical_columns).
    { unfold survey_columns in Hc; simpl in Hc; unfold canonical_columns.
      repeat (destruct Hc as [<-|Hc];
              [first [now elim Eo | simpl; auto 20]|]).
      contradiction. }
    pose proof (gathered_present _ c _ _ G Hcanon) as Hsel.
    unfold final_cleaning in Hsel; rewrite !select_map_cells in Hsel.
    assert (Hin : In c (labels dk)).
    { apply select_present; intros E; apply Hsel; now rewrite E. }
    destruct (Kk _ Hin) as [E|Hin']; [contradiction|contradiction].
Qed.

(** X18. On an input that lacks one of the survey columns, under its raw
    header and under its canonical name, [transform] returns an empty table. *)
Theorem incomplete_input_gives_empty_table
        (w : world) (df : loc) (d : DataFrame) (c : string) :
  deref w df = Some d ->
  In c survey_columns ->
  ~ In c (map (rename_label rename_map) (labels d)) ->
  exists (r : loc) (w' : world) (out : DataFrame),
    transform parse_timestamp df w = (Ok r, w') /\
    deref w' r = Some out /\
    empty out = true.
Proof.
  intros Hd Hc Hmiss.
  destruct (transform_returns_table parse_timestamp w df d Hd)
    as (r & w' & out & Hrun & Hout & _).
  exists r, w', out; repeat split; auto.
  destruct (empty out) eqn:Hne; [reflexivity|exfalso].
  destruct (transform_success_working w df d r w' out Hd Hrun Hout Hne)
    as (dk & cols & _ & Hframes & G & _ & _).
  apply (incomplete_input_fails (working d) dk cols c Hc); auto.
  now rewrite working_labels.
Qed.

End Output.

Lemma sample_run :
  transform coerce_all 0 sample_world = (Ok 4, cleaned_world) /\
  deref cleaned_world 4 = Some cleaned_sample.
Proof. split; vm_compute; reflexivity. Qed.

Lemma output_has_the_distinct_rows_witness :
  nrows cleaned_sample =
  nrows (drop_duplicates (table [respondent; no_answer; respondent_usd])).
Proof.
  apply (output_has_the_distinct_rows coerce_all sample_world 0 _ 4
           cleaned_world cleaned_sample).
  - reflexivity.
  - exact (proj1 sample_run).
  - exact (proj2 sample_run).
  - reflexivity.
Defined.

Lemma output_has_no_blank_text_witness : blank "Female" = false.
Proof.
  apply (output_has_no_blank_text coerce_all sample_world 0
           (table [respondent; no_answer; respondent_usd]) 4
           cleaned_world cleaned_sample "Gender"
           [Str "Female"; Str "Prefer not to say"; Str "Male"] "Female").
  - reflexivity.
  - exact (proj1 sample_run).
  - exact (proj2 sample_run).
  - reflexivity.
  - vm_compute; auto 10.
  - simpl; auto.
Defined.

Lemma carried_columns_pass_through_witness :
  exists col0,
    select (rename rename_map
              (working (table [respondent; no_answer; respondent_usd])))
           "Age" = [col0] /\
    select cleaned_sample "Age" = [map (replace_blank Null) col0].
Proof.
  apply (carried_columns_pass_through coerce_all sample_world 0
           (table [respondent; no_answer; respondent_usd]) 4
           cleaned_world cleaned_sample "Age").
  - reflexivity.
  - exact (proj1 sample_run).
  - exact (proj2 sample_run).
  - reflexivity.
  - unfold carried; simpl; auto.
Defined.

Lemma incomplete_input_gives_empty_table_witness :
  exists (r : loc) (w' : world) (out : DataFrame),
    transform coerce_all 0
      (mkWorld [mkFrame 1 [("Job title", [Str "Nurse"])]] []) =
    (Ok r, w') /\
    deref w' r = Some out /\
    empty out = true.
Proof.
  apply (incomplete_input_gives_empty_table coerce_all
           (mkWorld [mkFrame 1 [("Job title", [Str "Nurse"])]] []) 0
           (mkFrame 1 [("Job title", [Str "Nurse"])]) "Age").
  - reflexivity.
  - unfold survey_columns; simpl; auto.
  - simpl; intuition discriminate.
Defined.


(** ** Removing the duplicates *)

Lemma existsb_row (r : list cell) (seen : list (list cell)) :
  existsb (row_eqb r) seen = true <-> In r seen.
Proof.
  rewrite existsb_exists; split.
  - intros (x & Hx & E); apply row_eqb_eq in E; now subst x.
  - intros H; exists r; split; [exact H|now apply row_eqb_eq].
Qed.

Lemma firsts_NoDup (rs : list (list cell)) :
  forall seen,
    NoDup (pick (firsts seen rs) rs) /\
    forall r, In r (pick (firsts seen rs) rs) -> In r rs /\ ~ In r seen.
Proof.
  induction rs as [|r t IH]; intros seen; cbn [firsts pick].
  - split; [apply NoDup_nil|intros r []].
  - destruct (IH (r :: seen)) as [Hnd Hout].
    destruct (existsb (row_eqb r) seen) eqn:E; cbn [negb].
    + split; [exact Hnd|].
      intros r' Hr'; destruct (Hout r' Hr') as [Hin Hn].
      split; [now right|intros H; apply Hn; now right].
    + split.
      * apply NoDup_cons; [|exact Hnd].
        intros H; destruct (Hout r H) as [_ Hn]; apply Hn; now left.
      * intros r' [<-|Hr'].
        -- split; [now left|].
           intros H; apply existsb_row in H; congruence.
        -- destruct (Hout r' Hr') as [Hin Hn].
           split; [now right|intros H; apply Hn; now right].
Qed.

Lemma once_NoDup (rs : list (list cell)) :
  (forall r, In r rs -> occurrences r rs <= 1) -> NoDup rs.
Proof.
  induction rs as [|r t IH]; intros H; [apply NoDup_nil|].
  assert (Hr : occurrences r (r :: t) <= 1) by (apply H; now left).
  unfold occurrences in Hr; cbn [filter] in Hr.
  rewrite (proj2 (row_eqb_eq r r) eq_refl) in Hr; cbn [length] in Hr.
  apply NoDup_cons.
  - intros Hin.
    assert (In r (filter (row_eqb r) t))
      by (apply filter_In; split; [exact Hin|now apply row_eqb_eq]).
    destruct (filter (row_eqb r) t); [contradiction|simpl in Hr; lia].
  - apply IH; intros r' Hin.
    specialize (H r' (or_intror Hin)).
    unfold occurrences in *; cbn [filter] in H.
    destruct (row_eqb r' r); cbn [length] in H; lia.
Qed.

Lemma no_duplicates_NoDup (d : DataFrame) :
  empty d = false ->
  empty (take (duplicated_all d) d) = true ->
  NoDup (rows d).
Proof.
  intros He Hnone.
  rewrite take_empty, (not_empty_columns d He), orb_false_r in Hnone.
  apply Nat.eqb_eq, length_zero_iff_nil in Hnone.
  apply once_NoDup; intros r Hin.
  destruct (Nat.leb 2 (occurrences r (rows d))) eqn:E;
    [|apply Nat.leb_gt in E; lia].
  exfalso.
  assert (Ht : In true (filter (fun b => b) (duplicated_all d))).
  { apply filter_In; split; [|reflexivity].
    unfold duplicated_all; apply in_map_iff; now exists r. }
  now rewrite Hnone in Ht.
Qed.

(** X19. [# Remove duplicates] hands the rest of [transform] a table whose
    rows are pairwise different and are the rows of the input, under the same
    labels; when it has dropped a row, the table is a new one and the input is
    as it was. *)
Theorem duplicates_are_removed (w : world) (df : loc) (d : DataFrame) :
  deref w df = Some d ->
  empty d = false ->
  exists df0 w0 d1,
    remove_duplicates df w = (Ok df0, w0) /\
    deref w0 df0 = Some d1 /\
    deref w0 df = Some d /\
    NoDup (rows d1) /\
    (forall r, In r (rows d1) <-> In r (rows d)) /\
    labels d1 = labels d.
Proof.
  intros Hd He; rewrite (remove_duplicates_run df w d Hd).
  destruct (empty (take (duplicated_all d) d)) eqn:E; cbn [negb].
  - exists df, w, d; repeat split; auto.
    now apply no_duplicates_NoDup.
  - do 3 eexists; split; [reflexivity|].
    split; [apply deref_new|].
    split; [unfold deref; cbn [heap];
            rewrite nth_error_app1 by (apply (deref_lt _ _ _ Hd));
            exact Hd|].
    assert (Hrows : rows (drop_duplicates d) =
                    pick (firsts [] (rows d)) (rows d)).
    { unfold drop_duplicates; apply rows_take.
      now rewrite firsts_length, rows_length. }
    rewrite Hrows; repeat split.
    + apply firsts_NoDup.
    + intros H; now apply (firsts_NoDup (rows d) []).
    + intros H; apply firsts_keep; auto.
    + apply take_labels.
Qed.

Lemma duplicates_are_removed_witness :
  let d := table [respondent; no_answer; respondent] in
  let w := mkWorld [d] [] in
  exists df0 w0 d1,
    remove_duplicates 0 w = (Ok df0, w0) /\
    deref w0 df0 = Some d1 /\
    deref w0 0 = Some d /\
    NoDup (rows d1) /\
    (forall r, In r (rows d1) <-> In r (rows d)) /\
    labels d1 = labels d.
Proof.
  intros d w.
  apply (duplicates_are_removed w 0 d); reflexivity.
Defined.

(** ** The table of the caller after a run *)

Lemma in_place_passes (pre : list step) :
  Forall in_place pre ->
  forall df w d dm,
    deref w df = Some d ->
    run_frames pre d = Some dm ->
    exists wm,
      passes pre df w = Some (df, wm) /\
      deref wm df = Some dm /\
      length (heap wm) = length (heap w).
Proof.
  induction pre as [|s rest IH]; intros Hs df w d dm Hd Hrun.
  - inversion Hrun; subst dm; now exists w.
  - inversion Hs as [|? ? H1 H2]; subst.
    cbn [run_frames] in Hrun; unfold handed in Hrun.
    pose proof (call_run s df w d Hd) as Hcall; cbv zeta in Hcall.
    pose proof (H1 d) as Hplace.
    destruct (statements s d) as [[[n|]|e] d'] eqn:Es;
      cbn [fst] in Hcall, Hplace; try discriminate.
    { exfalso; exact (Hplace n eq_refl). }
    destruct (empty d') eqn:Ee; [discriminate|].
    set (w1 := after_statements s df d w) in *.
    assert (Hd1 : deref w1 df = Some d').
    { unfold w1, after_statements, deref; rewrite Es; cbn [heap snd].
      apply store_at_same, (deref_lt _ _ _ Hd). }
    destruct (IH H2 df w1 d' dm Hd1 Hrun) as (wm & Hp & Hdm & Hlen).
    exists wm; repeat split; auto.
    + cbn [passes]; now rewrite Hcall, Hd1, Ee.
    + rewrite Hlen; unfold w1, after_statements; cbn [heap].
      apply store_at_length.
Qed.

Lemma first_methods_in_place :
  Forall in_place
         [_rename_columns; _normalize_job_titles;
          _standardize_annual_salaries; _standardize_additional_comp].
Proof.
  repeat apply Forall_cons; try apply Forall_nil; intros d n.
  - rewrite rename_statements; discriminate.
  - rewrite job_titles_statements.
    destruct (select d "Job_Title") as [|? [|? ?]]; try discriminate.
    cbv zeta; destruct (select d "Seniority") as [|? [|? ?]]; discriminate.
  - rewrite salary_statements.
    destruct (select d "Annual_Salary") as [|? [|? ?]]; discriminate.
  - rewrite comp_statements.
    destruct (select d "Additional_Comp") as [|? [|? ?]]; discriminate.
Qed.

Section Caller.

Variable parse_timestamp : Series -> string -> cell.

(** What follows the call of a method in the loop writes above [n] when the
    method has returned a reference above [n]. *)
Lemma confined_loop_rest (n : nat) (s : step) (rest : list step)
      (df : loc) :
  n <= df ->
  confined n (fun l => n <= l)
    (e <- on df (gets empty);;
     if e : bool
     then
       logger ERROR
         ("Transformation step " ++ name s
            ++ " returned empty DataFrame")%string None;;
       new DataFrame_empty
     else run_steps rest df finish)%se.
Proof.
  intros Hdf.
  eapply confined_bind; [apply confined_on; exact Hdf|]; intros [|] _.
  - eapply confined_bind; [apply confined_logger|].
    intros _ _; apply confined_new.
  - apply confined_run_steps; [apply confined_finish|exact Hdf].
Qed.

(** X20. When no row of the input occurs twice and the first five methods
    pass, the call leaves the table of the caller as the first four methods
    and the assignment of Currency have written it: renamed, with Job_Title,
    Seniority, Annual_Salary, Additional_Comp and Currency rewritten and
    Currency_Other still there. What the later methods do, and whether they
    fail, shows in other tables only. *)
Theorem callers_table_after_the_call
        (w : world) (df : loc) (d d4 : DataFrame) (c o : Series) :
  deref w df = Some d ->
  empty d = false ->
  empty (take (duplicated_all d) d) = true ->
  run_frames [_rename_columns; _normalize_job_titles;
              _standardize_annual_salaries; _standardize_additional_comp]
             d = Some d4 ->
  select d4 "Currency" = [c] ->
  select d4 "Currency_Other" = [o] ->
  deref (snd (transform parse_timestamp df w)) df =
  Some (update "Currency" (currency_series o) d4).
Proof.
  intros Hd He Hnone H4 Hc Ho.
  destruct (enters_run w df d Hd)
    as (df0 & w0 & d1 & lg & Henter & Hd1 & Hcase & _).
  destruct Hcase as [(_ & -> & -> & Hheap)|(Hdup & _)];
    [|rewrite Hnone in Hdup; discriminate].
  rewrite (transform_enters parse_timestamp w df d df w0 Hd He Henter).
  destruct (in_place_passes _ first_methods_in_place df w0 d d4 Hd1 H4)
    as (wm & Hp & Hdm & Hlen).
  change (transformation_steps parse_timestamp)
    with ([_rename_columns; _normalize_job_titles;
           _standardize_annual_salaries; _standardize_additional_comp] ++
          _standardize_currency_other_cols ::
          skipn 5 (transformation_steps parse_timestamp)).
  unfold try_except.
  rewrite (run_steps_passes _ _ _ _ _ _ _ Hp).
  cbn [run_steps].
  pose proof (call_run _standardize_currency_other_cols df wm d4 Hdm)
    as Hcall.
  cbv zeta in Hcall; unfold after_statements in Hcall.
  rewrite currency_statements, Hc, Ho in Hcall; cbn [fst snd] in Hcall.
  set (d5 := update "Currency" (currency_series o) d4) in *.
  set (N := length (heap wm)) in *.
  set (w5 := mkWorld _ _) in Hcall.
  unfold bind at 1; rewrite Hcall.
  assert (Hlt : df < N) by (unfold N; apply (deref_lt _ _ _ Hdm)).
  assert (H5 : deref w5 df = Some d5).
  { unfold w5, deref; cbn [heap].
    rewrite nth_error_app1 by (now rewrite store_at_length).
    now apply store_at_same. }
  assert (HN : N <= length (heap w5)).
  { unfold w5; cbn [heap]; rewrite length_app, store_at_length.
    fold N; lia. }
  pose proof (confined_loop_rest N _standardize_currency_other_cols
                (skipn 5 (transformation_steps parse_timestamp)) N
                (le_n N)) as Hconf.
  match goal with
  | |- deref (snd (match ?m w5 with _ => _ end)) df = _ =>
      destruct (m w5) as [[l|e] w6] eqn:E6;
      destruct (Hconf w5 _ w6 HN E6) as [[Hlen6 Hst] _]
  end.
  - cbn [snd]; now rewrite (Hst df Hlt).
  - unfold bind, logger, new; cbn [snd fst].
    unfold deref; cbn [heap].
    assert (df < length (heap w6)) by lia.
    rewrite nth_error_app1 by assumption.
    exact (eq_trans (Hst df Hlt) H5).
Qed.

End Caller.

Lemma callers_table_after_the_call_witness :
  let d := table [respondent; respondent_usd] in
  let w := mkWorld [d] [] in
  exists d4 o,
    run_frames [_rename_columns; _normalize_job_titles;
                _standardize_annual_salaries; _standardize_additional_comp]
               d = Some d4 /\
    select d4 "Currency_Other" = [o] /\
    deref (snd (transform coerce_all 0 w)) 0 =
    Some (update "Currency" (currency_series o) d4).
Proof.
  intros d w.
  pose (d4 := match run_frames
                      [_rename_columns; _normalize_job_titles;
                       _standardize_annual_salaries;
                       _standardize_additional_comp] d with
              | Some x => x
              | None => DataFrame_empty
              end).
  exists d4, [Str "Swiss Francs"; Null].
  split; [vm_compute; reflexivity|].
  split; [vm_compute; reflexivity|].
  apply (callers_table_after_the_call coerce_all w 0 d d4
           [Str "Other"; Str "US Dollar"] [Str "Swiss Francs"; Null]);
    vm_compute; reflexivity.
Defined.


(** ** What the log says of the result *)

Lemma said_trans (w1 w2 w3 : world) (l1 l2 : list log_record) :
  said w1 w2 l1 -> said w2 w3 l2 -> said w1 w3 (l1 ++ l2).
Proof. unfold said; intros H1 H2; now rewrite H2, H1, app_assoc. Qed.

Lemma drop_duplicates_not_empty (d : DataFrame) :
  empty d = false -> empty (drop_duplicates d) = false.
Proof.
  intros He; unfold drop_duplicates.
  rewrite take_empty, (not_empty_columns d He), orb_false_r.
  pose proof (rows_length d) as Hl.
  unfold empty in He; apply orb_false_iff in He; destruct He as [Hn _].
  apply Nat.eqb_neq in Hn.
  destruct (rows d) as [|r t]; [simpl in Hl; lia|].
  reflexivity.
Qed.

Lemma working_not_empty (d : DataFrame) :
  empty d = false -> empty (working d) = false.
Proof.
  intros He; unfold working.
  destruct (negb _); [now apply drop_duplicates_not_empty|exact He].
Qed.

(** The statements before the loop log no alarm. *)
Lemma enters_log (w : world) (df : loc) (d : DataFrame) :
  deref w df = Some d ->
  exists df0 w0 lg,
    enters df w = (Ok df0, w0) /\
    deref w0 df0 = Some (working d) /\
    length (heap w) <= length (heap w0) /\
    said w w0 lg /\
    existsb alarm lg = false.
Proof.
  intros Hd; unfold enters, working.
  erewrite bind_ok by reflexivity.
  set (wi := mkWorld (heap w) _).
  assert (Hdi : deref wi df = Some d) by exact Hd.
  pose proof (remove_duplicates_run _ _ _ Hdi) as Hdup.
  destruct (negb (empty (take (duplicated_all d) d))) eqn:Edup;
    rewrite (bind_ok Hdup).
  - set (wd := mkWorld (heap wi ++ _) _).
    assert (Hdd : deref wd (length (heap wi)) = Some (drop_duplicates d))
      by apply deref_new.
    rewrite (bind_ok (remove_null_rows_run _ _ _ Hdd)).
    unfold ret; do 3 eexists; split; [reflexivity|].
    split; [exact Hdd|].
    split; [cbn [heap wd wi]; rewrite length_app; lia|].
    unfold said; cbn [logged wd wi].
    split; [rewrite <- !app_assoc; reflexivity|].
    rewrite !existsb_app.
    now destruct (negb (empty (take (all_null _) _))).
  - rewrite (bind_ok (remove_null_rows_run _ _ _ Hdi)).
    unfold ret; do 3 eexists; split; [reflexivity|].
    split; [exact Hdi|].
    split; [cbn [heap wi]; lia|].
    unfold said; cbn [logged wi].
    split; [rewrite <- !app_assoc; reflexivity|].
    rewrite !existsb_app.
    now destruct (negb (empty (take (all_null _) _))).
Qed.

Lemma gather_length (d : DataFrame) :
  forall cs cols, gather cs d = Some cols -> length cs <= length cols.
Proof.
  induction cs as [|c rest IH]; intros cols G; [simpl; lia|].
  cbn [gather] in G.
  destruct (select d c) as [|x l]; [discriminate|].
  destruct (gather rest d) as [cols'|] eqn:G'; [|discriminate].
  assert (E : cols = map (pair c) (x :: l) ++ cols') by congruence.
  subst cols; rewrite length_app, length_map; cbn [length].
  specialize (IH cols' eq_refl); lia.
Qed.

(** The end of [transform] on a table that is not empty: it returns the
    projection, which is not empty, and logs no alarm; or it raises. *)
Lemma finish_log (df : loc) (w : world) (d : DataFrame) :
  deref w df = Some d ->
  empty d = false ->
  (exists r w' out lg,
      finish df w = (Ok r, w') /\
      deref w' r = Some out /\ empty out = false /\
      length (heap w) <= r /\
      said w w' lg /\ existsb alarm lg = false) \/
  (exists e w' lg,
      finish df w = (Raise e, w') /\
      length (heap w) <= length (heap w') /\ said w w' lg).
Proof.
  intros Hd He.
  destruct (finish df w) as [res w'] eqn:Hf; unfold finish in Hf.
  rewrite (bind_ok (on_gets _ _ _ _ _ Hd)) in Hf.
  erewrite bind_ok in Hf by reflexivity.
  erewrite bind_ok in Hf by (apply on_gets, deref_new).
  erewrite bind_ok in Hf by reflexivity.
  erewrite bind_ok in Hf by reflexivity.
  cbn [logged heap] in Hf.
  fold (final_cleaning d) in Hf.
  match type of Hf with
  | bind (dtype_conversion ?l) _ ?w0 = _ =>
      pose proof (dtype_conversion_run w0 l (final_cleaning d)
                    (deref_new _ _ _)) as Hconv;
      set (l2 := l) in *; set (w2 := w0) in *
  end.
  destruct (unique_labels (final_cleaning d)).
  - rewrite (bind_ok Hconv) in Hf.
    set (w3 := mkWorld (heap w2) _) in Hf.
    assert (H3 : deref w3 l2 = Some (final_cleaning d))
      by (unfold w3, w2, l2; apply deref_new).
    unfold bind at 1 in Hf; rewrite (on_run _ _ _ _ _ H3) in Hf.
    unfold getitems in Hf.
    destruct (gather canonical_columns (final_cleaning d)) as [cols|] eqn:G;
      cbn [fst snd] in Hf.
    + left.
      rewrite (store_at_id _ _ _ H3) in Hf.
      unfold bind at 1, new at 1 in Hf; cbn [heap logged] in Hf.
      erewrite bind_ok in Hf by (apply on_gets, deref_new).
      unfold bind, logger, ret in Hf; cbn [heap logged] in Hf.
      inversion Hf; subst res w'; clear Hf.
      do 4 eexists; split; [reflexivity|].
      split; [apply deref_new|].
      split; [|split].
      * pose proof (gather_length _ _ _ G) as Hl.
        unfold empty in *; cbn [nrows data final_cleaning map_cells].
        apply orb_false_iff in He; destruct He as [Hn _]; rewrite Hn.
        destruct cols; [simpl in Hl; lia|reflexivity].
      * cbn [heap w3 w2]; rewrite !length_app; lia.
      * unfold said; cbn [logged w3 w2].
        split; [rewrite <- !app_assoc; reflexivity|reflexivity].
    + right; inversion Hf; subst res w'; clear Hf.
      do 3 eexists; split; [reflexivity|].
      split; [cbn [heap w3 w2]; rewrite store_at_length, !length_app; lia|].
      unfold said; cbn [logged w3 w2].
      rewrite <- !app_assoc; reflexivity.
  - rewrite (bind_ok Hconv) in Hf.
    set (w3 := mkWorld (heap w2 ++ _) _) in Hf.
    assert (H3 : deref w3 (length (heap w2)) = Some DataFrame_empty)
      by (unfold w3; apply deref_new).
    unfold bind at 1 in Hf; rewrite (on_run _ _ _ _ _ H3) in Hf.
    cbn [fst snd getitems gather canonical_columns] in Hf.
    change (select DataFrame_empty "Timestamp") with (@nil Series) in Hf.
    cbv iota in Hf; cbn [fst snd] in Hf.
    right; inversion Hf; subst res w'; clear Hf.
    do 3 eexists; split; [reflexivity|].
    split; [cbn [heap w3 w2]; rewrite store_at_length, !length_app; lia|].
    unfold said; cbn [logged w3 w2].
    rewrite <- !app_assoc; reflexivity.
Qed.

Lemma entry_log_quiet (s : step) : existsb alarm (entry_log s) = false.
Proof. unfold entry_log; now destruct (starting s). Qed.

(** The early return of the loop. *)
Lemma early_return (s : step) (w wx : world) (lx : list log_record) :
  said w wx lx ->
  length (heap w) <= length (heap wx) ->
  exists r0 w' lg,
    (logger ERROR
       ("Transformation step " ++ name s
          ++ " returned empty DataFrame")%string None;;
     new DataFrame_empty)%se wx = (Ok r0, w') /\
    deref w' r0 = Some DataFrame_empty /\
    length (heap w) <= r0 /\
    said w w' lg /\
    existsb alarm lg = true.
Proof.
  intros Sx Hx; unfold bind, logger, new; cbn [fst snd heap logged].
  do 3 eexists; split; [reflexivity|].
  split; [apply deref_new|].
  split; [exact Hx|].
  unfold said in *; cbn [logged]; rewrite Sx, <- app_assoc.
  split; [reflexivity|].
  rewrite existsb_app; cbn; now rewrite orb_true_r.
Qed.

(** The loop on a table that is not empty: it reaches its end on a table
    that is not empty without an alarm, or returns a new empty table after
    an alarm. *)
Lemma run_steps_log (after : loc -> M loc) (steps : list step) :
  forall df w d r w',
    deref w df = Some d ->
    empty d = false ->
    run_steps steps df after w = (r, w') ->
    (exists dk dfk wk lg,
        deref wk dfk = Some dk /\ empty dk = false /\
        length (heap w) <= length (heap wk) /\
        said w wk lg /\ existsb alarm lg = false /\
        after dfk wk = (r, w')) \/
    (exists r0 lg,
        r = Ok r0 /\ deref w' r0 = Some DataFrame_empty /\
        length (heap w) <= r0 /\
        said w w' lg /\ existsb alarm lg = true).
Proof.
  induction steps as [|s rest IH]; intros df w d r w' Hd He Hrun;
    cbn [run_steps] in Hrun.
  - left; exists d, df, w, []; repeat split; auto.
    unfold said; now rewrite app_nil_r.
  - pose proof (call_run s df w d Hd) as Hcall; cbv zeta in Hcall.
    set (w1 := after_statements s df d w) in *.
    assert (S1 : said w w1 (entry_log s)) by reflexivity.
    assert (L1 : length (heap w1) = length (heap w))
      by (unfold w1, after_statements; cbn [heap]; apply store_at_length).
    destruct (fst (statements s d)) as [[n|]|e] eqn:Es;
      rewrite (bind_ok Hcall) in Hrun.
    + (* the method built a frame *)
      match type of Hrun with
      | bind _ _ ?wx = _ =>
          set (w2 := wx) in *;
          assert (Hn : deref w2 (length (heap w)) = Some n)
      end.
      { unfold w2; rewrite <- L1; apply deref_new. }
      assert (S2 : said w w2 (entry_log s)) by reflexivity.
      assert (L2 : length (heap w) <= length (heap w2))
        by (unfold w2; cbn [heap]; rewrite length_app; lia).
      rewrite (bind_ok (on_gets _ _ _ _ _ Hn)) in Hrun.
      destruct (empty n) eqn:En.
      * right; destruct (early_return s w w2 _ S2 L2)
          as (r0 & wy & lg & E & Hr & Lr & Sx & Ha).
        rewrite E in Hrun; inversion Hrun; subst r w'.
        exists r0, lg; auto.
      * destruct (IH _ _ _ _ _ Hn En Hrun)
          as [(dk & dfk & wk & lg & Hdk & Hek & Lk & Sk & Hq & Ha)
             |(r0 & lg & -> & Hr & Lr & Sx & Ha)].
        -- left; exists dk, dfk, wk, (entry_log s ++ lg).
           repeat split; auto.
           ++ lia.
           ++ exact (said_trans _ _ _ _ _ S2 Sk).
           ++ now rewrite existsb_app, entry_log_quiet, Hq.
        -- right; exists r0, (entry_log s ++ lg); repeat split; auto.
           ++ lia.
           ++ exact (said_trans _ _ _ _ _ S2 Sx).
           ++ now rewrite existsb_app, Ha, orb_true_r.
    + (* the method returned df *)
      assert (Hn : deref w1 df = Some (snd (statements s d))).
      { unfold w1, after_statements, deref; cbn [heap].
        apply store_at_same, (deref_lt _ _ _ Hd). }
      assert (L1' : length (heap w) <= length (heap w1)) by lia.
      rewrite (bind_ok (on_gets _ _ _ _ _ Hn)) in Hrun.
      destruct (empty (snd (statements s d))) eqn:En.
      * right; destruct (early_return s w w1 _ S1 L1')
          as (r0 & wy & lg & E & Hr & Lr & Sx & Ha).
        rewrite E in Hrun; inversion Hrun; subst r w'.
        exists r0, lg; auto.
      * destruct (IH _ _ _ _ _ Hn En Hrun)
          as [(dk & dfk & wk & lg & Hdk & Hek & Lk & Sk & Hq & Ha)
             |(r0 & lg & -> & Hr & Lr & Sx & Ha)].
        -- left; exists dk, dfk, wk, (entry_log s ++ lg).
           repeat split; auto.
           ++ lia.
           ++ exact (said_trans _ _ _ _ _ S1 Sk).
           ++ now rewrite existsb_app, entry_log_quiet, Hq.
        -- right; exists r0, (entry_log s ++ lg); repeat split; auto.
           ++ lia.
           ++ exact (said_trans _ _ _ _ _ S1 Sx).
           ++ now rewrite existsb_app, Ha, orb_true_r.
    + (* the method raised *)
      match type of Hrun with
      | bind _ _ ?wx = _ =>
          set (w2 := wx) in *;
          assert (Hn : deref w2 (length (heap w)) = Some DataFrame_empty)
      end.
      { unfold w2; rewrite <- L1; apply deref_new. }
      assert (S2 : said w w2 (entry_log s ++ [critical s e]))
        by (unfold said, w2; cbn [logged]; rewrite S1, <- app_assoc;
            reflexivity).
      assert (L2 : length (heap w) <= length (heap w2))
        by (unfold w2; cbn [heap]; rewrite length_app; lia).
      rewrite (bind_ok (on_gets _ _ _ _ _ Hn)) in Hrun.
      change (empty DataFrame_empty) with true in Hrun; cbv iota in Hrun.
      right; destruct (early_return s w w2 _ S2 L2)
        as (r0 & wy & lg & E & Hr & Lr & Sx & Ha).
      rewrite E in Hrun; inversion Hrun; subst r w'.
      exists r0, lg; auto.
Qed.

Section Log.

Variable parse_timestamp : Series -> string -> cell.

Lemma transform_log (w : world) (df : loc) (d : DataFrame) :
  deref w df = Some d ->
  empty d = false ->
  exists r w' out lg,
    transform parse_timestamp df w = (Ok r, w') /\
    deref w' r = Some out /\
    length (heap w) <= r /\
    said w w' lg /\
    existsb alarm lg = empty out.
Proof.
  intros Hd He.
  destruct (enters_log w df d Hd)
    as (df0 & w0 & lg0 & Henter & Hd0 & L0 & S0 & Q0).
  rewrite (transform_enters parse_timestamp w df d df0 w0 Hd He Henter).
  unfold try_except.
  destruct (run_steps (transformation_steps parse_timestamp) df0 finish w0)
    as [r1 w1] eqn:Hloop.
  destruct (run_steps_log finish _ df0 w0 (working d) r1 w1 Hd0
                          (working_not_empty d He) Hloop)
    as [(dk & dfk & wk & lg & Hdk & Hek & Lk & Sk & Hq & Hfin)
       |(r0 & lg & -> & Hr & Lr & Sx & Ha)].
  - destruct (finish_log dfk wk dk Hdk Hek)
      as [(r & w' & out & lgf & Ef & Hout & Hne & Lf & Sf & Qf)
         |(e & w' & lgf & Ef & Lf & Sf)];
      rewrite Ef in Hfin; inversion Hfin; subst r1 w1.
    + exists r, w', out, (lg0 ++ lg ++ lgf); repeat split; auto.
      * lia.
      * exact (said_trans _ _ _ _ _ S0 (said_trans _ _ _ _ _ Sk Sf)).
      * now rewrite !existsb_app, Q0, Hq, Qf, Hne.
    + unfold bind, logger, new; cbn [fst snd heap logged].
      do 4 eexists; split; [reflexivity|].
      split; [apply deref_new|].
      split; [lia|].
      split.
      * unfold said in *; cbn [logged].
        rewrite Sf, Sk, S0, <- !app_assoc; reflexivity.
      * rewrite !existsb_app; cbn; now rewrite !orb_true_r.
  - exists r0, w1, DataFrame_empty, (lg0 ++ lg); repeat split; auto.
    + lia.
    + exact (said_trans _ _ _ _ _ S0 Sx).
    + now rewrite existsb_app, Ha, orb_true_r.
Qed.

(** X21. On an input that is not empty, [transform] returns an empty table
    exactly when it has logged a record at error or critical severity during
    the call: a failure is never silent, and a table that is not empty comes
    with no alarm. *)
Theorem empty_result_comes_with_an_alarm
        (w : world) (df : loc) (d : DataFrame) :
  deref w df = Some d ->
  empty d = false ->
  exists r w' out lg,
    transform parse_timestamp df w = (Ok r, w') /\
    deref w' r = Some out /\
    logged w' = logged w ++ lg /\
    existsb alarm lg = empty out.
Proof.
  intros Hd He.
  destruct (transform_log w df d Hd He)
    as (r & w' & out & lg & H1 & H2 & _ & H3 & H4).
  now exists r, w', out, lg.
Qed.

(** X22. On an input that is not empty, the table that [transform] returns is
    a new object: the reference is none of the store of the caller, and so is
    not the input, whose writes the result does not show. *)
Theorem result_is_a_new_table (w : world) (df : loc) (d : DataFrame) :
  deref w df = Some d ->
  empty d = false ->
  exists r w',
    transform parse_timestamp df w = (Ok r, w') /\
    length (heap w) <= r /\
    r <> df /\
    deref w r = None.
Proof.
  intros Hd He.
  destruct (transform_log w df d Hd He)
    as (r & w' & out & lg & H1 & _ & H2 & _).
  exists r, w'; repeat split; auto.
  - pose proof (deref_lt _ _ _ Hd); lia.
  - unfold deref; now apply nth_error_None.
Qed.

End Log.

Lemma empty_result_comes_with_an_alarm_witness :
  exists r w' out lg,
    transform coerce_all 0
      (mkWorld [mkFrame 1 [("Job title", [Str "Nurse"])]] []) =
    (Ok r, w') /\
    deref w' r = Some out /\
    logged w' = [] ++ lg /\
    existsb alarm lg = empty out.
Proof.
  apply (empty_result_comes_with_an_alarm coerce_all
           (mkWorld [mkFrame 1 [("Job title", [Str "Nurse"])]] []) 0
           (mkFrame 1 [("Job title", [Str "Nurse"])])); reflexivity.
Defined.

Lemma result_is_a_new_table_witness :
  exists r w',
    transform coerce_all 0 sample_world = (Ok r, w') /\
    length (heap sample_world) <= r /\
    r <> 0 /\
    deref sample_world r = None.
Proof.
  apply (result_is_a_new_table coerce_all sample_world 0
           (table [respondent; no_answer; respondent_usd])); reflexivity.
Defined.


(** ** Income context *)






(** ** The extractor *)

Section Extraction.

Variable bytes : Type.
Variable read_head : string -> nat -> outcome bytes.
Variable chardet_detect : bytes -> outcome (option string).
Variable read_csv : option string -> string -> outcome DataFrame.
Variable input_file_path : option string.

Lemma detect_encoding_except_utf8 (e : io_error)
      (lg : list extract_record) :
  fst (detect_encoding_except e lg) = "utf-8".
Proof. now destruct e. Qed.

Lemma detect_encoding_utf8 (lg : list extract_record) :
  fst (detect_encoding read_head chardet_detect input_file_path lg) =
  "utf-8".
Proof.
  unfold detect_encoding.
  destruct input_file_path as [[|c path]|]; try reflexivity.
  destruct (read_head _ _) as [head|e];
    [|apply detect_encoding_except_utf8].
  destruct (chardet_detect head) as [[text|]|e]; try reflexivity;
    [|apply detect_encoding_except_utf8].
  destruct (String.eqb text "utf-8") eqn:E; cbn [negb fst];
    [now apply String.eqb_eq|reflexivity].
Qed.

(** X24. Whatever the path, the file and the detection, [detect_encoding]
    returns [utf-8]: the encoding that chardet detects is logged, and is
    returned only when it is [utf-8] itself. *)
Theorem detect_encoding_is_utf8 (lg : list extract_record) :
  fst (detect_encoding read_head chardet_detect input_file_path lg) =
  "utf-8".
Proof. apply detect_encoding_utf8. Qed.

(** X25. [extract_data] reads the file as UTF-8 whatever chardet detects, and
    never raises: when the reading fails it returns an empty table, after a
    critical record. *)
Theorem extract_data_reads_utf8 (lg : list extract_record) :
  let run := extract_data read_head chardet_detect read_csv
                          input_file_path lg in
  match read_csv input_file_path "utf-8" with
  | Returned df => fst run = df
  | Raised e =>
      fst run = DataFrame_empty /\
      last (snd run) (Told INFO EmptyString None) =
      Told CRITICAL "Exception occurred in extract_csv_data : " (Some e)
  end.
Proof.
  unfold extract_data, extract_csv_data.
  pose proof (detect_encoding_utf8
                (lg ++ [Told INFO "Extracting data from CSV..." None]))
    as H.
  destruct (detect_encoding _ _ _ _) as [encoding lg']; cbn [fst] in H.
  subst encoding.
  destruct (read_csv input_file_path "utf-8"); cbn [fst snd];
    [reflexivity|split; [reflexivity|apply last_last]].
Qed.

End Extraction.
